(** * libsigrok, output/hex.c: the streaming hexadecimal output module

    A shallow embedding of [init], [receive] and [cleanup] of
    [src/output/hex.c], and of the channel and option functions of
    [src/device.c] that prepare the device [init] reads, with the
    properties of the encoder that follow from the code.

    Conventions of the embedding.
    - C [int] values are [Z]; signed overflow, a shift by a negative
      amount and a read outside the packet buffer are undefined in C and
      are the outcome [Undefined] here.
    - [unsigned int], [uint8_t] and [uint64_t] arithmetic is [Z]
      arithmetic with the reduction modulo [2^32], [2^8], [2^64] written
      where the C code performs it.
    - Pointers that may be NULL are [option]s; the arrays of the context
      are lists read with [!!] and written with [<[j:=v]>].
    - The sample loop of [receive] does not terminate for every packet
      (a unit size of 0 never advances), so it is driven by fuel. *)

From Stdlib Require Import ZArith String Ascii Lia Bool.
From Stdlib Require DecimalString.
From stdpp Require Import base list.

Open Scope string_scope.
Open Scope Z_scope.

(** ** Machine constants *)

Definition INT_MAX : Z := 2147483647.
Definition UINT_MOD : Z := 2 ^ 32.
Definition UINT64_MOD : Z := 2 ^ 64.
Definition ULONG_MAX : Z := 2 ^ 64 - 1.

(** Conversion of an unsigned value to [int], as the usual C
    implementations define it: reduction modulo [2^32] into the signed
    range. *)
Definition to_int (v : Z) : Z :=
  let w := v mod UINT_MOD in
  if w <=? INT_MAX then w else w - UINT_MOD.

(** ** Status codes and data types of libsigrok.h *)

(** Modelled from the spec: the status codes of libsigrok.h, which is not
    part of the sources at hand.  [SR_ERR_ARG] is the spec's
    ArgumentError and [SR_ERR_DATA] its DataError. *)
Inductive sr_status : Type :=
| SR_OK
| SR_ERR_ARG
| SR_ERR_DATA.

Inductive sr_channel_type : Type :=
| SR_CHANNEL_LOGIC
| SR_CHANNEL_ANALOG.

(** [struct sr_channel], as [sr_channel_new] of device.c fills it. *)
Record sr_channel : Type := mk_channel {
  ch_index : Z;
  ch_type : sr_channel_type;
  ch_enabled : bool;
  ch_name : string
}.

(** [struct sr_dev_inst]: the channel list, and what the
    [SR_CONF_SAMPLERATE] query of the driver answers ([None] when
    [sr_config_get] does not return [SR_OK]). *)
Record sr_dev_inst : Type := mk_dev_inst {
  channels : list sr_channel;
  samplerate : option Z
}.

(** [struct sr_datafeed_logic]: [data] points to [length] bytes. *)
Record sr_datafeed_logic : Type := mk_logic {
  unitsize : Z;
  data : list Z
}.

Definition logic_length (l : sr_datafeed_logic) : Z :=
  Z.of_nat (length (data l)).

Inductive sr_datafeed_packet : Type :=
| SR_DF_TRIGGER
| SR_DF_LOGIC (logic : sr_datafeed_logic)
| SR_DF_END
| SR_DF_OTHER.

(** ** The encoder state *)

(** [struct context].  [line_values] is never used by the code and is
    left out. *)
Record context : Type := mk_context {
  num_enabled_channels : Z;
  samples_per_line : Z;
  bit_cnt : Z;
  spl_cnt : Z;
  trigger : Z;
  channel_index : list Z;
  channel_names : list string;
  sample_buf : list Z;
  lines : list string;
  header : option string
}.

(** [struct sr_output], the fields the module uses. *)
Record sr_output : Type := mk_output {
  sdi : option sr_dev_inst;
  param : option string;
  internal : option context
}.

Definition set_internal (o : sr_output) (c : option context) : sr_output :=
  mk_output (sdi o) (param o) c.

Definition set_samples_per_line (c : context) (v : Z) : context :=
  mk_context (num_enabled_channels c) v (bit_cnt c) (spl_cnt c) (trigger c)
    (channel_index c) (channel_names c) (sample_buf c) (lines c) (header c).

Definition set_spl_cnt (c : context) (v : Z) : context :=
  mk_context (num_enabled_channels c) (samples_per_line c) (bit_cnt c) v
    (trigger c) (channel_index c) (channel_names c) (sample_buf c) (lines c)
    (header c).

Definition set_trigger (c : context) (v : Z) : context :=
  mk_context (num_enabled_channels c) (samples_per_line c) (bit_cnt c)
    (spl_cnt c) v (channel_index c) (channel_names c) (sample_buf c)
    (lines c) (header c).

Definition set_sample_buf (c : context) (v : list Z) : context :=
  mk_context (num_enabled_channels c) (samples_per_line c) (bit_cnt c)
    (spl_cnt c) (trigger c) (channel_index c) (channel_names c) v (lines c)
    (header c).

Definition set_lines (c : context) (v : list string) : context :=
  mk_context (num_enabled_channels c) (samples_per_line c) (bit_cnt c)
    (spl_cnt c) (trigger c) (channel_index c) (channel_names c)
    (sample_buf c) v (header c).

Definition set_header (c : context) (v : option string) : context :=
  mk_context (num_enabled_channels c) (samples_per_line c) (bit_cnt c)
    (spl_cnt c) (trigger c) (channel_index c) (channel_names c)
    (sample_buf c) (lines c) v.

(** What [g_malloc0] followed by [ctx->trigger = -1] leaves. *)
Definition fresh_context : context :=
  mk_context 0 0 0 0 (-1) [] [] [] [] None.

(** ** printf conversions *)

Definition hex_digit (d : Z) : ascii :=
  match d with
  | 0 => "0" | 1 => "1" | 2 => "2" | 3 => "3" | 4 => "4" | 5 => "5"
  | 6 => "6" | 7 => "7" | 8 => "8" | 9 => "9" | 10 => "a" | 11 => "b"
  | 12 => "c" | 13 => "d" | 14 => "e" | _ => "f"
  end%char.

Fixpoint hex_digits (fuel : nat) (v : Z) (acc : string) : string :=
  match fuel with
  | O => acc
  | S f =>
      let acc' := String (hex_digit (v mod 16)) acc in
      if v / 16 =? 0 then acc' else hex_digits f (v / 16) acc'
  end.

(** ["%x"] of a non-negative value. *)
Definition fmt_x (v : Z) : string :=
  hex_digits (S (Z.to_nat (Z.log2 v))) v "".

Fixpoint zeros (n : nat) : string :=
  match n with
  | O => ""
  | S k => String "0" (zeros k)
  end.

(** ["%.2x"]: at least two digits, padded with zeros on the left. *)
Definition fmt_02x (v : Z) : string :=
  let s := fmt_x v in
  zeros (2 - String.length s) ++ s.

(** ["%d"]. *)
Definition fmt_d (v : Z) : string :=
  DecimalString.NilZero.string_of_int (Z.to_int v).

Fixpoint spaces (n : nat) : string :=
  match n with
  | O => ""
  | S k => String " " (spaces k)
  end.

(** ["%*s"] with the empty string: the field width alone, as spaces (a
    negative width is its absolute value, left-justified). *)
Definition fmt_pad (width : Z) : string :=
  spaces (Z.to_nat (Z.abs width)).

Definition newline : string := String (ascii_of_nat 10) "".

(** ["%s:"], the start of a channel's line. *)
Definition seed_line (name : string) : string := name ++ ":".

(** ** strtoul *)

Definition is_space (c : ascii) : bool :=
  let n := nat_of_ascii c in
  ((n =? 32) || ((9 <=? n) && (n <=? 13)))%nat.

Definition digit_value (c : ascii) : option Z :=
  let n := nat_of_ascii c in
  if ((48 <=? n) && (n <=? 57))%nat then Some (Z.of_nat n - 48) else None.

Fixpoint skip_spaces (s : string) : string :=
  match s with
  | String c s' => if is_space c then skip_spaces s' else s
  | EmptyString => s
  end.

(** The digits at the front of [s], accumulated in base 10 onto [acc];
    [None] when [s] does not start with a digit. *)
Fixpoint read_digits (s : string) (acc : Z) (seen : bool) : option Z :=
  match s with
  | String c s' =>
      match digit_value c with
      | Some d => read_digits s' (10 * acc + d) true
      | None => if seen then Some acc else None
      end
  | EmptyString => if seen then Some acc else None
  end.

(** The optional sign in front of the digits. *)
Definition strip_sign (s : string) : bool * string :=
  match s with
  | String "-" r => (true, r)
  | String "+" r => (false, r)
  | _ => (false, s)
  end.

(** [strtoul(s, NULL, 10)] of the C library, for a 64-bit [unsigned
    long]: white space, an optional sign, then decimal digits; 0 when no
    digit is there, [ULONG_MAX] when the value does not fit, and the
    negation in the unsigned type after a minus sign. *)
Definition strtoul (s : string) : Z :=
  let '(neg, digits) := strip_sign (skip_spaces s) in
  match read_digits digits 0 false with
  | None => 0
  | Some v =>
      if ULONG_MAX <? v then ULONG_MAX
      else if neg then (- v) mod UINT64_MOD else v
  end.

(** [strtoul] finds no number in [s]: no digit follows the white space
    and the sign. *)
Definition unparseable (s : string) : Prop :=
  read_digits (snd (strip_sign (skip_spaces s))) 0 false = None.

(** Decimal numerals: the string of a list of digits and its value. *)
Definition digit_char (d : Z) : ascii := ascii_of_nat (48 + Z.to_nat d).

Fixpoint numeral (ds : list Z) : string :=
  match ds with
  | [] => ""
  | d :: r => String (digit_char d) (numeral r)
  end.

Definition numeral_value (ds : list Z) : Z :=
  fold_left (fun acc d => 10 * acc + d) ds 0.

Definition is_digit (d : Z) : Prop := 0 <= d <= 9.

(** ** Outcomes of the embedded code *)

Inductive outcome (A : Type) : Type :=
| Done (a : A)
| Undefined
| OutOfFuel.

Arguments Done {A} a.
Arguments Undefined {A}.
Arguments OutOfFuel {A}.

Definition obind {A B : Type} (m : outcome A) (k : A -> outcome B)
  : outcome B :=
  match m with
  | Done a => k a
  | Undefined => Undefined
  | OutOfFuel => OutOfFuel
  end.

Notation "x <- e ;; k" := (obind e (fun x => k))
  (at level 100, e at next level, right associativity).

(** Reading [a[j]]. *)
Definition array_get {A : Type} (a : list A) (j : nat) : outcome A :=
  match a !! j with
  | Some v => Done v
  | None => Undefined
  end.

Definition set_num_enabled_channels (c : context) (v : Z) : context :=
  mk_context v (samples_per_line c) (bit_cnt c) (spl_cnt c) (trigger c)
    (channel_index c) (channel_names c) (sample_buf c) (lines c) (header c).

Definition set_channel_index (c : context) (v : list Z) : context :=
  mk_context (num_enabled_channels c) (samples_per_line c) (bit_cnt c)
    (spl_cnt c) (trigger c) v (channel_names c) (sample_buf c) (lines c)
    (header c).

Definition set_channel_names (c : context) (v : list string) : context :=
  mk_context (num_enabled_channels c) (samples_per_line c) (bit_cnt c)
    (spl_cnt c) (trigger c) (channel_index c) v (sample_buf c) (lines c)
    (header c).

(** ** init *)

Definition DEFAULT_SAMPLES_PER_LINE : Z := 192.

(** The first loop of [init]: counting the enabled logic channels. *)
Fixpoint count_channels (l : list sr_channel) (ctx : context) : context :=
  match l with
  | [] => ctx
  | ch :: l' =>
      match ch_type ch with
      | SR_CHANNEL_LOGIC =>
          if ch_enabled ch then
            count_channels l'
              (set_num_enabled_channels ctx
                 ((num_enabled_channels ctx + 1) mod UINT_MOD))
          else count_channels l' ctx
      | SR_CHANNEL_ANALOG => count_channels l' ctx
      end
  end.

(** The second loop of [init]: entry [j] of the four arrays is written
    for the [j]-th enabled logic channel. *)
Fixpoint fill_channels (l : list sr_channel) (j : nat) (ctx : context)
  : context :=
  match l with
  | [] => ctx
  | ch :: l' =>
      match ch_type ch with
      | SR_CHANNEL_LOGIC =>
          if ch_enabled ch then
            let ctx := set_channel_index ctx
                         (<[j:=ch_index ch]> (channel_index ctx)) in
            let ctx := set_channel_names ctx
                         (<[j:=ch_name ch]> (channel_names ctx)) in
            let ctx := set_sample_buf ctx (<[j:=0]> (sample_buf ctx)) in
            let ctx := set_lines ctx
                         (<[j:=seed_line (ch_name ch)]> (lines ctx)) in
            fill_channels l' (S j) ctx
          else fill_channels l' j ctx
      | SR_CHANNEL_ANALOG => fill_channels l' j ctx
      end
  end.

(** The four [g_malloc] calls: arrays of [num_enabled_channels] entries,
    whose content is not yet meaningful. *)
Definition alloc_arrays (ctx : context) : context :=
  let n := Z.to_nat (num_enabled_channels ctx) in
  let ctx := set_channel_index ctx (replicate n 0) in
  let ctx := set_channel_names ctx (replicate n "") in
  let ctx := set_lines ctx (replicate n "") in
  set_sample_buf ctx (replicate n 0).

Section Init.

(** Not part of the sources at hand: the [PACKAGE_STRING] macro of the
    build and [sr_samplerate_string] of strutil.c. *)
Variable PACKAGE_STRING : string.
Variable sr_samplerate_string : Z -> string.

Definition make_header (dev : sr_dev_inst) (ctx : context) : string :=
  let h := PACKAGE_STRING ++ newline in
  let num_channels := to_int (Z.of_nat (length (channels dev))) in
  match samplerate dev with
  | Some rate =>
      h ++ "Acquisition with "
        ++ fmt_d (to_int (num_enabled_channels ctx)) ++ "/"
        ++ fmt_d num_channels ++ " channels at "
        ++ sr_samplerate_string rate ++ newline
  | None => h
  end.

(** [init]: the status and the output handle as the call leaves it. *)
Definition init (o : option sr_output) : sr_status * option sr_output :=
  match o with
  | None => (SR_ERR_ARG, None)
  | Some o =>
      match sdi o with
      | None => (SR_ERR_ARG, Some o)
      | Some dev =>
          let ctx := fresh_context in
          let spl :=
            match param o with
            | Some (String c r) => to_int (strtoul (String c r))
            | _ => DEFAULT_SAMPLES_PER_LINE
            end in
          if spl <? 1 then (SR_ERR_ARG, Some (set_internal o (Some ctx)))
          else
            let ctx := set_samples_per_line ctx spl in
            let ctx := count_channels (channels dev) ctx in
            let ctx := alloc_arrays ctx in
            let ctx := fill_channels (channels dev) 0 ctx in
            let ctx := set_header ctx (Some (make_header dev ctx)) in
            (SR_OK, Some (set_internal o (Some ctx)))
      end
  end.

End Init.

(** ** receive *)

(** [*p] for [p = logic->data + off]. *)
Definition read_byte (logic : sr_datafeed_logic) (off : Z) : outcome Z :=
  if off <? 0 then Undefined else array_get (data logic) (Z.to_nat off).

(** [1 << k] on [int]. *)
Definition shl_one (k : Z) : outcome Z :=
  if k <? 0 then Undefined else Done (Z.shiftl 1 k).

(** [a + b] on [int]. *)
Definition add_int (a b : Z) : outcome Z :=
  if (a + b <=? INT_MAX) && (- INT_MAX - 1 <=? a + b) then Done (a + b)
  else Undefined.

(** The body of the channel loop of the [SR_DF_LOGIC] case, for channel
    [j] of the sample at byte offset [i]; the state is the context and
    the chunk [*out]. *)
Definition channel_step (logic : sr_datafeed_logic) (i pos : Z) (j : nat)
    (st : context * string) : outcome (context * string) :=
  let '(ctx, out) := st in
  idx <- array_get (channel_index ctx) j ;;
  let p := i + Z.quot idx 8 in
  buf <- array_get (sample_buf ctx) j ;;
  let buf := Z.shiftl buf 1 mod 256 in
  byte <- read_byte logic p ;;
  mask <- shl_one (Z.rem idx 8) ;;
  let buf := if Z.land byte mask =? 0 then buf else Z.lor buf 1 in
  let ctx := set_sample_buf ctx (<[j:=buf]> (sample_buf ctx)) in
  line <- array_get (lines ctx) j ;;
  let '(ctx, line) :=
    if negb (spl_cnt ctx =? 0) && (pos =? 0) then
      let line := line ++ fmt_02x buf ++ " " in
      (set_sample_buf (set_lines ctx (<[j:=line]> (lines ctx)))
         (<[j:=0]> (sample_buf ctx)), line)
    else (ctx, line) in
  if spl_cnt ctx =? samples_per_line ctx then
    let out := out ++ line ++ newline in
    st <-
      (if (Z.of_nat j =? (num_enabled_channels ctx - 1) mod UINT_MOD)
          && (-1 <? trigger ctx)
       then
         offset <- add_int (trigger ctx) (Z.quot (trigger ctx) 8) ;;
         Done (set_trigger ctx (-1),
               out ++ "T:" ++ fmt_pad offset ++ "^ "
                   ++ fmt_d (trigger ctx) ++ newline)
       else Done (ctx, out)) ;;
    let '(ctx, out) := st in
    name <- array_get (channel_names ctx) j ;;
    Done (set_lines ctx (<[j:=seed_line name]> (lines ctx)), out)
  else Done (ctx, out).

(** [for (j = ...; j < num_enabled_channels; j++)], with [count]
    iterations left. *)
Fixpoint channel_loop (count : nat) (logic : sr_datafeed_logic)
    (i pos : Z) (j : nat) (st : context * string)
  : outcome (context * string) :=
  match count with
  | O => Done st
  | S c =>
      st' <- channel_step logic i pos j st ;;
      channel_loop c logic i pos (S j) st'
  end.

(** One pass of the sample loop, for the sample at byte offset [i]. *)
Definition sample_step (logic : sr_datafeed_logic) (i : Z)
    (st : context * string) : outcome (context * string) :=
  let '(ctx, out) := st in
  if spl_cnt ctx =? INT_MAX then Undefined
  else
    let ctx := set_spl_cnt ctx (spl_cnt ctx + 1) in
    let pos := Z.land (spl_cnt ctx) 7 in
    st' <- channel_loop (Z.to_nat (num_enabled_channels ctx)) logic i pos
             0%nat (ctx, out) ;;
    let '(ctx, out) := st' in
    if spl_cnt ctx =? samples_per_line ctx then
      Done (set_spl_cnt ctx 0, out)
    else Done (ctx, out).

(** [for (i = ...; i <= logic->length - logic->unitsize;
         i += logic->unitsize)], in [uint64_t]. *)
Fixpoint sample_loop (fuel : nat) (logic : sr_datafeed_logic) (i : Z)
    (st : context * string) : outcome (context * string) :=
  if i <=? (logic_length logic - unitsize logic) mod UINT64_MOD then
    match fuel with
    | O => OutOfFuel
    | S fuel' =>
        st' <- sample_step logic i st ;;
        sample_loop fuel' logic ((i + unitsize logic) mod UINT64_MOD) st'
    end
  else Done st.

(** The body of the loop of the [SR_DF_END] case, for channel [i]. *)
Definition end_step (i : nat) (st : context * string)
  : outcome (context * string) :=
  let '(ctx, out) := st in
  ctx' <-
    (if negb (Z.land (spl_cnt ctx) 7 =? 0) then
       line <- array_get (lines ctx) i ;;
       buf <- array_get (sample_buf ctx) i ;;
       let v := Z.shiftl buf (8 - Z.land (spl_cnt ctx) 7) in
       Done (set_lines ctx (<[i:=line ++ fmt_02x v ++ " "]> (lines ctx)))
     else Done ctx) ;;
  line <- array_get (lines ctx') i ;;
  Done (ctx', out ++ line ++ newline).

Fixpoint end_loop (count : nat) (i : nat) (st : context * string)
  : outcome (context * string) :=
  match count with
  | O => Done st
  | S c =>
      st' <- end_step i st ;;
      end_loop c (S i) st'
  end.

(** What a call of [receive] leaves: its return value, the output handle
    and [*out]. *)
Record receive_result : Type := mk_result {
  status : sr_status;
  handle : option sr_output;
  chunk : option string
}.

Definition receive (fuel : nat) (o : option sr_output)
    (packet : sr_datafeed_packet) : outcome receive_result :=
  match o with
  | None => Done (mk_result SR_ERR_ARG None None)
  | Some o =>
      match sdi o with
      | None => Done (mk_result SR_ERR_ARG (Some o) None)
      | Some _ =>
          match internal o with
          | None => Done (mk_result SR_ERR_ARG (Some o) None)
          | Some ctx =>
              match packet with
              | SR_DF_TRIGGER =>
                  let ctx := set_trigger ctx (spl_cnt ctx) in
                  Done (mk_result SR_OK (Some (set_internal o (Some ctx)))
                          None)
              | SR_DF_LOGIC logic =>
                  let '(ctx, out) :=
                    match header ctx with
                    | Some h => (set_header ctx None, h)
                    | None => (ctx, "")
                    end in
                  st <- sample_loop fuel logic 0 (ctx, out) ;;
                  Done (mk_result SR_OK
                          (Some (set_internal o (Some (fst st))))
                          (Some (snd st)))
              | SR_DF_END =>
                  if spl_cnt ctx =? 0 then
                    Done (mk_result SR_OK (Some o) None)
                  else
                    st <- end_loop (Z.to_nat (num_enabled_channels ctx))
                            0%nat (ctx, "") ;;
                    Done (mk_result SR_OK
                            (Some (set_internal o (Some (fst st))))
                            (Some (snd st)))
              | SR_DF_OTHER => Done (mk_result SR_OK (Some o) None)
              end
          end
      end
  end.

(** ** The channel loop in closed form *)

(** The bit of channel [idx] in the sample at byte offset [i]. *)
Definition sample_bit (logic : sr_datafeed_logic) (i idx : Z) : bool :=
  negb (Z.land (default 0 (data logic !! Z.to_nat (i + Z.quot idx 8)))
          (Z.shiftl 1 (Z.rem idx 8)) =? 0).

(** [buf <<= 1; if (bit) buf |= 1] on a [uint8_t]. *)
Definition shift_in (buf : Z) (b : bool) : Z :=
  let buf := Z.shiftl buf 1 mod 256 in
  if b then Z.lor buf 1 else buf.

(** [ctx->spl_cnt && pos == 0] for the counter value [cnt]. *)
Definition renders (cnt : Z) : bool :=
  negb (cnt =? 0) && (Z.land cnt 7 =? 0).

(** The read of channel [idx] in the sample at offset [i] is defined. *)
Definition readable (logic : sr_datafeed_logic) (i idx : Z) : Prop :=
  0 <= idx /\ 0 <= i + Z.quot idx 8 < logic_length logic.

Fixpoint step_bufs (cnt : Z) (logic : sr_datafeed_logic) (i : Z)
    (idxs bufs : list Z) : list Z :=
  match idxs, bufs with
  | idx :: idxs', buf :: bufs' =>
      (if renders cnt then 0 else shift_in buf (sample_bit logic i idx))
      :: step_bufs cnt logic i idxs' bufs'
  | _, _ => []
  end.

(** The line accumulators after the sample, before any flush. *)
Fixpoint full_lines (cnt : Z) (logic : sr_datafeed_logic) (i : Z)
    (idxs bufs : list Z) (lns : list string) : list string :=
  match idxs, bufs, lns with
  | idx :: idxs', buf :: bufs', ln :: lns' =>
      (if renders cnt
       then ln ++ fmt_02x (shift_in buf (sample_bit logic i idx)) ++ " "
       else ln)
      :: full_lines cnt logic i idxs' bufs' lns'
  | _, _, _ => []
  end.

(** Every line followed by a line terminator. *)
Fixpoint flush_text (lns : list string) : string :=
  match lns with
  | [] => ""
  | l :: r => l ++ newline ++ flush_text r
  end.

Definition seed_lines (names : list string) : list string :=
  map seed_line names.

(** The caret marker line for the trigger offset [t]. *)
Definition caret_line (t : Z) : string :=
  "T:" ++ spaces (Z.to_nat (t + t / 8)) ++ "^ " ++ fmt_d t ++ newline.

(** The arrays of a context all have [num_enabled_channels] entries. *)
Record wf_context (ctx : context) : Prop := mk_wf {
  wf_num : num_enabled_channels ctx < UINT_MOD;
  wf_index : Z.of_nat (length (channel_index ctx)) = num_enabled_channels ctx;
  wf_names : length (channel_names ctx) = length (channel_index ctx);
  wf_bufs : length (sample_buf ctx) = length (channel_index ctx);
  wf_lines : length (lines ctx) = length (channel_index ctx)
}.

(** One pass of the sample loop in closed form: the context it leaves
    and the text it appends to the chunk. *)
Definition step_caret (ctx : context) : bool :=
  (spl_cnt ctx + 1 =? samples_per_line ctx)
  && negb (Nat.eqb (length (channel_index ctx)) 0)
  && (-1 <? trigger ctx).

Definition step_context (logic : sr_datafeed_logic) (i : Z) (ctx : context)
  : context :=
  let cnt := spl_cnt ctx + 1 in
  let fl := cnt =? samples_per_line ctx in
  mk_context (num_enabled_channels ctx) (samples_per_line ctx) (bit_cnt ctx)
    (if fl then 0 else cnt)
    (if step_caret ctx then -1 else trigger ctx)
    (channel_index ctx) (channel_names ctx)
    (step_bufs cnt logic i (channel_index ctx) (sample_buf ctx))
    (if fl then seed_lines (channel_names ctx)
     else full_lines cnt logic i (channel_index ctx) (sample_buf ctx)
            (lines ctx))
    (header ctx).

Definition step_text (logic : sr_datafeed_logic) (i : Z) (ctx : context)
  : string :=
  let cnt := spl_cnt ctx + 1 in
  if cnt =? samples_per_line ctx then
    flush_text (full_lines cnt logic i (channel_index ctx) (sample_buf ctx)
                  (lines ctx))
    ++ (if step_caret ctx then caret_line (trigger ctx) else "")
  else "".

(** [k] passes of the sample loop from byte offset [i] on. *)
Fixpoint run_samples (k : nat) (logic : sr_datafeed_logic) (i : Z)
    (st : context * string) : context * string :=
  match k with
  | O => st
  | S k' =>
      run_samples k' logic (i + unitsize logic)
        (step_context logic i (fst st), snd st ++ step_text logic i (fst st))
  end.

(** A context on which the sample loop meets no undefined behaviour: the
    arrays agree, the in-line counter is below the line width, and the
    caret offset of a pending trigger fits an [int]. *)
Record ready (ctx : context) : Prop := mk_ready {
  ready_wf : wf_context ctx;
  ready_cnt : 0 <= spl_cnt ctx < samples_per_line ctx;
  ready_spl : samples_per_line ctx <= INT_MAX;
  ready_trg : -1 < trigger ctx -> trigger ctx + trigger ctx / 8 <= INT_MAX
}.

(** Every selected channel's bit lies inside one sample of the packet. *)
Definition channels_fit (logic : sr_datafeed_logic) (ctx : context) : Prop :=
  Forall (fun idx => 0 <= idx < 8 * unitsize logic) (channel_index ctx).

(** A packet that holds at least one whole sample. *)
Definition holds_sample (logic : sr_datafeed_logic) : Prop :=
  0 < unitsize logic <= logic_length logic /\ logic_length logic < UINT64_MOD.

(** The number of whole samples of a packet. *)
Definition sample_count (logic : sr_datafeed_logic) : nat :=
  Z.to_nat (logic_length logic / unitsize logic).

(** The lines of the end-of-stream flush: the accumulators, each with
    its left-aligned partial byte when the in-line count [cnt] is not a
    multiple of 8. *)
Fixpoint end_lines (cnt : Z) (bufs : list Z) (lns : list string)
  : list string :=
  match bufs, lns with
  | buf :: bufs', ln :: lns' =>
      (if Z.land cnt 7 =? 0 then ln
       else ln ++ fmt_02x (Z.shiftl buf (8 - Z.land cnt 7)) ++ " ")
      :: end_lines cnt bufs' lns'
  | _, _ => []
  end.

(** The value of a run of bits, first bit most significant. *)
Definition bits_value (bs : list bool) : Z :=
  fold_left (fun acc (b : bool) => 2 * acc + (if b then 1 else 0)) bs 0.

(** The packet cut down to its whole samples. *)
Definition whole_samples (logic : sr_datafeed_logic) : sr_datafeed_logic :=
  mk_logic (unitsize logic)
    (take (sample_count logic * Z.to_nat (unitsize logic)) (data logic)).

(** A byte whose leading bits are the bits [trail]. *)
Definition carried_into (trail : list bool) (byte : Z) : Prop :=
  byte / 2 ^ (8 - Z.of_nat (length trail)) = bits_value trail.

(** ** The channel selection of [init] in closed form *)

(** The channels [init] keeps: logic channels that are enabled. *)
Definition selected (ch : sr_channel) : bool :=
  match ch_type ch with
  | SR_CHANNEL_LOGIC => ch_enabled ch
  | SR_CHANNEL_ANALOG => false
  end.

Definition selection (dev : sr_dev_inst) : list sr_channel :=
  List.filter selected (channels dev).

(** The line width [init] settles on for the parameter [p]. *)
Definition line_width (p : option string) : Z :=
  match p with
  | Some (String c r) => to_int (strtoul (String c r))
  | _ => DEFAULT_SAMPLES_PER_LINE
  end.

(** The bits of channel [idx] in the eight samples from offset [i] on. *)
Definition eight_bits (logic : sr_datafeed_logic) (i idx : Z) : list bool :=
  map (fun k => sample_bit logic (i + k * unitsize logic) idx)
    [0; 1; 2; 3; 4; 5; 6; 7].

(** ** A concrete session, for the examples *)

Definition ex_dev : sr_dev_inst :=
  mk_dev_inst
    [mk_channel 0 SR_CHANNEL_LOGIC true "A";
     mk_channel 2 SR_CHANNEL_ANALOG true "X";
     mk_channel 1 SR_CHANNEL_LOGIC true "B";
     mk_channel 3 SR_CHANNEL_LOGIC false "C"]
    (Some 1000000).

Definition ex_banner : string := "libsigrok 0.3.0".

Definition ex_rate (rate : Z) : string := "1 MHz".

(** The handle before [init], with the line-width parameter [p]. *)
Definition ex_handle (p : option string) : sr_output :=
  mk_output (Some ex_dev) p None.

Definition ex_init (p : option string) : sr_status * option sr_output :=
  init ex_banner ex_rate (Some (ex_handle p)).

(** A context in the middle of a line: two channels, line width 8, three
    samples buffered. *)
Definition ex_context : context :=
  mk_context 2 8 0 3 (-1) [0; 1] ["A"; "B"] [7; 1] ["A:"; "B:"] None.

Definition ex_output : sr_output :=
  mk_output (Some ex_dev) (Some "8") (Some ex_context).

(** The same session at the start of a line, header not yet emitted, and
    a packet of three one-byte samples. *)
Definition ex_context0 : context :=
  mk_context 2 8 0 0 (-1) [0; 1] ["A"; "B"] [0; 0] ["A:"; "B:"]
    (Some (ex_banner ++ newline)).

Definition ex_output0 : sr_output :=
  mk_output (Some ex_dev) (Some "8") (Some ex_context0).

Definition ex_logic3 : sr_datafeed_logic := mk_logic 1 [1; 1; 3].

(** The session one sample before the end of a line, with a trigger
    pending at offset 5, and a packet of one sample. *)
Definition ex_context7 : context :=
  mk_context 2 8 0 7 5 [0; 1] ["A"; "B"] [15; 60] ["A:"; "B:"] None.

Definition ex_output7 : sr_output :=
  mk_output (Some ex_dev) (Some "8") (Some ex_context7).

Definition ex_logic1 : sr_datafeed_logic := mk_logic 1 [2].

(** A packet of three bytes that is one sample of two bytes and a half. *)
Definition ex_ragged : sr_datafeed_logic := mk_logic 2 [1; 0; 1].

(** A line width of 12: the session one sample before the end of a line,
    a packet of twelve samples with channel A high, and a packet of eight
    samples with every channel low. *)
Definition ex_context11 : context :=
  mk_context 2 12 0 11 (-1) [0; 1] ["A"; "B"] [7; 0] ["A:ff "; "B:00 "] None.

Definition ex_ones12 : sr_datafeed_logic := mk_logic 1 (replicate 12 1).

Definition ex_zeros8 : sr_datafeed_logic := mk_logic 1 (replicate 8 0).

(** Four samples with channel A high. *)
Definition ex_ones4 : sr_datafeed_logic := mk_logic 1 [1; 1; 1; 1].

(** The session of width 16 with eight samples buffered. *)
Definition ex_context8 : context :=
  mk_context 2 16 0 8 (-1) [0; 1] ["A"; "B"] [0; 0] ["A:e1 "; "B:27 "] None.

Definition ex_output8 : sr_output :=
  mk_output (Some ex_dev) (Some "16") (Some ex_context8).

(** An encoder without channels, three samples into a line, a trigger
    pending. *)
Definition ex_context_none : context :=
  mk_context 0 8 0 3 2 [] [] [] [] (Some (ex_banner ++ newline)).

Definition ex_output_none : sr_output :=
  mk_output (Some ex_dev) (Some "8") (Some ex_context_none).

(** ** The invariant of a session *)

(** What every call of [receive] keeps: a [ready] context whose pending
    trigger offset, if any, is a position of the current line, with a
    line width small enough for the caret offset to fit an [int]. *)
Record steady (ctx : context) : Prop := mk_steady {
  steady_ready : ready ctx;
  steady_trg : -1 <= trigger ctx < samples_per_line ctx;
  steady_width : samples_per_line ctx + samples_per_line ctx / 8 <= INT_MAX
}.

(** What [receive] asks of a packet: a sample batch holds a whole sample,
    has every selected channel inside its unit, and the fuel covers its
    samples. *)
Definition acceptable (fuel : nat) (ctx : context)
    (pk : sr_datafeed_packet) : Prop :=
  match pk with
  | SR_DF_LOGIC logic =>
      channels_fit logic ctx /\ holds_sample logic
      /\ (sample_count logic <= fuel)%nat
  | _ => True
  end.

(** ** Whole bytes of a line *)

(** The text of [k] consecutive bytes of channel [idx], from the sample
    at offset [i] on: each byte is eight sample bits, first sample in the
    high bit, as two hex digits and a space. *)
Fixpoint hex_bytes (k : nat) (logic : sr_datafeed_logic) (i idx : Z)
  : string :=
  match k with
  | O => ""
  | S k' =>
      fmt_02x (bits_value (eight_bits logic i idx)) ++ " "
      ++ hex_bytes k' logic (i + 8 * unitsize logic) idx
  end.

(** A trigger is pending and there is a channel to flush. *)
Definition caret_due (ctx : context) : bool :=
  negb (Nat.eqb (length (channel_index ctx)) 0) && (-1 <? trigger ctx).

(** The session of width 16 at the start of a line, with stale bits in
    the accumulators, and a packet of sixteen samples. *)
Definition ex_context16 : context :=
  mk_context 2 16 0 0 (-1) [0; 1] ["A"; "B"] [5; 9] ["A:"; "B:"] None.

Definition ex_output16 : sr_output :=
  mk_output (Some ex_dev) (Some "16") (Some ex_context16).

Definition ex_logic8 : sr_datafeed_logic :=
  mk_logic 1 [1; 1; 3; 0; 0; 0; 2; 1].

Definition ex_logic16 : sr_datafeed_logic :=
  mk_logic 1 [1; 1; 3; 0; 0; 0; 2; 1; 2; 2; 2; 2; 1; 1; 1; 1].

(** ** cleanup *)

(** The loop of [cleanup] over [ctx->lines[i]]. *)
Fixpoint free_lines (count : nat) (i : nat) (ctx : context) : outcome unit :=
  match count with
  | O => Done tt
  | S c =>
      line <- array_get (lines ctx) i ;;
      free_lines c (S i) ctx
  end.

(** [cleanup]: the status and the output handle as the call leaves it.
    The header is released by [g_free (ctx->header)] first; the later
    [g_string_free (ctx->header, TRUE)], guarded by the same pointer
    being non-NULL, then works on released memory. *)
Definition cleanup (o : option sr_output)
  : outcome (sr_status * option sr_output) :=
  match o with
  | None => Done (SR_ERR_ARG, None)
  | Some o =>
      match internal o with
      | None => Done (SR_OK, Some o)
      | Some ctx =>
          u <- free_lines (Z.to_nat (num_enabled_channels ctx)) 0 ctx ;;
          match header ctx with
          | Some _ => Undefined
          | None => Done (SR_OK, Some (set_internal o None))
          end
      end
  end.

(** ** device.c: the channels of a device instance *)

(** What a function of device.c returns: one of the codes above, or any
    other [int] a driver call answered. *)
Inductive sr_ret : Type :=
| RET (s : sr_status)
| RET_INT (code : Z).

Definition set_name (ch : sr_channel) (name : string) : sr_channel :=
  mk_channel (ch_index ch) (ch_type ch) (ch_enabled ch) name.

Definition set_enabled (ch : sr_channel) (state : bool) : sr_channel :=
  mk_channel (ch_index ch) (ch_type ch) state (ch_name ch).

Definition set_channels (dev : sr_dev_inst) (l : list sr_channel)
  : sr_dev_inst :=
  mk_dev_inst l (samplerate dev).

(** The loop of [sr_dev_channel_name_set] from the list node [l] on, the
    nodes [seen] passed already. *)
Fixpoint name_set_loop (seen l : list sr_channel) (channelnum : Z)
    (name : string) : sr_status * list sr_channel :=
  match l with
  | [] => (SR_ERR_ARG, seen)
  | ch :: r =>
      if ch_index ch =? channelnum then
        (SR_OK, (seen ++ set_name ch name :: r)%list)
      else name_set_loop (seen ++ [ch])%list r channelnum name
  end.

(** [sr_dev_channel_name_set], for a name that is not NULL: the status
    and the device instance as the call leaves it. *)
Definition sr_dev_channel_name_set (sdi : option sr_dev_inst)
    (channelnum : Z) (name : string) : sr_status * option sr_dev_inst :=
  match sdi with
  | None => (SR_ERR_ARG, None)
  | Some dev =>
      let '(ret, l) := name_set_loop [] (channels dev) channelnum name in
      (ret, Some (set_channels dev l))
  end.

(** The loop of [sr_dev_channel_enable].  [config_channel_set] is the
    callback of the driver for [SR_CHANNEL_SET_ENABLED], [None] when the
    device has no driver or the driver has no such callback; it is called
    on the device with the new state in place and answers a code. *)
Fixpoint channel_enable_loop
    (config_channel_set : option (sr_dev_inst -> sr_channel -> sr_ret))
    (dev : sr_dev_inst) (seen l : list sr_channel) (channelnum : Z)
    (state : bool) : sr_ret * list sr_channel :=
  match l with
  | [] => (RET SR_ERR_ARG, seen)
  | ch :: r =>
      if ch_index ch =? channelnum then
        let was_enabled := ch_enabled ch in
        let ch1 := set_enabled ch state in
        if xorb (negb state) (negb was_enabled) then
          match config_channel_set with
          | Some f =>
              let ret := f (set_channels dev (seen ++ ch1 :: r)%list) ch1 in
              match ret with
              | RET SR_ERR_ARG =>
                  (ret, (seen ++ set_enabled ch1 was_enabled :: r)%list)
              | _ => (ret, (seen ++ ch1 :: r)%list)
              end
          | None => (RET SR_OK, (seen ++ ch1 :: r)%list)
          end
        else (RET SR_OK, (seen ++ ch1 :: r)%list)
      else
        channel_enable_loop config_channel_set dev (seen ++ [ch])%list r
          channelnum state
  end.

Definition sr_dev_channel_enable
    (config_channel_set : option (sr_dev_inst -> sr_channel -> sr_ret))
    (sdi : option sr_dev_inst) (channelnum : Z) (state : bool)
  : sr_ret * option sr_dev_inst :=
  match sdi with
  | None => (RET SR_ERR_ARG, None)
  | Some dev =>
      let '(ret, l) :=
        channel_enable_loop config_channel_set dev [] (channels dev)
          channelnum state in
      (ret, Some (set_channels dev l))
  end.

(** The loop of [sr_dev_has_option] over the options of the device. *)
Fixpoint has_option_loop (devopts : list Z) (key : Z) : bool :=
  match devopts with
  | [] => false
  | d :: r => if d =? key then true else has_option_loop r key
  end.

(** [sr_dev_has_option].  [config_list] is the callback of the driver
    asked for [SR_CONF_DEVICE_OPTIONS], [None] when the device has no
    driver or the driver has no such callback; it answers the option
    array, or [None] when its status is not [SR_OK]. *)
Definition sr_dev_has_option
    (config_list : option (sr_dev_inst -> option (list Z)))
    (sdi : option sr_dev_inst) (key : Z) : bool :=
  match sdi, config_list with
  | Some dev, Some f =>
      match f dev with
      | Some devopts => has_option_loop devopts key
      | None => false
      end
  | _, _ => false
  end.

(** What [sr_dev_channel_enable] does at the first channel with the
    index: the code it returns and whether the new state stays. *)
Definition enable_at
    (drv : option (sr_dev_inst -> sr_channel -> sr_ret))
    (dev : sr_dev_inst) (pre : list sr_channel) (ch : sr_channel)
    (r : list sr_channel) (state : bool) : sr_ret * list sr_channel :=
  let ch1 := set_enabled ch state in
  if xorb (negb state) (negb (ch_enabled ch)) then
    match drv with
    | Some f =>
        match f (set_channels dev (pre ++ ch1 :: r)%list) ch1 with
        | RET SR_ERR_ARG => (RET SR_ERR_ARG, (pre ++ ch :: r)%list)
        | ret => (ret, (pre ++ ch1 :: r)%list)
        end
    | None => (RET SR_OK, (pre ++ ch1 :: r)%list)
    end
  else (RET SR_OK, (pre ++ ch1 :: r)%list).

(** ** Reading the hex text back *)

(** The reader's side of the format, for the round trip: the value of a
    lowercase hex digit, the bytes of a text of ["hh "] groups, and the
    bits of a byte, highest first. *)
Definition unhex (c : ascii) : option Z :=
  let n := Z.of_N (N_of_ascii c) in
  if (48 <=? n) && (n <=? 57) then Some (n - 48)
  else if (97 <=? n) && (n <=? 102) then Some (n - 87)
  else None.

Fixpoint read_bytes (s : string) : option (list Z) :=
  match s with
  | "" => Some []
  | String a (String b (String sp rest)) =>
      match unhex a, unhex b, read_bytes rest with
      | Some x, Some y, Some l =>
          if Ascii.eqb sp " " then Some (16 * x + y :: l) else None
      | _, _, _ => None
      end
  | _ => None
  end.

Definition byte_bits (v : Z) : list bool :=
  map (Z.testbit v) [7; 6; 5; 4; 3; 2; 1; 0].

Definition read_bits (s : string) : option (list bool) :=
  option_map (fun l => concat (map byte_bits l)) (read_bytes s).

(** The bits of channel [idx] in the first [count] samples of a packet,
    in the order of the samples. *)
Definition channel_bits (logic : sr_datafeed_logic) (idx : Z) (count : nat)
  : list bool :=
  map (fun s => sample_bit logic (Z.of_nat s * unitsize logic) idx)
    (seq 0 count).

(** ** Accumulators that hold the bits of the current byte only *)

(** The line width is a multiple of 8 and every accumulator holds no
    more than the bits taken in since the last rendered byte. *)
Definition byte_aligned (ctx : context) : Prop :=
  samples_per_line ctx mod 8 = 0
  /\ Forall (fun buf => 0 <= buf < 2 ^ (spl_cnt ctx mod 8)) (sample_buf ctx).

(** * The loops of [receive] in closed form *)

Lemma append_assoc (a b c : string) : (a ++ b) ++ c = a ++ (b ++ c).
Proof. induction a as [|x a IH]; simpl; [reflexivity | now rewrite IH]. Qed.

Lemma append_nil_r (a : string) : a ++ "" = a.
Proof. induction a as [|x a IH]; simpl; [reflexivity | now rewrite IH]. Qed.

Lemma array_get_middle {A : Type} (p r : list A) (x : A) :
  array_get (p ++ x :: r)%list (length p) = Done x.
Proof. unfold array_get. now rewrite list_lookup_middle. Qed.

Lemma array_get_middle' {A : Type} (p r : list A) (x : A) (j : nat) :
  j = length p -> array_get (p ++ x :: r)%list j = Done x.
Proof. intros ->. apply array_get_middle. Qed.

Lemma insert_middle {A : Type} (p r : list A) (x y : A) (j : nat) :
  j = length p -> <[j:=y]> (p ++ x :: r)%list = (p ++ y :: r)%list.
Proof.
  intros ->. replace (length p) with (length p + 0)%nat by lia.
  now rewrite insert_app_r.
Qed.

Lemma quot_rem_nonneg (idx : Z) :
  0 <= idx -> Z.quot idx 8 = idx / 8 /\ Z.rem idx 8 = idx mod 8.
Proof.
  intros H. split; [apply Z.quot_div_nonneg | apply Z.rem_mod_nonneg]; lia.
Qed.

Lemma read_byte_readable (logic : sr_datafeed_logic) (i idx : Z) :
  readable logic i idx ->
  read_byte logic (i + Z.quot idx 8)
  = Done (default 0 (data logic !! Z.to_nat (i + Z.quot idx 8))).
Proof.
  intros [_ [Hlo Hhi]]. unfold read_byte, array_get, logic_length in *.
  destruct (Z.ltb_spec (i + Z.quot idx 8) 0) as [?|_]; [lia|].
  destruct (data logic !! Z.to_nat (i + Z.quot idx 8)) eqn:E; [reflexivity|].
  apply lookup_ge_None in E. lia.
Qed.

Lemma shl_one_readable (logic : sr_datafeed_logic) (i idx : Z) :
  readable logic i idx ->
  shl_one (Z.rem idx 8) = Done (Z.shiftl 1 (Z.rem idx 8)).
Proof.
  intros [H0 _]. unfold shl_one.
  destruct (quot_rem_nonneg idx H0) as [_ ->].
  destruct (Z.ltb_spec (idx mod 8) 0) as [?|_]; [|reflexivity].
  pose proof (Z.mod_pos_bound idx 8). lia.
Qed.

Ltac ctx_simpl :=
  unfold set_sample_buf, set_lines, set_trigger, set_spl_cnt, set_header;
  cbn [num_enabled_channels samples_per_line bit_cnt spl_cnt trigger
       channel_index channel_names sample_buf lines header obind fst snd].

Lemma shift_in_bit (logic : sr_datafeed_logic) (i idx buf : Z) :
  shift_in buf (sample_bit logic i idx)
  = if Z.land (default 0 (data logic !! Z.to_nat (i + Z.quot idx 8)))
         (Z.shiftl 1 (Z.rem idx 8)) =? 0
    then Z.shiftl buf 1 mod 256
    else Z.lor (Z.shiftl buf 1 mod 256) 1.
Proof. unfold shift_in, sample_bit. now destruct (_ =? 0). Qed.

Lemma add_int_trigger (t : Z) :
  -1 < t -> t + t / 8 <= INT_MAX ->
  add_int t (Z.quot t 8) = Done (t + t / 8).
Proof.
  intros H0 H1. unfold add_int. rewrite Z.quot_div_nonneg by lia.
  pose proof (Z.div_pos t 8). unfold INT_MAX in *.
  rewrite (proj2 (Z.leb_le (t + t / 8) _)) by lia.
  rewrite (proj2 (Z.leb_le _ (t + t / 8))) by lia.
  reflexivity.
Qed.

Lemma fmt_pad_nonneg (w : Z) : 0 <= w -> fmt_pad w = spaces (Z.to_nat w).
Proof. intros H. unfold fmt_pad. now rewrite Z.abs_eq. Qed.

(** One channel of one sample, on a context whose arrays are split around
    entry [j]. *)
Lemma channel_step_middle logic i n spl bc cnt trg pi ri pn rn pb rb pl rl
    hd idx nm buf ln out :
  length pn = length pi -> length pb = length pi -> length pl = length pi ->
  readable logic i idx ->
  (-1 < trg -> trg + trg / 8 <= INT_MAX) ->
  channel_step logic i (Z.land cnt 7) (length pi)
    (mk_context n spl bc cnt trg (pi ++ idx :: ri)%list (pn ++ nm :: rn)%list
       (pb ++ buf :: rb)%list (pl ++ ln :: rl)%list hd, out)
  = let b := shift_in buf (sample_bit logic i idx) in
    let ln1 := if renders cnt then ln ++ fmt_02x b ++ " " else ln in
    let buf1 := if renders cnt then 0 else b in
    let last :=
      (Z.of_nat (length pi) =? (n - 1) mod UINT_MOD) && (-1 <? trg) in
    if cnt =? spl then
      Done (mk_context n spl bc cnt (if last then -1 else trg)
              (pi ++ idx :: ri)%list (pn ++ nm :: rn)%list
              (pb ++ buf1 :: rb)%list (pl ++ seed_line nm :: rl)%list hd,
            if last then (out ++ ln1 ++ newline) ++ caret_line trg
            else out ++ ln1 ++ newline)
    else
      Done (mk_context n spl bc cnt trg (pi ++ idx :: ri)%list
              (pn ++ nm :: rn)%list (pb ++ buf1 :: rb)%list
              (pl ++ ln1 :: rl)%list hd, out).
Proof.
  intros Hn Hb Hl Hr Ht. unfold channel_step. cbn [channel_index sample_buf].
  rewrite array_get_middle. cbn [obind].
  rewrite (array_get_middle' pb rb buf) by congruence. cbn [obind].
  rewrite (read_byte_readable _ _ _ Hr). cbn [obind].
  rewrite (shl_one_readable _ _ _ Hr). cbn [obind].
  rewrite <- (shift_in_bit logic i idx buf).
  set (b := shift_in buf (sample_bit logic i idx)).
  unfold set_sample_buf, set_lines, set_trigger.
  cbn [num_enabled_channels samples_per_line bit_cnt spl_cnt trigger
       channel_index channel_names sample_buf lines header].
  rewrite (insert_middle pb rb buf b) by congruence.
  rewrite (array_get_middle' pl rl ln) by congruence. cbn [obind].
  fold (renders cnt).
  assert (Hpad : -1 < trg -> fmt_pad (trg + trg / 8)
                             = spaces (Z.to_nat (trg + trg / 8))).
  { intros. apply fmt_pad_nonneg. pose proof (Z.div_pos trg 8). lia. }
  destruct (renders cnt); ctx_simpl;
    rewrite ?insert_middle by congruence;
    (destruct (cnt =? spl); [|reflexivity]);
    (destruct (Z.of_nat (length pi) =? (n - 1) mod UINT_MOD);
     cbn [andb]);
    try (destruct (Z.ltb_spec (-1) trg) as [Hlt|Hge];
         [rewrite add_int_trigger by auto|]);
    ctx_simpl;
    rewrite (array_get_middle' pn rn nm) by congruence; ctx_simpl;
    rewrite ?insert_middle by congruence; try reflexivity;
    unfold caret_line; rewrite Hpad by assumption; reflexivity.
Qed.

Lemma snoc_app {A : Type} (p r : list A) (x : A) :
  (p ++ x :: r)%list = ((p ++ [x]) ++ r)%list.
Proof. now rewrite <- app_assoc. Qed.

Lemma length_snoc {A : Type} (p : list A) (x : A) :
  length (p ++ [x])%list = S (length p).
Proof. rewrite length_app. simpl. lia. Qed.

(** The channel loop from channel [length pi] on, in closed form. *)
Lemma channel_loop_middle logic i n spl bc cnt hd :
  forall idxs nms bufs lns pi pn pb pl out trg,
  length nms = length idxs -> length bufs = length idxs ->
  length lns = length idxs ->
  length pn = length pi -> length pb = length pi -> length pl = length pi ->
  n = Z.of_nat (length pi + length idxs) -> n < UINT_MOD ->
  Forall (readable logic i) idxs ->
  (-1 < trg -> trg + trg / 8 <= INT_MAX) ->
  channel_loop (length idxs) logic i (Z.land cnt 7) (length pi)
    (mk_context n spl bc cnt trg (pi ++ idxs)%list (pn ++ nms)%list
       (pb ++ bufs)%list (pl ++ lns)%list hd, out)
  = let car :=
      (cnt =? spl) && negb (Nat.eqb (length idxs) 0) && (-1 <? trg) in
    Done (mk_context n spl bc cnt (if car then -1 else trg)
            (pi ++ idxs)%list (pn ++ nms)%list
            (pb ++ step_bufs cnt logic i idxs bufs)%list
            (pl ++ (if cnt =? spl then seed_lines nms
                    else full_lines cnt logic i idxs bufs lns))%list hd,
          if cnt =? spl then
            out ++ flush_text (full_lines cnt logic i idxs bufs lns)
                ++ (if car then caret_line trg else "")
          else out).
Proof.
  induction idxs as [|idx idxs IH];
    intros [|nm nms] [|buf bufs] [|ln lns] pi pn pb pl out trg
      Hn Hb Hl Hpn Hpb Hpl Hlen Hmax Hrd Htr; try discriminate.
  - cbn. destruct (cnt =? spl); cbn; now rewrite ?append_nil_r.
  - injection Hn as Hn. injection Hb as Hb. injection Hl as Hl.
    apply Forall_cons in Hrd as [Hr Hrd].
    cbn [length channel_loop].
    rewrite channel_step_middle by assumption. cbv zeta.
    cbn [step_bufs full_lines seed_lines map flush_text Nat.eqb negb].
    rewrite andb_true_r.
    assert (Hn1 : (n - 1) mod UINT_MOD
                  = Z.of_nat (length pi) + Z.of_nat (length idxs)).
    { rewrite Z.mod_small; cbn [length] in Hlen; lia. }
    rewrite Hn1.
    destruct idxs as [|idx' idxs'].
    + destruct nms, bufs, lns; try discriminate.
      cbn [length]. rewrite Z.add_0_r, Z.eqb_refl. cbn [andb].
      destruct (cnt =? spl); cbn [obind channel_loop step_bufs full_lines
        flush_text map andb]; [|reflexivity].
      destruct (-1 <? trg); rewrite ?append_nil_r, ?append_assoc;
        reflexivity.
    + assert (Hne : (Z.of_nat (length pi)
                     =? Z.of_nat (length pi)
                        + Z.of_nat (length (idx' :: idxs'))) = false).
      { apply Z.eqb_neq. cbn [length]. lia. }
      rewrite Hne. cbn [andb].
      set (b := shift_in buf (sample_bit logic i idx)).
      destruct (cnt =? spl) eqn:Hfl; cbn [obind].
      * rewrite (snoc_app pi _ idx), (snoc_app pn nms nm),
          (snoc_app pb bufs), (snoc_app pl lns).
        rewrite <- (length_snoc pi idx).
        rewrite (IH nms bufs lns (pi ++ [idx])%list (pn ++ [nm])%list
                   (pb ++ [if renders cnt then 0 else b])%list
                   (pl ++ [seed_line nm])%list);
          rewrite ?length_snoc; try congruence; try assumption;
          [|cbn [length] in *; lia].
        cbv zeta. cbn [andb length Nat.eqb negb].
        rewrite <- !snoc_app, !append_assoc. reflexivity.
      * rewrite (snoc_app pi _ idx), (snoc_app pn nms nm),
          (snoc_app pb bufs), (snoc_app pl lns).
        rewrite <- (length_snoc pi idx).
        rewrite (IH nms bufs lns (pi ++ [idx])%list (pn ++ [nm])%list
                   (pb ++ [if renders cnt then 0 else b])%list
                   (pl ++ [if renders cnt
                           then (ln ++ fmt_02x b ++ " ")%string
                           else ln])%list);
          rewrite ?length_snoc; try congruence; try assumption;
          [|cbn [length] in *; lia].
        cbv zeta. cbn [andb length Nat.eqb negb].
        rewrite <- !snoc_app. reflexivity.
Qed.

Lemma length_step_bufs cnt logic i idxs bufs :
  length bufs = length idxs ->
  length (step_bufs cnt logic i idxs bufs) = length idxs.
Proof.
  revert bufs. induction idxs as [|x idxs IH]; intros [|b bufs] H;
    try discriminate; cbn; [reflexivity|]. f_equal. apply IH. now injection H.
Qed.

Lemma length_full_lines cnt logic i idxs bufs lns :
  length bufs = length idxs -> length lns = length idxs ->
  length (full_lines cnt logic i idxs bufs lns) = length idxs.
Proof.
  revert bufs lns. induction idxs as [|x idxs IH];
    intros [|b bufs] [|l lns] Hb Hl; try discriminate; cbn; [reflexivity|].
  f_equal. apply IH; [now injection Hb | now injection Hl].
Qed.

Lemma length_seed_lines names : length (seed_lines names) = length names.
Proof. apply length_map. Qed.

(** One pass of the sample loop equals its closed form. *)
Lemma sample_step_closed logic i ctx out :
  ready ctx ->
  Forall (readable logic i) (channel_index ctx) ->
  sample_step logic i (ctx, out)
  = Done (step_context logic i ctx, out ++ step_text logic i ctx).
Proof.
  intros [[Hmax Hidx Hnm Hbf Hln] Hcnt Hspl Htrg] Hrd.
  unfold sample_step, step_context, step_text, step_caret.
  destruct ctx as [n spl bc cnt trg idxs nms bufs lns hd].
  cbn [num_enabled_channels samples_per_line bit_cnt spl_cnt trigger
       channel_index channel_names sample_buf lines header set_spl_cnt] in *.
  rewrite (proj2 (Z.eqb_neq cnt INT_MAX)) by lia.
  replace (Z.to_nat n) with (length idxs) by lia.
  pose proof (channel_loop_middle logic i n spl bc (cnt + 1) hd idxs nms bufs
                lns [] [] [] [] out trg) as H.
  cbn [app length] in H. ctx_simpl.
  rewrite H; try congruence; try lia; try assumption.
  clear H. cbv zeta. ctx_simpl.
  destruct (cnt + 1 =? spl); [reflexivity|].
  now rewrite append_nil_r.
Qed.

Lemma step_context_ready logic i ctx :
  ready ctx -> ready (step_context logic i ctx).
Proof.
  intros [[Hmax Hidx Hnm Hbf Hln] Hcnt Hspl Htrg].
  unfold step_context.
  destruct (Z.eqb_spec (spl_cnt ctx + 1) (samples_per_line ctx)) as [He|Hne];
    (split; [split|..]); cbn; try assumption; try lia;
    rewrite ?length_step_bufs, ?length_seed_lines, ?length_full_lines;
    try assumption; try congruence;
    destruct (step_caret ctx); try assumption; lia.
Qed.

Lemma step_context_index logic i ctx :
  channel_index (step_context logic i ctx) = channel_index ctx.
Proof. reflexivity. Qed.

Lemma fits_readable logic ctx i :
  channels_fit logic ctx ->
  0 <= i -> i + unitsize logic <= logic_length logic ->
  Forall (readable logic i) (channel_index ctx).
Proof.
  unfold channels_fit. intros Hfit Hi Hlen.
  eapply Forall_impl; [exact Hfit|]. cbn. intros idx [H0 H1].
  unfold readable. rewrite Z.quot_div_nonneg by lia.
  assert (idx / 8 < unitsize logic) by (apply Z.div_lt_upper_bound; lia).
  pose proof (Z.div_pos idx 8). lia.
Qed.

Lemma sample_loop_unfold fuel logic i st :
  sample_loop fuel logic i st
  = if i <=? (logic_length logic - unitsize logic) mod UINT64_MOD then
      match fuel with
      | O => OutOfFuel
      | S fuel' =>
          st' <- sample_step logic i st ;;
          sample_loop fuel' logic ((i + unitsize logic) mod UINT64_MOD) st'
      end
    else Done st.
Proof. destruct fuel; reflexivity. Qed.

(** The sample loop over a packet that holds [k] more whole samples from
    offset [i] on: [k] units of fuel are enough, and the loop is [k]
    passes in closed form. *)
Lemma sample_loop_closed logic :
  holds_sample logic ->
  forall (k f : nat) (i : Z) (ctx : context) (out : string),
  ready ctx -> channels_fit logic ctx ->
  0 <= i ->
  i + Z.of_nat k * unitsize logic <= logic_length logic ->
  logic_length logic < i + (Z.of_nat k + 1) * unitsize logic ->
  sample_loop (k + f) logic i (ctx, out)
  = Done (run_samples k logic i (ctx, out)).
Proof.
  intros [[Hu Hul] Hlen].
  assert (Hbound : (logic_length logic - unitsize logic) mod UINT64_MOD
                   = logic_length logic - unitsize logic).
  { apply Z.mod_small. lia. }
  induction k as [|k IH]; intros f i ctx out Hrdy Hfit Hi Hlo Hhi;
    rewrite sample_loop_unfold, Hbound.
  - rewrite (proj2 (Z.leb_gt _ _)) by lia. reflexivity.
  - rewrite (proj2 (Z.leb_le _ _)) by lia.
    cbn [Nat.add run_samples fst snd].
    rewrite sample_step_closed;
      [|assumption|apply fits_readable; [assumption|lia|nia]].
    cbn [obind]. rewrite Z.mod_small by (unfold UINT64_MOD in *; nia).
    apply IH; [now apply step_context_ready|exact Hfit|lia|lia|lia].
Qed.

Lemma sample_count_bounds logic :
  holds_sample logic ->
  0 + Z.of_nat (sample_count logic) * unitsize logic <= logic_length logic
  /\ logic_length logic
     < 0 + (Z.of_nat (sample_count logic) + 1) * unitsize logic.
Proof.
  intros [[Hu Hul] Hlen]. unfold sample_count.
  pose proof (Z.div_pos (logic_length logic) (unitsize logic)).
  rewrite Z2Nat.id by lia.
  pose proof (Z.mul_div_le (logic_length logic) (unitsize logic) Hu).
  pose proof (Z.mul_succ_div_gt (logic_length logic) (unitsize logic) Hu).
  lia.
Qed.

(** [receive] of a sample batch in closed form. *)
Lemma receive_logic_closed fuel o dev ctx logic :
  sdi o = Some dev -> internal o = Some ctx ->
  ready ctx -> channels_fit logic ctx -> holds_sample logic ->
  (sample_count logic <= fuel)%nat ->
  receive fuel (Some o) (SR_DF_LOGIC logic)
  = let st := run_samples (sample_count logic) logic 0
                (set_header ctx None, default "" (header ctx)) in
    Done (mk_result SR_OK (Some (set_internal o (Some (fst st))))
            (Some (snd st))).
Proof.
  intros Hsdi Hint Hrdy Hfit Hpk Hfuel. unfold receive.
  rewrite Hsdi, Hint.
  replace fuel with (sample_count logic + (fuel - sample_count logic))%nat
    by lia.
  destruct (sample_count_bounds logic Hpk) as [Hlo Hhi].
  assert (Hrdy' : ready (set_header ctx None)).
  { destruct Hrdy as [[]]. split; [split|..]; assumption. }
  destruct (header ctx) as [h|] eqn:Hh; cbn [default].
  - rewrite sample_loop_closed; try assumption; try lia; reflexivity.
  - assert (Hsame : set_header ctx None = ctx)
      by (destruct ctx; cbn in Hh; now subst).
    rewrite Hsame in *.
    rewrite sample_loop_closed; try assumption; try lia; reflexivity.
Qed.

(** The end-of-stream loop from channel [length pb] on, in closed form. *)
Lemma end_loop_middle n spl bc cnt trg idxs nms hd :
  forall bufs lns pb pl out,
  length lns = length bufs -> length pl = length pb ->
  end_loop (length bufs) (length pb)
    (mk_context n spl bc cnt trg idxs nms (pb ++ bufs)%list (pl ++ lns)%list
       hd, out)
  = Done (mk_context n spl bc cnt trg idxs nms (pb ++ bufs)%list
            (pl ++ end_lines cnt bufs lns)%list hd,
          out ++ flush_text (end_lines cnt bufs lns)).
Proof.
  induction bufs as [|buf bufs IH]; intros [|ln lns] pb pl out Hl Hp;
    try discriminate.
  - cbn. now rewrite append_nil_r.
  - injection Hl as Hl. cbn [length end_loop end_lines flush_text].
    unfold end_step. ctx_simpl.
    destruct (Z.land cnt 7 =? 0); cbn [negb]; ctx_simpl.
    + rewrite (array_get_middle' pl lns ln) by congruence. ctx_simpl.
      rewrite (snoc_app pb bufs), (snoc_app pl lns).
      rewrite <- (length_snoc pb buf), IH by (rewrite ?length_snoc; congruence).
      now rewrite <- !snoc_app, !append_assoc.
    + rewrite (array_get_middle' pl lns ln) by congruence. ctx_simpl.
      rewrite array_get_middle. ctx_simpl.
      rewrite (insert_middle pl lns ln) by congruence.
      rewrite (array_get_middle' pl lns) by congruence. ctx_simpl.
      rewrite (snoc_app pb bufs), (snoc_app pl lns).
      rewrite <- (length_snoc pb buf), IH by (rewrite ?length_snoc; congruence).
      now rewrite <- !snoc_app, !append_assoc.
Qed.

(** [receive] of the end-of-stream packet in closed form. *)
Lemma receive_end_closed fuel o dev ctx :
  sdi o = Some dev -> internal o = Some ctx -> wf_context ctx ->
  receive fuel (Some o) SR_DF_END
  = if spl_cnt ctx =? 0 then Done (mk_result SR_OK (Some o) None)
    else
      let lns := end_lines (spl_cnt ctx) (sample_buf ctx) (lines ctx) in
      Done (mk_result SR_OK
              (Some (set_internal o (Some (set_lines ctx lns))))
              (Some (flush_text lns))).
Proof.
  intros Hsdi Hint [Hmax Hidx Hnm Hbf Hln]. unfold receive.
  rewrite Hsdi, Hint. destruct (spl_cnt ctx =? 0); [reflexivity|].
  destruct ctx as [n spl bc cnt trg idxs nms bufs lns hd]. cbn in *.
  replace (Z.to_nat n) with (length bufs) by lia.
  pose proof (end_loop_middle n spl bc cnt trg idxs nms hd bufs lns [] [] "")
    as H.
  cbn [app length] in H. rewrite H by congruence. reflexivity.
Qed.

Lemma land_7_mod (c : Z) : Z.land c 7 = c mod 8.
Proof. exact (Z.land_ones c 3 ltac:(lia)). Qed.

Lemma end_lines_zip cnt bufs lns :
  cnt mod 8 <> 0 ->
  end_lines cnt bufs lns
  = zip_with
      (fun buf ln => ln ++ fmt_02x (Z.shiftl buf (8 - cnt mod 8)) ++ " ")
      bufs lns.
Proof.
  intros H. revert lns. induction bufs as [|b bufs IH]; intros [|l lns];
    cbn [end_lines zip_with]; try reflexivity.
  rewrite land_7_mod, (proj2 (Z.eqb_neq _ _) H). now rewrite IH.
Qed.

Lemma end_lines_whole cnt bufs lns :
  cnt mod 8 = 0 -> length lns = length bufs -> end_lines cnt bufs lns = lns.
Proof.
  intros H. revert lns. induction bufs as [|b bufs IH]; intros [|l lns] Hl;
    try discriminate; cbn [end_lines]; try reflexivity.
  rewrite land_7_mod, H. cbn. f_equal. apply IH. now injection Hl.
Qed.

Lemma ex_context_wf : wf_context ex_context.
Proof. split; reflexivity. Qed.

Lemma ex_context_ready : ready ex_context.
Proof.
  split; [exact ex_context_wf|cbn; lia|cbn; unfold INT_MAX; lia|cbn; lia].
Qed.

Lemma run_samples_ready logic k :
  forall i ctx out, ready ctx -> ready (fst (run_samples k logic i (ctx, out))).
Proof.
  induction k as [|k IH]; intros i ctx out H; cbn [run_samples fst snd];
    [exact H|].
  apply IH. now apply step_context_ready.
Qed.

Lemma shift_in_three (b0 b1 b2 : bool) :
  shift_in (shift_in (shift_in 0 b0) b1) b2 = bits_value [b0; b1; b2].
Proof. destruct b0, b1, b2; reflexivity. Qed.

(** Three samples into a fresh line of width 8, then the end-of-stream
    flush: the lines that are flushed. *)
Lemma end_lines_three logic i0 i1 i2 :
  forall idxs nms, length nms = length idxs ->
  end_lines 3
    (step_bufs 3 logic i2 idxs
       (step_bufs 2 logic i1 idxs
          (step_bufs 1 logic i0 idxs (replicate (length idxs) 0))))
    (full_lines 3 logic i2 idxs
       (step_bufs 2 logic i1 idxs
          (step_bufs 1 logic i0 idxs (replicate (length idxs) 0)))
       (full_lines 2 logic i1 idxs
          (step_bufs 1 logic i0 idxs (replicate (length idxs) 0))
          (full_lines 1 logic i0 idxs (replicate (length idxs) 0)
             (seed_lines nms))))
  = zip_with
      (fun idx name =>
         seed_line name
         ++ fmt_02x (Z.shiftl (bits_value [sample_bit logic i0 idx;
                                           sample_bit logic i1 idx;
                                           sample_bit logic i2 idx]) 5)
         ++ " ")
      idxs nms.
Proof.
  induction idxs as [|idx idxs IH]; intros [|nm nms] Hl; try discriminate;
    [reflexivity|].
  injection Hl as Hl.
  cbn [length replicate step_bufs full_lines seed_lines map end_lines
       zip_with].
  change (renders 1) with false. change (renders 2) with false.
  change (renders 3) with false. cbv iota.
  change (Z.land 3 7 =? 0) with false. cbv iota.
  change (8 - Z.land 3 7) with 5.
  rewrite shift_in_three. f_equal. apply (IH nms Hl).
Qed.

(** * Properties of [receive] and [init] *)

(** C7.  A trigger-marker packet records the current in-line sample count
    as the pending trigger offset, whatever offset was pending before,
    produces no chunk and leaves every other field of the context (and of
    the handle) as it was. *)
Theorem receive_trigger_frame (fuel : nat) (o : sr_output)
    (dev : sr_dev_inst) (ctx : context) :
  sdi o = Some dev -> internal o = Some ctx ->
  receive fuel (Some o) SR_DF_TRIGGER
  = Done (mk_result SR_OK
            (Some (mk_output (sdi o) (param o)
                     (Some (mk_context (num_enabled_channels ctx)
                              (samples_per_line ctx) (bit_cnt ctx)
                              (spl_cnt ctx) (spl_cnt ctx)
                              (channel_index ctx) (channel_names ctx)
                              (sample_buf ctx) (lines ctx) (header ctx)))))
            None)
  /\ forall t : Z,
       receive fuel (Some (set_internal o (Some (set_trigger ctx t))))
         SR_DF_TRIGGER
       = receive fuel (Some o) SR_DF_TRIGGER.
Proof.
  intros Hsdi Hint. destruct o as [s p c]. cbn in Hsdi, Hint. subst s c.
  split; [reflexivity|]. intros t. reflexivity.
Qed.

Lemma receive_trigger_frame_witness :
  receive 0 (Some ex_output) SR_DF_TRIGGER
  = Done (mk_result SR_OK
            (Some (mk_output (Some ex_dev) (Some "8")
                     (Some (mk_context 2 8 0 3 3 [0; 1] ["A"; "B"] [7; 1]
                              ["A:"; "B:"] None))))
            None).
Proof.
  exact (proj1 (receive_trigger_frame 0 ex_output ex_dev ex_context
                  eq_refl eq_refl)).
Defined.

(** C10.  The end-of-stream flush does not look at the pending trigger
    offset: whatever offset [t] is pending, the final chunk is the
    per-channel data lines and nothing else (no chunk when no sample is
    buffered), and the status is [SR_OK]. *)
Theorem receive_end_ignores_trigger (fuel : nat) (o : sr_output)
    (dev : sr_dev_inst) (ctx : context) (t : Z) :
  sdi o = Some dev -> wf_context ctx ->
  receive fuel (Some (set_internal o (Some (set_trigger ctx t)))) SR_DF_END
  = if spl_cnt ctx =? 0 then
      Done (mk_result SR_OK
              (Some (set_internal o (Some (set_trigger ctx t)))) None)
    else
      let lns := end_lines (spl_cnt ctx) (sample_buf ctx) (lines ctx) in
      Done (mk_result SR_OK
              (Some (set_internal o
                       (Some (set_trigger (set_lines ctx lns) t))))
              (Some (flush_text lns))).
Proof.
  intros Hsdi Hwf.
  rewrite (receive_end_closed fuel _ dev (set_trigger ctx t));
    [reflexivity|exact Hsdi|reflexivity|].
  destruct Hwf. split; assumption.
Qed.

Lemma receive_end_ignores_trigger_witness :
  receive 0 (Some (set_internal ex_output (Some (set_trigger ex_context 2))))
    SR_DF_END
  = Done (mk_result SR_OK
            (Some (mk_output (Some ex_dev) (Some "8")
                     (Some (mk_context 2 8 0 3 2 [0; 1] ["A"; "B"] [7; 1]
                              ["A:e0 "; "B:20 "] None))))
            (Some ("A:e0 " ++ newline ++ "B:20 " ++ newline))).
Proof.
  exact (receive_end_ignores_trigger 0 ex_output ex_dev ex_context 2
           eq_refl ex_context_wf).
Defined.

Lemma ex_context0_ready : ready ex_context0.
Proof.
  split; [split; reflexivity|cbn; lia|cbn; unfold INT_MAX; lia|cbn; lia].
Qed.

Lemma ex_logic3_fit : channels_fit ex_logic3 ex_context0.
Proof. repeat constructor; cbn; lia. Qed.

Lemma ex_logic3_holds : holds_sample ex_logic3.
Proof. unfold holds_sample, logic_length, UINT64_MOD. cbn. lia. Qed.

(** C3.  At the end-of-stream signal with [count > 0] samples buffered
    and [count mod 8 <> 0], every channel's line gets one more hex byte,
    its bit accumulator shifted left by [8 - count mod 8], and the final
    chunk is every channel's full line followed by a line terminator.
    In particular, three samples into a fresh line of width 8 and then
    the end of the stream: each channel's byte is its three collected
    bits shifted left by 5. *)
Theorem end_flush_left_aligns :
  (forall (fuel : nat) (o : sr_output) (dev : sr_dev_inst) (ctx : context),
     sdi o = Some dev -> internal o = Some ctx -> wf_context ctx ->
     0 < spl_cnt ctx -> spl_cnt ctx mod 8 <> 0 ->
     let lns :=
       zip_with
         (fun buf ln =>
            ln ++ fmt_02x (Z.shiftl buf (8 - spl_cnt ctx mod 8)) ++ " ")
         (sample_buf ctx) (lines ctx) in
     receive fuel (Some o) SR_DF_END
     = Done (mk_result SR_OK
               (Some (set_internal o (Some (set_lines ctx lns))))
               (Some (flush_text lns))))
  /\
  (forall (fuel : nat) (o : sr_output) (dev : sr_dev_inst) (ctx : context)
          (logic : sr_datafeed_logic),
     sdi o = Some dev -> internal o = Some ctx ->
     ready ctx -> channels_fit logic ctx -> holds_sample logic ->
     sample_count logic = 3%nat -> (3 <= fuel)%nat ->
     samples_per_line ctx = 8 -> spl_cnt ctx = 0 ->
     sample_buf ctx = replicate (length (channel_index ctx)) 0 ->
     lines ctx = seed_lines (channel_names ctx) ->
     exists (o1 o2 : sr_output) (first : string),
       receive fuel (Some o) (SR_DF_LOGIC logic)
       = Done (mk_result SR_OK (Some o1) (Some first))
       /\ receive fuel (Some o1) SR_DF_END
          = Done (mk_result SR_OK (Some o2)
                    (Some (flush_text
                             (zip_with
                                (fun idx name =>
                                   seed_line name
                                   ++ fmt_02x
                                        (Z.shiftl
                                           (bits_value
                                              [sample_bit logic 0 idx;
                                               sample_bit logic
                                                 (unitsize logic) idx;
                                               sample_bit logic
                                                 (2 * unitsize logic) idx])
                                           5)
                                   ++ " ")
                                (channel_index ctx) (channel_names ctx)))))).
Proof.
  split.
  - intros fuel o dev ctx Hsdi Hint Hwf Hpos Hmod lns.
    rewrite (receive_end_closed fuel o dev ctx Hsdi Hint Hwf).
    rewrite (proj2 (Z.eqb_neq (spl_cnt ctx) 0)) by lia. cbv zeta.
    rewrite end_lines_zip by assumption. reflexivity.
  - intros fuel o dev ctx logic Hsdi Hint Hrdy Hfit Hpk Hcnt Hfuel Hspl Hc
      Hbufs Hlns.
    destruct ctx as [n spl bc cnt trg idxs nms bufs lns hd].
    cbn in Hspl, Hc, Hbufs, Hlns. subst spl cnt bufs lns.
    set (ctx := mk_context n 8 bc 0 trg idxs nms _ _ hd) in *.
    pose proof (wf_names ctx (ready_wf ctx Hrdy)) as Hnm. cbn in Hnm.
    rewrite (receive_logic_closed fuel o dev ctx logic) by
      (try assumption; lia).
    cbv zeta.
    pose proof (run_samples_ready logic (sample_count logic) 0
                  (set_header ctx None) (default "" (header ctx))) as Hr.
    set (st := run_samples (sample_count logic) logic 0 _) in *.
    assert (Hchunk :
      end_lines (spl_cnt (fst st)) (sample_buf (fst st)) (lines (fst st))
      = zip_with
          (fun idx name =>
             seed_line name
             ++ fmt_02x
                  (Z.shiftl
                     (bits_value
                        [sample_bit logic 0 idx;
                         sample_bit logic (unitsize logic) idx;
                         sample_bit logic (2 * unitsize logic) idx]) 5)
             ++ " ")
          idxs nms).
    { subst st. rewrite Hcnt. etransitivity;
        [exact (end_lines_three logic 0 (0 + unitsize logic)
                  (0 + unitsize logic + unitsize logic) idxs nms Hnm)|].
      replace (0 + unitsize logic + unitsize logic)
        with (2 * unitsize logic) by lia.
      reflexivity. }
    assert (Hthree : (spl_cnt (fst st) =? 0) = false)
      by (subst st; rewrite Hcnt; reflexivity).
    do 3 eexists. split; [reflexivity|].
    rewrite (receive_end_closed fuel (set_internal o (Some (fst st))) dev
               (fst st) Hsdi eq_refl);
      [|apply Hr; destruct Hrdy as [[]]; split; [split|..]; assumption].
    rewrite Hthree. cbv zeta. rewrite Hchunk. reflexivity.
Qed.

Lemma end_flush_left_aligns_witness :
  receive 0 (Some ex_output) SR_DF_END
  = Done (mk_result SR_OK
            (Some (set_internal ex_output
                     (Some (set_lines ex_context ["A:e0 "; "B:20 "]))))
            (Some ("A:e0 " ++ newline ++ "B:20 " ++ newline)))
  /\ exists (o1 o2 : sr_output) (first : string),
       receive 3 (Some ex_output0) (SR_DF_LOGIC ex_logic3)
       = Done (mk_result SR_OK (Some o1) (Some first))
       /\ receive 3 (Some o1) SR_DF_END
          = Done (mk_result SR_OK (Some o2)
                    (Some ("A:e0 " ++ newline ++ "B:20 " ++ newline))).
Proof.
  split.
  - apply (proj1 end_flush_left_aligns 0%nat ex_output ex_dev ex_context);
      [reflexivity|reflexivity|exact ex_context_wf|reflexivity|discriminate].
  - apply (proj2 end_flush_left_aligns 3%nat ex_output0 ex_dev ex_context0
             ex_logic3);
      [reflexivity|reflexivity|exact ex_context0_ready|exact ex_logic3_fit
      |exact ex_logic3_holds|reflexivity|apply le_n|reflexivity|reflexivity
      |reflexivity|reflexivity].
Defined.

Lemma step_caret_true ctx :
  spl_cnt ctx + 1 = samples_per_line ctx -> -1 < trigger ctx ->
  channel_index ctx <> [] -> step_caret ctx = true.
Proof.
  intros Hfl Ht Hne. unfold step_caret.
  rewrite (proj2 (Z.eqb_eq _ _) Hfl), (proj2 (Z.ltb_lt _ _) Ht).
  destruct (channel_index ctx); [contradiction|reflexivity].
Qed.

(** C4.  In the pass of the sample loop in which the in-line counter
    reaches the line width while a trigger offset [t] is pending (and at
    least one channel is selected), the text appended to the chunk is the
    channels' data lines followed by exactly one caret line, ["T:"], then
    [t + t / 8] spaces, then ["^ "], the decimal [t] and a line
    terminator; the pending offset is cleared, the counter is back at 0
    and the lines are seeded again.  The same at the level of [receive],
    for a packet of one sample. *)
Theorem flush_caret_line (fuel : nat) (o : sr_output) (dev : sr_dev_inst)
    (ctx : context) (logic : sr_datafeed_logic) (t : Z) :
  sdi o = Some dev -> internal o = Some ctx ->
  ready ctx -> channels_fit logic ctx -> holds_sample logic ->
  spl_cnt ctx + 1 = samples_per_line ctx ->
  trigger ctx = t -> -1 < t -> channel_index ctx <> [] ->
  let caret :=
    "T:" ++ spaces (Z.to_nat (t + t / 8)) ++ "^ " ++ fmt_d t ++ newline in
  let data_lines (i : Z) :=
    flush_text (full_lines (samples_per_line ctx) logic i (channel_index ctx)
                  (sample_buf ctx) (lines ctx)) in
  (forall (i : Z) (out : string),
     0 <= i -> i + unitsize logic <= logic_length logic ->
     exists ctx',
       sample_step logic i (ctx, out)
       = Done (ctx', out ++ data_lines i ++ caret)
       /\ trigger ctx' = -1 /\ spl_cnt ctx' = 0
       /\ lines ctx' = seed_lines (channel_names ctx))
  /\ (sample_count logic = 1%nat -> (1 <= fuel)%nat ->
      exists ctx',
        receive fuel (Some o) (SR_DF_LOGIC logic)
        = Done (mk_result SR_OK (Some (set_internal o (Some ctx')))
                  (Some (default "" (header ctx) ++ data_lines 0 ++ caret)))
        /\ trigger ctx' = -1 /\ spl_cnt ctx' = 0
        /\ lines ctx' = seed_lines (channel_names ctx)).
Proof.
  intros Hsdi Hint Hrdy Hfit Hpk Hfl Ht Hpos Hne caret data_lines.
  subst t. pose proof (step_caret_true ctx Hfl Hpos Hne) as Hcar.
  assert (Htext : forall i, step_text logic i ctx = data_lines i ++ caret).
  { intros i. unfold step_text. rewrite Hcar, Hfl, Z.eqb_refl. reflexivity. }
  assert (Hctx : forall i,
            trigger (step_context logic i ctx) = -1
            /\ spl_cnt (step_context logic i ctx) = 0
            /\ lines (step_context logic i ctx)
               = seed_lines (channel_names ctx)).
  { intros i. unfold step_context. cbn. rewrite Hcar, Hfl, Z.eqb_refl.
    repeat split. }
  split.
  - intros i out Hi Hlen. exists (step_context logic i ctx).
    rewrite sample_step_closed, Htext;
      [|assumption|now apply fits_readable].
    split; [reflexivity|apply Hctx].
  - intros Hone Hfuel.
    rewrite (receive_logic_closed fuel o dev ctx logic) by
      (try assumption; lia).
    rewrite Hone. cbv zeta. cbn [run_samples fst snd].
    exists (step_context logic 0 (set_header ctx None)). split.
    + f_equal. f_equal. f_equal. rewrite <- Htext.
      destruct ctx; reflexivity.
    + destruct (Hctx 0) as (H1 & H2 & H3).
      destruct ctx; exact (conj H1 (conj H2 H3)).
Qed.

Lemma ex_context7_ready : ready ex_context7.
Proof.
  split; [split; reflexivity|cbn; lia|cbn; unfold INT_MAX; lia
         |intros _; vm_compute; discriminate].
Qed.

Lemma ex_logic1_fit : channels_fit ex_logic1 ex_context7.
Proof. repeat constructor; cbn; lia. Qed.

Lemma ex_logic1_holds : holds_sample ex_logic1.
Proof. unfold holds_sample, logic_length, UINT64_MOD. cbn. lia. Qed.

Lemma flush_caret_line_witness :
  (exists ctx',
     sample_step ex_logic1 0 (ex_context7, "")
     = Done (ctx', "A:1e " ++ newline ++ "B:79 " ++ newline
                   ++ "T:     ^ 5" ++ newline)
     /\ trigger ctx' = -1 /\ spl_cnt ctx' = 0 /\ lines ctx' = ["A:"; "B:"])
  /\ exists ctx',
       receive 1 (Some ex_output7) (SR_DF_LOGIC ex_logic1)
       = Done (mk_result SR_OK (Some (set_internal ex_output7 (Some ctx')))
                 (Some ("A:1e " ++ newline ++ "B:79 " ++ newline
                        ++ "T:     ^ 5" ++ newline)))
       /\ trigger ctx' = -1 /\ spl_cnt ctx' = 0 /\ lines ctx' = ["A:"; "B:"].
Proof.
  pose proof (flush_caret_line 1 ex_output7 ex_dev ex_context7 ex_logic1 5
                eq_refl eq_refl ex_context7_ready ex_logic1_fit
                ex_logic1_holds eq_refl eq_refl eq_refl
                ltac:(discriminate)) as [H1 H2].
  split.
  - exact (H1 0 "" ltac:(reflexivity) ltac:(discriminate)).
  - exact (H2 eq_refl (le_n 1)).
Defined.

(** ** The line-width parameter *)

Lemma digit_cases (d : Z) :
  is_digit d ->
  d = 0 \/ d = 1 \/ d = 2 \/ d = 3 \/ d = 4 \/ d = 5 \/ d = 6 \/ d = 7
  \/ d = 8 \/ d = 9.
Proof. unfold is_digit. lia. Qed.

Lemma digit_char_facts (d : Z) :
  is_digit d ->
  digit_value (digit_char d) = Some d
  /\ is_space (digit_char d) = false
  /\ forall r, strip_sign (String (digit_char d) r)
               = (false, String (digit_char d) r).
Proof.
  intros H. destruct (digit_cases d H) as [->|[->|[->|[->|[->|[->|[->|[->|
    [->| ->]]]]]]]]]; repeat split.
Qed.

Lemma read_digits_numeral (ds : list Z) :
  Forall is_digit ds ->
  forall acc seen,
  read_digits (numeral ds) acc seen
  = if seen || negb (Nat.eqb (length ds) 0)
    then Some (fold_left (fun a d => 10 * a + d) ds acc) else None.
Proof.
  induction 1 as [|d ds Hd Hds IH]; intros acc seen.
  - cbn. now destruct seen.
  - cbn [numeral read_digits].
    destruct (digit_char_facts d Hd) as (-> & _ & _).
    rewrite IH. cbn. now rewrite orb_true_r.
Qed.

Lemma strtoul_numeral (ds : list Z) :
  Forall is_digit ds -> ds <> [] -> numeral_value ds <= ULONG_MAX ->
  strtoul (numeral ds) = numeral_value ds.
Proof.
  intros Hds Hne Hmax. destruct ds as [|d ds]; [contradiction|].
  unfold strtoul. pose proof (Forall_inv Hds) as Hd.
  destruct (digit_char_facts d Hd) as (_ & Hsp & Hsg).
  cbn [numeral skip_spaces]. rewrite Hsp, Hsg.
  change (String (digit_char d) (numeral ds)) with (numeral (d :: ds)).
  rewrite read_digits_numeral by assumption. cbn [orb negb length Nat.eqb].
  fold (numeral_value (d :: ds)).
  now rewrite (proj2 (Z.ltb_ge _ _)) by lia.
Qed.

Lemma to_int_small (v : Z) : 0 <= v <= INT_MAX -> to_int v = v.
Proof.
  intros H. unfold to_int, UINT_MOD, INT_MAX in *.
  rewrite Z.mod_small by lia. now rewrite (proj2 (Z.leb_le _ _)) by lia.
Qed.

Lemma unparseable_zero (s : string) : unparseable s -> strtoul s = 0.
Proof.
  unfold unparseable, strtoul.
  destruct (strip_sign (skip_spaces s)) as [neg digits]. cbn [snd].
  now intros ->.
Qed.

Lemma count_channels_spl (l : list sr_channel) :
  forall ctx,
  samples_per_line (count_channels l ctx) = samples_per_line ctx.
Proof.
  induction l as [|ch l IH]; intros ctx; cbn [count_channels];
    [reflexivity|].
  destruct (ch_type ch), (ch_enabled ch); now rewrite IH.
Qed.

Lemma fill_channels_spl (l : list sr_channel) :
  forall j ctx,
  samples_per_line (fill_channels l j ctx) = samples_per_line ctx.
Proof.
  induction l as [|ch l IH]; intros j ctx; cbn [fill_channels];
    [reflexivity|].
  destruct (ch_type ch), (ch_enabled ch); now rewrite IH.
Qed.

Lemma alloc_arrays_spl (ctx : context) :
  samples_per_line (alloc_arrays ctx) = samples_per_line ctx.
Proof. reflexivity. Qed.

Lemma init_rejects (banner : string) (rate : Z -> string) (o : sr_output)
    (dev : sr_dev_inst) (c : ascii) (r : string) :
  sdi o = Some dev -> param o = Some (String c r) ->
  to_int (strtoul (String c r)) < 1 ->
  init banner rate (Some o)
  = (SR_ERR_ARG, Some (set_internal o (Some fresh_context))).
Proof.
  intros Hsdi Hpar Hlt. unfold init. rewrite Hsdi, Hpar.
  now rewrite (proj2 (Z.ltb_lt _ _) Hlt).
Qed.

Lemma init_accepts (banner : string) (rate : Z -> string) (o : sr_output)
    (dev : sr_dev_inst) (c : ascii) (r : string) :
  sdi o = Some dev -> param o = Some (String c r) ->
  1 <= to_int (strtoul (String c r)) ->
  exists ctx,
    init banner rate (Some o) = (SR_OK, Some (set_internal o (Some ctx)))
    /\ samples_per_line ctx = to_int (strtoul (String c r)).
Proof.
  intros Hsdi Hpar Hge. unfold init. rewrite Hsdi, Hpar.
  rewrite (proj2 (Z.ltb_ge _ _)) by lia.
  eexists. split; [reflexivity|]. cbn [set_header samples_per_line].
  now rewrite fill_channels_spl, alloc_arrays_spl, count_channels_spl.
Qed.

Lemma init_default (banner : string) (rate : Z -> string) (o : sr_output)
    (dev : sr_dev_inst) :
  sdi o = Some dev -> param o = None \/ param o = Some "" ->
  exists ctx,
    init banner rate (Some o) = (SR_OK, Some (set_internal o (Some ctx)))
    /\ samples_per_line ctx = 192.
Proof.
  intros Hsdi Hpar. unfold init. rewrite Hsdi.
  destruct Hpar as [-> | ->]; (eexists; split; [reflexivity|]);
    cbn [set_header samples_per_line];
    now rewrite fill_channels_spl, alloc_arrays_spl, count_channels_spl.
Qed.


Lemma numeral_nonempty (ds : list Z) :
  ds <> [] -> exists c r, numeral ds = String c r.
Proof. destruct ds as [|d ds]; [contradiction|]. cbn. eauto. Qed.

Lemma numeral_value_nonneg (ds : list Z) :
  Forall is_digit ds -> 0 <= numeral_value ds.
Proof.
  unfold numeral_value. intros Hds.
  assert (H : forall acc, 0 <= acc ->
              0 <= fold_left (fun a d => 10 * a + d) ds acc).
  { induction Hds as [|d ds Hd _ IH]; intros acc Hacc; cbn; [exact Hacc|].
    apply IH. unfold is_digit in Hd. lia. }
  apply H. lia.
Qed.

(** C5.  [init] reads a present (non-empty) line-width parameter with
    [strtoul] in base 10: a decimal numeral with a value from 1 to
    [INT_MAX] becomes the samples-per-line, and the call fails with
    [SR_ERR_ARG] when the value read is below 1, so when the numeral is
    zero or when no number can be read at all (["0"] and ["abc"] are such
    parameters); without a parameter the samples-per-line is 192. *)
Theorem init_line_width (banner : string) (rate : Z -> string)
    (o : sr_output) (dev : sr_dev_inst) :
  sdi o = Some dev ->
  (param o = None ->
   exists ctx,
     init banner rate (Some o) = (SR_OK, Some (set_internal o (Some ctx)))
     /\ samples_per_line ctx = 192)
  /\ (forall c r, param o = Some (String c r) ->
      (to_int (strtoul (String c r)) < 1 ->
       fst (init banner rate (Some o)) = SR_ERR_ARG)
      /\ (1 <= to_int (strtoul (String c r)) ->
          exists ctx,
            init banner rate (Some o)
            = (SR_OK, Some (set_internal o (Some ctx)))
            /\ samples_per_line ctx = to_int (strtoul (String c r))))
  /\ (forall ds, Forall is_digit ds -> ds <> [] ->
      param o = Some (numeral ds) ->
      (numeral_value ds = 0 -> fst (init banner rate (Some o)) = SR_ERR_ARG)
      /\ (1 <= numeral_value ds <= INT_MAX ->
          exists ctx,
            init banner rate (Some o)
            = (SR_OK, Some (set_internal o (Some ctx)))
            /\ samples_per_line ctx = numeral_value ds))
  /\ (forall c r, param o = Some (String c r) -> unparseable (String c r) ->
      fst (init banner rate (Some o)) = SR_ERR_ARG)
  /\ (param o = Some "0" -> fst (init banner rate (Some o)) = SR_ERR_ARG)
  /\ (param o = Some "abc" -> fst (init banner rate (Some o)) = SR_ERR_ARG).
Proof.
  intros Hsdi.
  assert (Hrej : forall c r, param o = Some (String c r) ->
                 to_int (strtoul (String c r)) < 1 ->
                 fst (init banner rate (Some o)) = SR_ERR_ARG).
  { intros c r Hp Hlt.
    now rewrite (init_rejects banner rate o dev c r Hsdi Hp Hlt). }
  assert (Hnum : forall ds, Forall is_digit ds -> ds <> [] ->
                 numeral_value ds <= INT_MAX ->
                 to_int (strtoul (numeral ds)) = numeral_value ds).
  { intros ds Hds Hne Hmax.
    pose proof (numeral_value_nonneg ds Hds).
    rewrite strtoul_numeral by
      (try assumption; unfold ULONG_MAX, INT_MAX in *; lia).
    apply to_int_small. lia. }
  split; [|split; [|split; [|split; [|split]]]].
  - intros Hp. apply (init_default banner rate o dev Hsdi). now left.
  - intros c r Hp. split; [now apply Hrej|].
    now apply (init_accepts banner rate o dev c r).
  - intros ds Hds Hne Hp.
    destruct (numeral_nonempty ds Hne) as (c & r & Hcr).
    rewrite Hcr in Hp. split.
    + intros Hz. apply (Hrej c r Hp). rewrite <- Hcr, Hnum, Hz;
        try assumption; unfold INT_MAX; lia.
    + intros Hv.
      destruct (init_accepts banner rate o dev c r Hsdi Hp) as (ctx & He & Hs).
      * rewrite <- Hcr, Hnum; try assumption; lia.
      * exists ctx. split; [exact He|].
        rewrite Hs, <- Hcr. apply Hnum; try assumption; lia.
  - intros c r Hp Hun. apply (Hrej c r Hp).
    now rewrite (unparseable_zero _ Hun).
  - intros Hp. now apply (Hrej "0"%char "" Hp).
  - intros Hp. now apply (Hrej "a"%char "bc" Hp).
Qed.

Lemma init_line_width_witness :
  (exists ctx,
     ex_init None = (SR_OK, Some (set_internal (ex_handle None) (Some ctx)))
     /\ samples_per_line ctx = 192)
  /\ fst (ex_init (Some "0")) = SR_ERR_ARG
  /\ fst (ex_init (Some "abc")) = SR_ERR_ARG
  /\ exists ctx,
       ex_init (Some "16")
       = (SR_OK, Some (set_internal (ex_handle (Some "16")) (Some ctx)))
       /\ samples_per_line ctx = 16.
Proof.
  split; [|split; [|split]].
  - exact (proj1 (init_line_width ex_banner ex_rate (ex_handle None) ex_dev
                    eq_refl) eq_refl).
  - exact (proj1 (proj2 (proj2 (proj2 (proj2
             (init_line_width ex_banner ex_rate (ex_handle (Some "0"))
                ex_dev eq_refl))))) eq_refl).
  - exact (proj2 (proj2 (proj2 (proj2 (proj2
             (init_line_width ex_banner ex_rate (ex_handle (Some "abc"))
                ex_dev eq_refl))))) eq_refl).
  - refine (proj2 (proj1 (proj2 (proj2
              (init_line_width ex_banner ex_rate (ex_handle (Some "16"))
                 ex_dev eq_refl))) [1; 6] _ _ eq_refl) _).
    + repeat constructor; unfold is_digit; lia.
    + discriminate.
    + unfold INT_MAX. cbn. lia.
Defined.

(** ** The handle after a failed [init] *)

(** C6.  What the code does after a failed [init].  With a null device
    handle the output handle is left as it was and [receive] on it fails
    with [SR_ERR_ARG].  With an invalid line-width parameter (here ["0"])
    [init] returns [SR_ERR_ARG] after it has stored the new context in
    [o->internal]: the handle holds a context, and [receive] on it is not
    rejected but returns [SR_OK]. *)
Theorem init_failure_keeps_context :
  (forall (banner : string) (rate : Z -> string) (p : option string)
          (c : option context) (fuel : nat) (pk : sr_datafeed_packet),
     init banner rate (Some (mk_output None p c))
     = (SR_ERR_ARG, Some (mk_output None p c))
     /\ receive fuel (Some (mk_output None p c)) pk
        = Done (mk_result SR_ERR_ARG (Some (mk_output None p c)) None))
  /\ ex_init (Some "0")
     = (SR_ERR_ARG,
        Some (mk_output (Some ex_dev) (Some "0") (Some fresh_context)))
  /\ receive 0 (snd (ex_init (Some "0"))) SR_DF_TRIGGER
     = Done (mk_result SR_OK
               (Some (mk_output (Some ex_dev) (Some "0")
                        (Some (set_trigger fresh_context 0))))
               None)
  /\ receive 1 (snd (ex_init (Some "0"))) (SR_DF_LOGIC ex_logic1)
     = Done (mk_result SR_OK
               (Some (mk_output (Some ex_dev) (Some "0")
                        (Some (set_spl_cnt fresh_context 1))))
               (Some "")).
Proof.
  split; [|repeat split].
  intros banner rate p c fuel pk. split; reflexivity.
Qed.

(** ** The chunk of a sample batch *)

Lemma step_context_header logic i ctx :
  header (step_context logic i ctx) = header ctx.
Proof. reflexivity. Qed.

Lemma step_context_set_header logic i ctx h :
  step_context logic i (set_header ctx h)
  = set_header (step_context logic i ctx) h.
Proof. reflexivity. Qed.

Lemma step_text_set_header logic i ctx h :
  step_text logic i (set_header ctx h) = step_text logic i ctx.
Proof. reflexivity. Qed.

(** The chunk only grows: what the passes append does not depend on what
    the chunk already holds. *)
Lemma run_samples_out logic k :
  forall i ctx out,
  run_samples k logic i (ctx, out)
  = (fst (run_samples k logic i (ctx, "")),
     out ++ snd (run_samples k logic i (ctx, ""))).
Proof.
  induction k as [|k IH]; intros i ctx out; cbn [run_samples fst snd].
  - now rewrite append_nil_r.
  - rewrite IH. rewrite (IH _ _ ("" ++ _)). cbn [fst snd].
    now rewrite append_assoc.
Qed.

Lemma run_samples_header logic k :
  forall i ctx out,
  header (fst (run_samples k logic i (ctx, out))) = header ctx.
Proof.
  induction k as [|k IH]; intros i ctx out; cbn [run_samples fst snd];
    [reflexivity|]. now rewrite IH.
Qed.

(** While the in-line counter stays below the line width nothing is
    appended to the chunk. *)
Lemma run_samples_no_flush logic k :
  forall i ctx out,
  spl_cnt ctx + Z.of_nat k < samples_per_line ctx ->
  snd (run_samples k logic i (ctx, out)) = out
  /\ spl_cnt (fst (run_samples k logic i (ctx, out)))
     = spl_cnt ctx + Z.of_nat k.
Proof.
  induction k as [|k IH]; intros i ctx out Hlt; cbn [run_samples fst snd].
  - split; [reflexivity|lia].
  - assert (Hne : (spl_cnt ctx + 1 =? samples_per_line ctx) = false)
      by (apply Z.eqb_neq; lia).
    assert (Htext : step_text logic i ctx = "")
      by (unfold step_text; now rewrite Hne).
    assert (Hcnt : spl_cnt (step_context logic i ctx) = spl_cnt ctx + 1)
      by (unfold step_context; cbn; now rewrite Hne).
    rewrite Htext, append_nil_r.
    destruct (IH (i + unitsize logic) (step_context logic i ctx) out)
      as [H1 H2]; [cbn [samples_per_line step_context]; lia|].
    split; [exact H1|]. rewrite H2, Hcnt. lia.
Qed.

Lemma ready_set_header ctx h : ready ctx -> ready (set_header ctx h).
Proof. intros [[]]. split; [split|..]; assumption. Qed.

(** C8 (amended).  A sample batch always yields a chunk: the buffered
    header, when it is still pending, followed by the lines flushed
    during the packet.  The header is consumed by that packet, and without
    a pending header the chunk is the flushed lines alone.  When the
    in-line counter does not reach the line width during the packet, no
    line is flushed: the chunk is the pending header, or empty. *)
Theorem first_chunk_carries_header (fuel : nat) (o : sr_output)
    (dev : sr_dev_inst) (ctx : context) (logic : sr_datafeed_logic) :
  sdi o = Some dev -> internal o = Some ctx ->
  ready ctx -> channels_fit logic ctx -> holds_sample logic ->
  (sample_count logic <= fuel)%nat ->
  exists (ctx' : context) (body : string),
    receive fuel (Some o) (SR_DF_LOGIC logic)
    = Done (mk_result SR_OK (Some (set_internal o (Some ctx')))
              (Some (default "" (header ctx) ++ body)))
    /\ header ctx' = None
    /\ receive fuel (Some (set_internal o (Some (set_header ctx None))))
         (SR_DF_LOGIC logic)
       = Done (mk_result SR_OK (Some (set_internal o (Some ctx')))
                 (Some body))
    /\ (spl_cnt ctx + Z.of_nat (sample_count logic) < samples_per_line ctx ->
        body = "").
Proof.
  intros Hsdi Hint Hrdy Hfit Hpk Hfuel.
  set (st := run_samples (sample_count logic) logic 0
               (set_header ctx None, "")).
  exists (fst st), (snd st). split; [|split; [|split]].
  - rewrite (receive_logic_closed fuel o dev ctx logic) by assumption.
    cbv zeta. now rewrite run_samples_out.
  - unfold st. now rewrite run_samples_header.
  - rewrite (receive_logic_closed fuel _ dev (set_header ctx None) logic);
      try assumption; try reflexivity.
    now apply ready_set_header.
  - intros Hlt. unfold st.
    now destruct (run_samples_no_flush logic (sample_count logic) 0
                    (set_header ctx None) "" Hlt).
Qed.

Lemma first_chunk_carries_header_witness :
  exists (ctx' : context) (body : string),
    receive 3 (Some ex_output0) (SR_DF_LOGIC ex_logic3)
    = Done (mk_result SR_OK (Some (set_internal ex_output0 (Some ctx')))
              (Some ((ex_banner ++ newline) ++ body)))
    /\ header ctx' = None
    /\ receive 3
         (Some (set_internal ex_output0 (Some (set_header ex_context0 None))))
         (SR_DF_LOGIC ex_logic3)
       = Done (mk_result SR_OK (Some (set_internal ex_output0 (Some ctx')))
                 (Some body))
    /\ (0 + 3 < 8 -> body = "").
Proof.
  exact (first_chunk_carries_header 3 ex_output0 ex_dev ex_context0 ex_logic3
           eq_refl eq_refl ex_context0_ready ex_logic3_fit ex_logic3_holds
           (le_n 3)).
Defined.

(** C8, as stated, fails on the first packet of a session: three samples
    into a line of width 8 do not reach the line width, and the chunk is
    the header, neither absent nor empty. *)
Lemma first_packet_chunk_is_header :
  exists r : receive_result,
    receive 3 (snd (ex_init (Some "8"))) (SR_DF_LOGIC ex_logic3) = Done r
    /\ option_map spl_cnt (handle r ≫= internal) = Some 3
    /\ option_map samples_per_line (handle r ≫= internal) = Some 8
    /\ chunk r
       = Some ("libsigrok 0.3.0" ++ newline
               ++ "Acquisition with 2/4 channels at 1 MHz" ++ newline)
    /\ ~ (chunk r = None \/ chunk r = Some "").
Proof.
  set (x := receive 3 _ _). vm_compute in x. subst x.
  eexists. split; [reflexivity|].
  split; [reflexivity|]. split; [reflexivity|]. split; [reflexivity|].
  intros [H|H]; discriminate H.
Qed.

(** ** Packets whose length is not a multiple of the unit size *)

Lemma step_bufs_ext cnt l1 l2 i idxs :
  Forall (fun idx => sample_bit l1 i idx = sample_bit l2 i idx) idxs ->
  forall bufs, step_bufs cnt l1 i idxs bufs = step_bufs cnt l2 i idxs bufs.
Proof.
  induction 1 as [|idx idxs Hb _ IH]; intros [|buf bufs];
    cbn [step_bufs]; try reflexivity.
  now rewrite Hb, IH.
Qed.

Lemma full_lines_ext cnt l1 l2 i idxs :
  Forall (fun idx => sample_bit l1 i idx = sample_bit l2 i idx) idxs ->
  forall bufs lns,
  full_lines cnt l1 i idxs bufs lns = full_lines cnt l2 i idxs bufs lns.
Proof.
  induction 1 as [|idx idxs Hb _ IH]; intros [|buf bufs] [|ln lns];
    cbn [full_lines]; try reflexivity.
  now rewrite Hb, IH.
Qed.

Lemma step_ext l1 l2 i ctx :
  Forall (fun idx => sample_bit l1 i idx = sample_bit l2 i idx)
    (channel_index ctx) ->
  step_context l1 i ctx = step_context l2 i ctx
  /\ step_text l1 i ctx = step_text l2 i ctx.
Proof.
  intros H. unfold step_context, step_text.
  rewrite (step_bufs_ext _ l1 l2 i _ H).
  now rewrite (full_lines_ext _ l1 l2 i _ H).
Qed.

Lemma whole_samples_unitsize logic :
  unitsize (whole_samples logic) = unitsize logic.
Proof. reflexivity. Qed.

Lemma whole_samples_length logic :
  holds_sample logic ->
  logic_length (whole_samples logic)
  = Z.of_nat (sample_count logic) * unitsize logic.
Proof.
  intros Hpk. destruct (sample_count_bounds logic Hpk) as [Hlo _].
  destruct Hpk as [[Hu _] _].
  unfold logic_length, whole_samples in *. cbn [data].
  rewrite length_take_le; [rewrite Nat2Z.inj_mul, Z2Nat.id; lia|].
  apply Nat2Z.inj_le. rewrite Nat2Z.inj_mul, Z2Nat.id; lia.
Qed.

Lemma whole_samples_count logic :
  holds_sample logic -> sample_count (whole_samples logic) = sample_count logic.
Proof.
  intros Hpk. unfold sample_count at 1.
  rewrite (whole_samples_length logic Hpk), whole_samples_unitsize.
  destruct Hpk as [[Hu _] _]. rewrite Z.div_mul by lia. apply Nat2Z.id.
Qed.

Lemma whole_samples_holds logic :
  holds_sample logic -> holds_sample (whole_samples logic).
Proof.
  intros Hpk. pose proof (whole_samples_length logic Hpk) as Hlen.
  destruct (sample_count_bounds logic Hpk) as [Hlo Hhi].
  destruct Hpk as [[Hu Hul] Hmax]. unfold holds_sample.
  rewrite Hlen, whole_samples_unitsize.
  assert (1 <= Z.of_nat (sample_count logic)).
  { unfold sample_count. rewrite Z2Nat.id by (apply Z.div_pos; lia).
    apply Z.div_le_lower_bound; lia. }
  nia.
Qed.

Lemma sample_bit_whole logic i idx :
  holds_sample logic ->
  0 <= idx < 8 * unitsize logic -> 0 <= i ->
  i + unitsize logic <= Z.of_nat (sample_count logic) * unitsize logic ->
  sample_bit (whole_samples logic) i idx = sample_bit logic i idx.
Proof.
  intros Hpk Hidx Hi Hlen. unfold sample_bit, whole_samples. cbn [data].
  rewrite lookup_take_lt; [reflexivity|].
  rewrite Z.quot_div_nonneg by lia.
  assert (idx / 8 < unitsize logic) by (apply Z.div_lt_upper_bound; lia).
  pose proof (Z.div_pos idx 8). destruct Hpk as [[Hu _] _].
  apply Nat2Z.inj_lt. rewrite Nat2Z.inj_mul, !Z2Nat.id; lia.
Qed.

Lemma run_samples_whole logic :
  holds_sample logic ->
  forall k i ctx out,
  channels_fit logic ctx -> 0 <= i ->
  i + Z.of_nat k * unitsize logic
  <= Z.of_nat (sample_count logic) * unitsize logic ->
  run_samples k (whole_samples logic) i (ctx, out)
  = run_samples k logic i (ctx, out).
Proof.
  intros Hpk. induction k as [|k IH]; intros i ctx out Hfit Hi Hlen;
    cbn [run_samples fst snd]; [reflexivity|].
  destruct Hpk as [[Hu Hul] Hmax] eqn:E. clear E.
  destruct (step_ext (whole_samples logic) logic i ctx) as [-> ->].
  - eapply Forall_impl; [exact Hfit|]. cbn. intros idx Hidx.
    apply sample_bit_whole; [split; [split|]; assumption|assumption
                            |assumption|nia].
  - rewrite whole_samples_unitsize. apply IH; [exact Hfit|lia|lia].
Qed.

Lemma step_context_cnt logic i ctx :
  0 <= spl_cnt ctx < samples_per_line ctx ->
  spl_cnt (step_context logic i ctx)
  = (spl_cnt ctx + 1) mod samples_per_line ctx.
Proof.
  intros H. unfold step_context. cbn [spl_cnt].
  destruct (Z.eqb_spec (spl_cnt ctx + 1) (samples_per_line ctx)) as [->|Hne].
  - now rewrite Z.mod_same by lia.
  - now rewrite Z.mod_small by lia.
Qed.

Lemma run_samples_cnt logic k :
  forall i ctx out, ready ctx ->
  spl_cnt (fst (run_samples k logic i (ctx, out)))
  = (spl_cnt ctx + Z.of_nat k) mod samples_per_line ctx.
Proof.
  induction k as [|k IH]; intros i ctx out Hrdy; cbn [run_samples fst snd].
  - rewrite Z.add_0_r, Z.mod_small; [reflexivity|apply Hrdy].
  - rewrite IH by now apply step_context_ready.
    rewrite step_context_cnt by apply Hrdy.
    change (samples_per_line (step_context logic i ctx))
      with (samples_per_line ctx).
    destruct Hrdy as [_ Hc _ _].
    rewrite Zplus_mod_idemp_l. f_equal. lia.
Qed.

(** C1 (amended).  A sample batch that holds at least one whole sample
    is never refused, whether or not its length is a multiple of the unit
    size: [receive] returns [SR_OK] with a chunk, after passing over the
    whole samples only.  The bytes after the last whole sample are not
    looked at (the result is that of the packet cut down to its whole
    samples), and no byte outside the buffer is read (the outcome is
    [Done], not [Undefined]).  No call of [receive] returns
    [SR_ERR_DATA]. *)
Theorem ragged_batch_whole_samples (fuel : nat) (o : sr_output)
    (dev : sr_dev_inst) (ctx : context) (logic : sr_datafeed_logic) :
  sdi o = Some dev -> internal o = Some ctx ->
  ready ctx -> channels_fit logic ctx -> holds_sample logic ->
  (sample_count logic <= fuel)%nat ->
  exists (ctx' : context) (text : string),
    receive fuel (Some o) (SR_DF_LOGIC logic)
    = Done (mk_result SR_OK (Some (set_internal o (Some ctx'))) (Some text))
    /\ receive fuel (Some o) (SR_DF_LOGIC (whole_samples logic))
       = Done (mk_result SR_OK (Some (set_internal o (Some ctx')))
                 (Some text))
    /\ spl_cnt ctx'
       = (spl_cnt ctx + Z.of_nat (sample_count logic))
         mod samples_per_line ctx
    /\ forall (f : nat) (h : option sr_output) (pk : sr_datafeed_packet)
              (r : receive_result),
         receive f h pk = Done r -> status r <> SR_ERR_DATA.
Proof.
  intros Hsdi Hint Hrdy Hfit Hpk Hfuel.
  assert (Hnever : forall f h pk r,
            receive f h pk = Done r -> status r <> SR_ERR_DATA).
  { intros f h pk r. unfold receive.
    destruct h as [h|]; [|intros [= <-]; discriminate].
    destruct (sdi h); [|intros [= <-]; discriminate].
    destruct (internal h) as [c|]; [|intros [= <-]; discriminate].
    destruct pk as [|lg| |]; try (intros [= <-]; discriminate).
    - destruct (header c);
        (destruct (sample_loop f lg 0 _); cbn [obind];
         [intros [= <-]; discriminate|discriminate|discriminate]).
    - destruct (spl_cnt c =? 0); [intros [= <-]; discriminate|].
      destruct (end_loop _ _ _); cbn [obind];
        [intros [= <-]; discriminate|discriminate|discriminate]. }
  rewrite (receive_logic_closed fuel o dev ctx logic) by assumption.
  rewrite (receive_logic_closed fuel o dev ctx (whole_samples logic));
    try assumption;
    [|now apply whole_samples_holds|now rewrite whole_samples_count].
  cbv zeta. rewrite whole_samples_count by assumption.
  rewrite run_samples_whole; [|assumption|exact Hfit|lia|lia].
  do 2 eexists. split; [reflexivity|]. split; [reflexivity|].
  split; [|exact Hnever].
  rewrite run_samples_cnt by now apply ready_set_header.
  reflexivity.
Qed.

Lemma ex_ragged_fit : channels_fit ex_ragged ex_context0.
Proof. repeat constructor; cbn; lia. Qed.

Lemma ex_ragged_holds : holds_sample ex_ragged.
Proof. unfold holds_sample, logic_length, UINT64_MOD. cbn. lia. Qed.

Lemma ragged_batch_whole_samples_witness :
  exists (ctx' : context) (text : string),
    receive 1 (Some ex_output0) (SR_DF_LOGIC ex_ragged)
    = Done (mk_result SR_OK (Some (set_internal ex_output0 (Some ctx')))
              (Some text))
    /\ receive 1 (Some ex_output0) (SR_DF_LOGIC (mk_logic 2 [1; 0]))
       = Done (mk_result SR_OK (Some (set_internal ex_output0 (Some ctx')))
                 (Some text))
    /\ spl_cnt ctx' = 1.
Proof.
  destruct (ragged_batch_whole_samples 1 ex_output0 ex_dev ex_context0
              ex_ragged eq_refl eq_refl ex_context0_ready ex_ragged_fit
              ex_ragged_holds (le_n 1))
    as (ctx' & text & H1 & H2 & H3 & _).
  exists ctx', text. split; [exact H1|]. split; [exact H2|exact H3].
Defined.

(** C1, as stated, fails: a packet of three bytes with a unit size of 2
    is not refused with a data error; [receive] returns [SR_OK] and a
    chunk. *)
Lemma ragged_batch_accepted :
  logic_length ex_ragged mod unitsize ex_ragged <> 0
  /\ exists r : receive_result,
       receive 1 (snd (ex_init (Some "8"))) (SR_DF_LOGIC ex_ragged) = Done r
       /\ status r = SR_OK
       /\ ~ (status r = SR_ERR_DATA /\ chunk r = None).
Proof.
  split; [discriminate|].
  set (x := receive 1 _ _). vm_compute in x. subst x.
  eexists. split; [reflexivity|]. split; [reflexivity|].
  intros [H _]. discriminate H.
Qed.

(** ** The accumulators across a line flush *)

Lemma step_bufs_zip cnt logic i idxs bufs :
  step_bufs cnt logic i idxs bufs
  = zip_with
      (fun idx buf =>
         if renders cnt then 0 else shift_in buf (sample_bit logic i idx))
      idxs bufs.
Proof.
  revert bufs. induction idxs as [|idx idxs IH]; intros [|buf bufs];
    cbn [step_bufs zip_with]; try reflexivity. now rewrite IH.
Qed.

Lemma renders_mod (cnt : Z) :
  0 < cnt -> renders cnt = (cnt mod 8 =? 0).
Proof.
  intros H. unfold renders. rewrite land_7_mod.
  now rewrite (proj2 (Z.eqb_neq cnt 0)) by lia.
Qed.

(** C9 (amended).  A bit accumulator is reset exactly in the passes in
    which the in-line counter reaches a multiple of 8; in every other
    pass it takes in the sample's bit.  So the pass that completes a line
    whose width is not a multiple of 8 flushes the lines, seeds them
    again and resets the counter, but leaves the accumulators uncleared:
    the following line starts with the bits collected so far. *)
Theorem flush_keeps_accumulators (logic : sr_datafeed_logic) (i : Z)
    (ctx : context) (out : string) :
  ready ctx -> Forall (readable logic i) (channel_index ctx) ->
  exists (ctx' : context) (out' : string),
    sample_step logic i (ctx, out) = Done (ctx', out')
    /\ sample_buf ctx'
       = zip_with
           (fun idx buf =>
              if (spl_cnt ctx + 1) mod 8 =? 0 then 0
              else shift_in buf (sample_bit logic i idx))
           (channel_index ctx) (sample_buf ctx)
    /\ (spl_cnt ctx + 1 = samples_per_line ctx ->
        samples_per_line ctx mod 8 <> 0 ->
        spl_cnt ctx' = 0
        /\ lines ctx' = seed_lines (channel_names ctx)
        /\ sample_buf ctx'
           = zip_with (fun idx buf => shift_in buf (sample_bit logic i idx))
               (channel_index ctx) (sample_buf ctx)).
Proof.
  intros Hrdy Hrd. rewrite sample_step_closed by assumption.
  do 2 eexists. split; [reflexivity|].
  assert (Hpos : 0 < spl_cnt ctx + 1) by (destruct Hrdy; lia).
  unfold step_context. cbn [sample_buf spl_cnt lines].
  rewrite step_bufs_zip, (renders_mod _ Hpos). split; [reflexivity|].
  intros Hfl Hmod. rewrite Hfl, Z.eqb_refl.
  now rewrite (proj2 (Z.eqb_neq _ 0) Hmod).
Qed.

Lemma ex_context11_ready : ready ex_context11.
Proof.
  split; [split; reflexivity|cbn; lia|cbn; unfold INT_MAX; lia|cbn; lia].
Qed.

Lemma flush_keeps_accumulators_witness :
  exists (ctx' : context) (out' : string),
    sample_step ex_logic1 0 (ex_context11, "") = Done (ctx', out')
    /\ sample_buf ctx' = [14; 1]
    /\ spl_cnt ctx' = 0 /\ lines ctx' = ["A:"; "B:"].
Proof.
  assert (Hrd : Forall (readable ex_logic1 0) (channel_index ex_context11)).
  { apply fits_readable; [exact ex_logic1_fit|reflexivity|discriminate]. }
  destruct (flush_keeps_accumulators ex_logic1 0 ex_context11 ""
              ex_context11_ready Hrd)
    as (ctx' & out' & Hstep & Hbuf & Hflush).
  exists ctx', out'. split; [exact Hstep|]. split; [exact Hbuf|].
  destruct (Hflush eq_refl) as (Hc & Hl & _); [discriminate|].
  split; [exact Hc|exact Hl].
Defined.

(** C9, as stated, fails.  With a line width of 12, twelve samples with
    channel A high leave the four trailing bits 1111 in A's accumulator
    when the next line begins; eight samples with A low follow, and the
    first hex byte rendered in that line is 00: none of the four bits is
    in it. *)
Lemma trailing_bits_not_rendered :
  exists (o1 o2 : sr_output) (first second : option string),
    receive 12 (snd (ex_init (Some "12"))) (SR_DF_LOGIC ex_ones12)
    = Done (mk_result SR_OK (Some o1) first)
    /\ option_map sample_buf (internal o1) = Some [15; 0]
    /\ option_map spl_cnt (internal o1) = Some 0
    /\ receive 8 (Some o1) (SR_DF_LOGIC ex_zeros8)
       = Done (mk_result SR_OK (Some o2) second)
    /\ option_map lines (internal o2)
       = Some ["A:" ++ fmt_02x 0 ++ " "; "B:" ++ fmt_02x 0 ++ " "]
    /\ ~ carried_into [true; true; true; true] 0.
Proof.
  set (x := receive 12 _ _). vm_compute in x. subst x.
  do 4 eexists. split; [reflexivity|].
  split; [reflexivity|]. split; [reflexivity|].
  set (y := receive 8 _ _). vm_compute in y. subst y.
  split; [reflexivity|]. split; [reflexivity|].
  discriminate.
Qed.

(** ** What a successful [init] builds *)

Lemma count_channels_closed (l : list sr_channel) :
  forall n spl bc cnt trg idxs nms bufs lns hd,
  0 <= n -> n + Z.of_nat (length (List.filter selected l)) < UINT_MOD ->
  count_channels l (mk_context n spl bc cnt trg idxs nms bufs lns hd)
  = mk_context (n + Z.of_nat (length (List.filter selected l))) spl bc cnt
      trg idxs nms bufs lns hd.
Proof.
  induction l as [|ch l IH]; intros n spl bc cnt trg idxs nms bufs lns hd
    Hn Hmax; cbn [count_channels List.filter length].
  - now rewrite Z.add_0_r.
  - cbn [List.filter] in Hmax.
    destruct (selected ch) eqn:Hs; unfold selected in Hs;
      destruct (ch_type ch), (ch_enabled ch); try discriminate Hs;
      cbn [length] in *; unfold set_num_enabled_channels;
      cbn [num_enabled_channels samples_per_line bit_cnt spl_cnt trigger
           channel_index channel_names sample_buf lines header];
      try (apply IH; lia).
    rewrite Z.mod_small by lia. rewrite IH by lia. f_equal. lia.
Qed.

Lemma fill_channels_middle (l : list sr_channel) :
  forall n spl bc cnt trg hd pi pn pb pl ri rn rb rl,
  length pn = length pi -> length pb = length pi -> length pl = length pi ->
  length ri = length (List.filter selected l) ->
  length rn = length ri -> length rb = length ri -> length rl = length ri ->
  fill_channels l (length pi)
    (mk_context n spl bc cnt trg (pi ++ ri)%list (pn ++ rn)%list
       (pb ++ rb)%list (pl ++ rl)%list hd)
  = let sel := List.filter selected l in
    mk_context n spl bc cnt trg (pi ++ map ch_index sel)%list
      (pn ++ map ch_name sel)%list
      (pb ++ replicate (length sel) 0)%list
      (pl ++ seed_lines (map ch_name sel))%list hd.
Proof.
  induction l as [|ch l IH];
    intros n spl bc cnt trg hd pi pn pb pl ri rn rb rl Hpn Hpb Hpl Hri Hrn
      Hrb Hrl; cbn [fill_channels List.filter].
  - cbn [length] in Hri. destruct ri, rn, rb, rl; try discriminate.
    reflexivity.
  - cbn [List.filter] in Hri.
    destruct (selected ch) eqn:Hs; unfold selected in Hs;
      destruct (ch_type ch), (ch_enabled ch); try discriminate Hs;
      try (now apply IH).
    cbn [length] in Hri.
    destruct ri as [|xi ri], rn as [|xn rn], rb as [|xb rb], rl as [|xl rl];
      try discriminate.
    unfold set_channel_index, set_channel_names. ctx_simpl.
    rewrite !insert_middle by congruence.
    rewrite (snoc_app pi), (snoc_app pn), (snoc_app pb), (snoc_app pl).
    rewrite <- (length_snoc pi (ch_index ch)).
    rewrite IH; rewrite ?length_snoc; cbn [length] in *; try congruence.
    cbv zeta. cbn [map replicate length seed_lines].
    now rewrite <- !snoc_app.
Qed.

(** A successful [init] leaves the context of the selected channels, at
    the start of a line, with the header pending. *)
Lemma init_context (banner : string) (rate : Z -> string) (o : sr_output)
    (dev : sr_dev_inst) :
  sdi o = Some dev ->
  1 <= line_width (param o) ->
  Z.of_nat (length (selection dev)) < UINT_MOD ->
  exists hd,
    init banner rate (Some o)
    = (SR_OK,
       Some (set_internal o
               (Some (mk_context (Z.of_nat (length (selection dev)))
                        (line_width (param o)) 0 0 (-1)
                        (map ch_index (selection dev))
                        (map ch_name (selection dev))
                        (replicate (length (selection dev)) 0)
                        (seed_lines (map ch_name (selection dev)))
                        (Some hd))))).
Proof.
  intros Hsdi Hw Hmax. unfold init. rewrite Hsdi. fold (line_width (param o)).
  rewrite (proj2 (Z.ltb_ge _ _)) by lia.
  unfold fresh_context, set_samples_per_line.
  cbn [num_enabled_channels samples_per_line bit_cnt spl_cnt trigger
       channel_index channel_names sample_buf lines header].
  rewrite count_channels_closed by (fold (selection dev); lia).
  fold (selection dev). unfold alloc_arrays.
  unfold set_channel_index, set_channel_names. ctx_simpl.
  rewrite Z.add_0_l, Nat2Z.id.
  pose proof (fill_channels_middle (channels dev)
                (Z.of_nat (length (selection dev))) (line_width (param o))
                0 0 (-1) None [] [] [] []
                (replicate (length (selection dev)) 0)
                (replicate (length (selection dev)) "")
                (replicate (length (selection dev)) 0)
                (replicate (length (selection dev)) "")) as H.
  cbn [app length] in H. rewrite H; rewrite ?length_replicate; try reflexivity.
  cbv zeta. fold (selection dev). ctx_simpl. eexists. reflexivity.
Qed.

Lemma init_ready (banner : string) (rate : Z -> string) (o : sr_output)
    (dev : sr_dev_inst) (ctx : context) :
  sdi o = Some dev ->
  Z.of_nat (length (selection dev)) < UINT_MOD ->
  init banner rate (Some o) = (SR_OK, Some (set_internal o (Some ctx))) ->
  ready ctx /\ spl_cnt ctx = 0
  /\ sample_buf ctx = replicate (length (channel_index ctx)) 0
  /\ lines ctx = seed_lines (channel_names ctx).
Proof.
  intros Hsdi Hmax Hinit.
  assert (Hw : 1 <= line_width (param o)).
  { destruct (Z.le_gt_cases 1 (line_width (param o))) as [H|H]; [exact H|].
    exfalso. revert Hinit. unfold init. rewrite Hsdi.
    fold (line_width (param o)).
    now rewrite (proj2 (Z.ltb_lt _ _)) by lia. }
  destruct (init_context banner rate o dev Hsdi Hw Hmax) as [hd He].
  rewrite He in Hinit. injection Hinit as <-.
  assert (Hint : line_width (param o) <= INT_MAX).
  { unfold line_width, to_int, DEFAULT_SAMPLES_PER_LINE, INT_MAX, UINT_MOD.
    destruct (param o) as [[|c r]|]; try lia.
    destruct (Z.leb_spec (strtoul (String c r) mod 2 ^ 32) 2147483647);
      [lia|].
    pose proof (Z.mod_pos_bound (strtoul (String c r)) (2 ^ 32)). lia. }
  cbn [spl_cnt sample_buf lines channel_index channel_names].
  rewrite length_map. repeat split; cbn; try lia;
    rewrite ?length_map, ?length_replicate, ?length_seed_lines, ?length_map;
    try reflexivity; try lia.
Qed.

(** ** Line widths that are not a multiple of 8 *)

(** C2.  What the code does with a line width of 4.  Four samples with
    channel A high complete a line; the in-line counter never reaches 8,
    so no hex byte is rendered: the chunk is the header and the bare
    seeds of the two lines, and the end of the stream that follows finds
    no sample buffered and emits nothing.  The four bits of channel A are
    in no emitted hex byte. *)
Theorem narrow_line_drops_bits :
  exists o1 : sr_output,
    receive 4 (snd (ex_init (Some "4"))) (SR_DF_LOGIC ex_ones4)
    = Done (mk_result SR_OK (Some o1)
              (Some ("libsigrok 0.3.0" ++ newline
                     ++ "Acquisition with 2/4 channels at 1 MHz" ++ newline
                     ++ "A:" ++ newline ++ "B:" ++ newline)))
    /\ map (sample_bit ex_ones4 0) [0; 1] = [true; false]
    /\ receive 0 (Some o1) SR_DF_END = Done (mk_result SR_OK (Some o1) None).
Proof.
  set (x := receive 4 _ _). vm_compute in x. subst x.
  eexists. split; [reflexivity|]. split; reflexivity.
Qed.

(** ** The byte rendered after eight samples *)

Lemma shift_in_arith (a : Z) (b : bool) :
  shift_in a b = (2 * a + (if b then 1 else 0)) mod 256.
Proof.
  unfold shift_in. rewrite Z.shiftl_mul_pow2 by lia.
  replace (a * 2 ^ 1) with (2 * a) by lia.
  assert (Hx : (2 * a) mod 256 = 2 * (a mod 128)).
  { change 256 with (2 * 128). now rewrite Z.mul_mod_distr_l by lia. }
  pose proof (Z.mod_pos_bound a 128 ltac:(lia)) as Hb.
  destruct b.
  - rewrite <- Z.add_nocarry_lor.
    + rewrite <- (Zplus_mod_idemp_l (2 * a)), Hx.
      rewrite (Z.mod_small (_ + 1)) by lia. reflexivity.
    + rewrite Hx. change 1 with (Z.ones 1). rewrite Z.land_ones by lia.
      change (2 ^ 1) with 2. now rewrite Z.mul_comm, Z.mod_mul by lia.
  - now rewrite Z.add_0_r.
Qed.

Lemma double_mod_congr (bs : list bool) :
  forall x y, x mod 256 = y mod 256 ->
  fold_left (fun acc (b : bool) => 2 * acc + (if b then 1 else 0)) bs x
    mod 256
  = fold_left (fun acc (b : bool) => 2 * acc + (if b then 1 else 0)) bs y
      mod 256.
Proof.
  induction bs as [|b bs IH]; intros x y H; cbn [fold_left]; [exact H|].
  apply IH.
  rewrite <- (Zplus_mod_idemp_l (2 * x)), <- (Zplus_mod_idemp_l (2 * y)).
  rewrite <- (Z.mul_mod_idemp_r 2 x), <- (Z.mul_mod_idemp_r 2 y) by lia.
  now rewrite H.
Qed.

Lemma fold_shift_in_mod (bs : list bool) :
  forall a,
  fold_left shift_in bs a mod 256
  = fold_left (fun acc (b : bool) => 2 * acc + (if b then 1 else 0)) bs a
      mod 256.
Proof.
  induction bs as [|b bs IH]; intros a; cbn [fold_left]; [reflexivity|].
  rewrite IH. apply double_mod_congr.
  rewrite shift_in_arith. apply Z.mod_mod. lia.
Qed.

Lemma shift_in_eight (a : Z) (b0 b1 b2 b3 b4 b5 b6 b7 : bool) :
  shift_in (shift_in (shift_in (shift_in (shift_in (shift_in (shift_in
    (shift_in a b0) b1) b2) b3) b4) b5) b6) b7
  = bits_value [b0; b1; b2; b3; b4; b5; b6; b7].
Proof.
  set (v := bits_value [b0; b1; b2; b3; b4; b5; b6; b7]).
  assert (Hv : 0 <= v < 256)
    by (unfold v; destruct b0, b1, b2, b3, b4, b5, b6, b7; cbn; lia).
  match goal with
  | |- shift_in ?x b7 = _ =>
      rewrite <- (Z.mod_small (shift_in x b7) 256)
        by (rewrite shift_in_arith; apply Z.mod_pos_bound; lia)
  end.
  change (fold_left shift_in [b0; b1; b2; b3; b4; b5; b6; b7] a mod 256 = v).
  rewrite fold_shift_in_mod. cbn [fold_left].
  match goal with
  | |- ?x mod 256 = _ => replace x with (v + a * 256)
  end.
  - rewrite Z.mod_add by lia. now apply Z.mod_small.
  - unfold v, bits_value. cbn [fold_left]. lia.
Qed.

Lemma step_context_no_flush logic i n spl bc cnt trg idxs nms bufs lns hd :
  cnt + 1 <> spl ->
  step_context logic i (mk_context n spl bc cnt trg idxs nms bufs lns hd)
  = mk_context n spl bc (cnt + 1) trg idxs nms
      (step_bufs (cnt + 1) logic i idxs bufs)
      (full_lines (cnt + 1) logic i idxs bufs lns) hd
  /\ step_text logic i (mk_context n spl bc cnt trg idxs nms bufs lns hd)
     = "".
Proof.
  intros H. unfold step_context, step_text, step_caret. ctx_simpl.
  now rewrite (proj2 (Z.eqb_neq _ _) H).
Qed.

Lemma renders_offset (c k : Z) :
  0 <= c -> c mod 8 = 0 -> 0 < k <= 8 ->
  renders (c + k) = (k =? 8).
Proof.
  intros Hc Hm Hk. rewrite renders_mod by lia.
  rewrite <- Zplus_mod_idemp_l, Hm, Z.add_0_l.
  destruct (Z.eqb_spec k 8) as [->|Hne]; [reflexivity|].
  rewrite Z.mod_small by lia. apply Z.eqb_neq. lia.
Qed.

(** Eight passes of the channel loop, the last of which renders: the
    accumulators end at 0 and every line has gained the byte of the eight
    sample bits, whatever the accumulators held before. *)
Lemma eight_passes_lists logic i0 i1 i2 i3 i4 i5 i6 i7 c1 c2 c3 c4 c5 c6 c7
    c8 :
  renders c1 = false -> renders c2 = false -> renders c3 = false ->
  renders c4 = false -> renders c5 = false -> renders c6 = false ->
  renders c7 = false -> renders c8 = true ->
  forall idxs bufs lns,
  length bufs = length idxs -> length lns = length idxs ->
  let b1 := step_bufs c1 logic i0 idxs bufs in
  let b2 := step_bufs c2 logic i1 idxs b1 in
  let b3 := step_bufs c3 logic i2 idxs b2 in
  let b4 := step_bufs c4 logic i3 idxs b3 in
  let b5 := step_bufs c5 logic i4 idxs b4 in
  let b6 := step_bufs c6 logic i5 idxs b5 in
  let b7 := step_bufs c7 logic i6 idxs b6 in
  let l1 := full_lines c1 logic i0 idxs bufs lns in
  let l2 := full_lines c2 logic i1 idxs b1 l1 in
  let l3 := full_lines c3 logic i2 idxs b2 l2 in
  let l4 := full_lines c4 logic i3 idxs b3 l3 in
  let l5 := full_lines c5 logic i4 idxs b4 l4 in
  let l6 := full_lines c6 logic i5 idxs b5 l5 in
  let l7 := full_lines c7 logic i6 idxs b6 l6 in
  step_bufs c8 logic i7 idxs b7 = replicate (length idxs) 0
  /\ full_lines c8 logic i7 idxs b7 l7
     = zip_with
         (fun idx ln =>
            ln ++ fmt_02x
                    (bits_value
                       [sample_bit logic i0 idx; sample_bit logic i1 idx;
                        sample_bit logic i2 idx; sample_bit logic i3 idx;
                        sample_bit logic i4 idx; sample_bit logic i5 idx;
                        sample_bit logic i6 idx; sample_bit logic i7 idx])
               ++ " ")
         idxs lns.
Proof.
  intros H1 H2 H3 H4 H5 H6 H7 H8. cbv zeta.
  induction idxs as [|idx idxs IH]; intros [|buf bufs] [|ln lns] Hb Hl;
    try discriminate; [split; reflexivity|].
  injection Hb as Hb. injection Hl as Hl.
  cbn [step_bufs full_lines zip_with length replicate].
  rewrite H1, H2, H3, H4, H5, H6, H7, H8.
  destruct (IH bufs lns Hb Hl) as [IHb IHl].
  rewrite IHb, IHl, shift_in_eight. split; reflexivity.
Qed.

Ltac renders_at c k :=
  match goal with
  | |- renders ?x = _ =>
      replace x with (c + k) by lia;
      rewrite renders_offset by (assumption || lia); reflexivity
  end.

(** Eight samples into a stretch of a line that starts at a multiple of
    8: every line gains exactly the byte of those eight sample bits, and
    the accumulators end at 0, whatever they held before. *)
Lemma byte_of_eight_samples logic i ctx out :
  ready ctx -> spl_cnt ctx mod 8 = 0 ->
  spl_cnt ctx + 8 < samples_per_line ctx ->
  run_samples 8 logic i (ctx, out)
  = (mk_context (num_enabled_channels ctx) (samples_per_line ctx)
       (bit_cnt ctx) (spl_cnt ctx + 8) (trigger ctx) (channel_index ctx)
       (channel_names ctx) (replicate (length (channel_index ctx)) 0)
       (zip_with
          (fun idx ln =>
             ln ++ fmt_02x (bits_value (eight_bits logic i idx)) ++ " ")
          (channel_index ctx) (lines ctx))
       (header ctx), out).
Proof.
  intros [[_ _ _ Hb Hl] [Hc _] _ _] Hmod Hlt.
  destruct ctx as [n spl bc c trg idxs nms bufs lns hd].
  cbn [num_enabled_channels samples_per_line bit_cnt spl_cnt trigger
       channel_index channel_names sample_buf lines header] in *.
  cbn [run_samples fst snd].
  repeat match goal with
  | |- context [step_context ?l ?j
                  (mk_context ?n' ?s' ?b' ?c' ?t' ?ix ?nm ?bf ?ln ?h)] =>
      destruct (step_context_no_flush l j n' s' b' c' t' ix nm bf ln h
                  ltac:(lia)) as [-> ->]
  end.
  rewrite !append_nil_r.
  destruct (eight_passes_lists logic i (i + unitsize logic)
              (i + unitsize logic + unitsize logic)
              (i + unitsize logic + unitsize logic + unitsize logic)
              (i + unitsize logic + unitsize logic + unitsize logic
               + unitsize logic)
              (i + unitsize logic + unitsize logic + unitsize logic
               + unitsize logic + unitsize logic)
              (i + unitsize logic + unitsize logic + unitsize logic
               + unitsize logic + unitsize logic + unitsize logic)
              (i + unitsize logic + unitsize logic + unitsize logic
               + unitsize logic + unitsize logic + unitsize logic
               + unitsize logic)
              (c + 1) (c + 1 + 1) (c + 1 + 1 + 1) (c + 1 + 1 + 1 + 1)
              (c + 1 + 1 + 1 + 1 + 1) (c + 1 + 1 + 1 + 1 + 1 + 1)
              (c + 1 + 1 + 1 + 1 + 1 + 1 + 1)
              (c + 1 + 1 + 1 + 1 + 1 + 1 + 1 + 1)
              ltac:(renders_at c 1) ltac:(renders_at c 2)
              ltac:(renders_at c 3) ltac:(renders_at c 4)
              ltac:(renders_at c 5) ltac:(renders_at c 6)
              ltac:(renders_at c 7) ltac:(renders_at c 8)
              idxs bufs lns Hb Hl) as [-> ->].
  replace (c + 1 + 1 + 1 + 1 + 1 + 1 + 1 + 1) with (c + 8) by lia.
  do 2 f_equal. apply zip_with_ext; [|reflexivity|reflexivity].
  intros idx ln. unfold eight_bits. cbn [map].
  set (u := unitsize logic).
  replace (i + 0 * u) with i by lia.
  replace (i + 1 * u) with (i + u) by lia.
  replace (i + 2 * u) with (i + u + u) by lia.
  replace (i + 3 * u) with (i + u + u + u) by lia.
  replace (i + 4 * u) with (i + u + u + u + u) by lia.
  replace (i + 5 * u) with (i + u + u + u + u + u) by lia.
  replace (i + 6 * u) with (i + u + u + u + u + u + u) by lia.
  replace (i + 7 * u) with (i + u + u + u + u + u + u + u) by lia.
  reflexivity.
Qed.

(** ** Packets shorter than one sample *)

(** With fewer bytes than one unit size, the empty packet included, the
    bound [logic->length - logic->unitsize] wraps around in [uint64_t]
    and the loop runs on past the end of the buffer: a packet of one
    byte with a unit size of 2 is read outside in the second pass, the
    empty packet in the first. *)
Lemma short_batch_reads_outside :
  receive 2 (Some ex_output0) (SR_DF_LOGIC (mk_logic 2 [1])) = Undefined
  /\ receive 1 (Some ex_output0) (SR_DF_LOGIC (mk_logic 1 [])) = Undefined.
Proof. split; vm_compute; reflexivity. Qed.

(** * Further properties of the module *)

(** ** The guards of [receive] *)

(** X1.  [receive] returns [SR_ERR_ARG] exactly when the output handle is
    NULL, has no device or has no context; it then produces no chunk and
    leaves the handle as it was.  Every other call that returns returns
    [SR_OK]. *)
Theorem receive_argument_error (fuel : nat) (o : option sr_output)
    (pk : sr_datafeed_packet) (r : receive_result) :
  receive fuel o pk = Done r ->
  (status r = SR_ERR_ARG <->
   (o = None
    \/ exists h, o = Some h /\ (sdi h = None \/ internal h = None)))
  /\ (status r = SR_ERR_ARG -> chunk r = None /\ handle r = o)
  /\ (status r <> SR_ERR_ARG -> status r = SR_OK).
Proof.
  unfold receive. destruct o as [h|].
  - destruct (sdi h) as [dev|] eqn:Hsdi.
    + destruct (internal h) as [ctx|] eqn:Hint.
      * assert (Hok : status r = SR_OK -> 
                (status r = SR_ERR_ARG <->
                 (Some h = None
                  \/ exists h0, Some h = Some h0
                       /\ (sdi h0 = None \/ internal h0 = None)))
                /\ (status r = SR_ERR_ARG ->
                    chunk r = None /\ handle r = Some h)
                /\ (status r <> SR_ERR_ARG -> status r = SR_OK)).
        { intros Hs. rewrite Hs. split; [split|split].
          - discriminate.
          - intros [H|(h0 & [= <-] & [H|H])]; congruence.
          - discriminate.
          - reflexivity. }
        destruct pk as [|lg| |].
        -- intros [= <-]. now apply Hok.
        -- destruct (header ctx);
             (destruct (sample_loop fuel lg 0 _); cbn [obind];
              [intros [= <-]; now apply Hok|discriminate|discriminate]).
        -- destruct (spl_cnt ctx =? 0); [intros [= <-]; now apply Hok|].
           destruct (end_loop _ _ _); cbn [obind];
             [intros [= <-]; now apply Hok|discriminate|discriminate].
        -- intros [= <-]. now apply Hok.
      * intros [= <-]. cbn. split; [split|split]; try tauto; try congruence.
        intros _. right. exists h. tauto.
    + intros [= <-]. cbn. split; [split|split]; try tauto; try congruence.
      intros _. right. exists h. tauto.
  - intros [= <-]. cbn. split; [split|split]; try tauto; congruence.
Qed.

Lemma receive_argument_error_witness :
  receive 0 (Some (ex_handle None)) SR_DF_END
  = Done (mk_result SR_ERR_ARG (Some (ex_handle None)) None)
  /\ (status (mk_result SR_ERR_ARG (Some (ex_handle None)) None) = SR_ERR_ARG
      <-> (Some (ex_handle None) = None
           \/ exists h, Some (ex_handle None) = Some h
                        /\ (sdi h = None \/ internal h = None))).
Proof.
  split; [reflexivity|].
  exact (proj1 (receive_argument_error 0 (Some (ex_handle None)) SR_DF_END
                  _ eq_refl)).
Defined.

(** ** The end of the stream on a byte boundary *)

Lemma set_lines_same ctx : set_lines ctx (lines ctx) = ctx.
Proof. now destruct ctx. Qed.

Lemma set_internal_same o ctx :
  internal o = Some ctx -> set_internal o (Some ctx) = o.
Proof. destruct o. cbn. now intros ->. Qed.

(** X2.  At the end of the stream, when the number of buffered samples is a
    multiple of 8, nothing is padded: with no sample buffered there is no
    chunk, otherwise the chunk is the lines as they stand, each with a
    line terminator.  The handle is left as it was. *)
Theorem end_flush_whole_bytes (fuel : nat) (o : sr_output)
    (dev : sr_dev_inst) (ctx : context) :
  sdi o = Some dev -> internal o = Some ctx -> wf_context ctx ->
  spl_cnt ctx mod 8 = 0 ->
  receive fuel (Some o) SR_DF_END
  = Done (mk_result SR_OK (Some o)
            (if spl_cnt ctx =? 0 then None
             else Some (flush_text (lines ctx)))).
Proof.
  intros Hsdi Hint Hwf Hmod.
  rewrite (receive_end_closed fuel o dev ctx Hsdi Hint Hwf).
  destruct (spl_cnt ctx =? 0); [reflexivity|]. cbv zeta.
  rewrite end_lines_whole by (try assumption; destruct Hwf; congruence).
  now rewrite set_lines_same, set_internal_same.
Qed.

Lemma end_flush_whole_bytes_witness :
  receive 0 (Some ex_output8) SR_DF_END
  = Done (mk_result SR_OK (Some ex_output8)
            (Some ("A:e1 " ++ newline ++ "B:27 " ++ newline))).
Proof.
  refine (end_flush_whole_bytes 0 ex_output8 ex_dev ex_context8 eq_refl
            eq_refl _ eq_refl).
  split; reflexivity.
Defined.

(** ** Packets that do not hold one whole sample, and a unit size of 0 *)

Lemma read_byte_unreadable (logic : sr_datafeed_logic) (i idx : Z) :
  0 <= idx -> ~ readable logic i idx ->
  read_byte logic (i + Z.quot idx 8) = Undefined.
Proof.
  intros H0 Hnr. unfold read_byte, array_get.
  destruct (Z.ltb_spec (i + Z.quot idx 8) 0) as [?|Hge]; [reflexivity|].
  destruct (data logic !! Z.to_nat (i + Z.quot idx 8)) eqn:E; [|reflexivity].
  exfalso. apply Hnr. apply lookup_lt_Some in E.
  unfold readable, logic_length. lia.
Qed.

Lemma channel_step_unreadable logic i pos n spl bc cnt trg pi ri pn rn pb rb
    pl rl hd idx nm buf ln out :
  length pb = length pi ->
  0 <= idx -> ~ readable logic i idx ->
  channel_step logic i pos (length pi)
    (mk_context n spl bc cnt trg (pi ++ idx :: ri)%list (pn ++ nm :: rn)%list
       (pb ++ buf :: rb)%list (pl ++ ln :: rl)%list hd, out)
  = Undefined.
Proof.
  intros Hb H0 Hnr. unfold channel_step. cbn [channel_index sample_buf].
  rewrite array_get_middle. cbn [obind].
  rewrite (array_get_middle' pb rb buf) by congruence. cbn [obind].
  now rewrite read_byte_unreadable.
Qed.

(** A channel whose byte lies outside the buffer makes the channel loop
    undefined, whatever the channels before it did. *)
Lemma channel_loop_unreadable logic i n spl bc cnt hd :
  forall idxs nms bufs lns pi pn pb pl out trg,
  length nms = length idxs -> length bufs = length idxs ->
  length lns = length idxs ->
  length pn = length pi -> length pb = length pi -> length pl = length pi ->
  n = Z.of_nat (length pi + length idxs) -> n < UINT_MOD ->
  Forall (fun idx => 0 <= idx) idxs ->
  (-1 < trg -> trg + trg / 8 <= INT_MAX) ->
  Exists (fun idx => ~ readable logic i idx) idxs ->
  channel_loop (length idxs) logic i (Z.land cnt 7) (length pi)
    (mk_context n spl bc cnt trg (pi ++ idxs)%list (pn ++ nms)%list
       (pb ++ bufs)%list (pl ++ lns)%list hd, out)
  = Undefined.
Proof.
  induction idxs as [|idx idxs IH];
    intros [|nm nms] [|buf bufs] [|ln lns] pi pn pb pl out trg
      Hn Hb Hl Hpn Hpb Hpl Hlen Hmax Hpos Htr Hex; try discriminate.
  - inversion Hex.
  - injection Hn as Hn. injection Hb as Hb. injection Hl as Hl.
    apply Forall_cons in Hpos as [H0 Hpos].
    cbn [length channel_loop].
    assert (Hdec : readable logic i idx \/ ~ readable logic i idx)
      by (unfold readable; lia).
    destruct Hdec as [Hr|Hnr];
      [|now rewrite channel_step_unreadable by assumption].
    apply Exists_cons in Hex as [Hex|Hex]; [contradiction|].
    rewrite channel_step_middle by assumption. cbv zeta.
    destruct (cnt =? spl); cbn [obind];
      [destruct ((Z.of_nat (length pi) =? (n - 1) mod UINT_MOD)
                 && (-1 <? trg))|];
      rewrite (snoc_app pi idxs idx), (snoc_app pn nms nm),
        (snoc_app pb bufs), (snoc_app pl lns);
      rewrite <- (length_snoc pi idx);
      (apply IH; rewrite ?length_snoc; cbn [length] in *;
       first [congruence | assumption | lia
             | intros Habs; exfalso; lia]).
Qed.

Lemma sample_step_unreadable logic i ctx out :
  ready ctx ->
  Forall (fun idx => 0 <= idx) (channel_index ctx) ->
  Exists (fun idx => ~ readable logic i idx) (channel_index ctx) ->
  sample_step logic i (ctx, out) = Undefined.
Proof.
  intros [[Hmax Hidx Hnm Hbf Hln] Hcnt Hspl Htrg] Hpos Hex.
  unfold sample_step.
  destruct ctx as [n spl bc cnt trg idxs nms bufs lns hd].
  cbn [num_enabled_channels samples_per_line bit_cnt spl_cnt trigger
       channel_index channel_names sample_buf lines header] in *.
  rewrite (proj2 (Z.eqb_neq cnt INT_MAX)) by lia. ctx_simpl.
  replace (Z.to_nat n) with (length idxs) by lia.
  pose proof (channel_loop_unreadable logic i n spl bc (cnt + 1) hd idxs nms
                bufs lns [] [] [] [] out trg) as H.
  cbn [app length] in H. rewrite H; try congruence; try lia; try assumption.
  reflexivity.
Qed.

(** X3.  A sample batch shorter than one unit size, the empty batch included:
    the bound [length - unitsize] wraps around, the loop is entered, and
    by its second pass at the latest a byte outside the buffer is read. *)
Theorem short_batch_undefined (fuel : nat) (o : sr_output)
    (dev : sr_dev_inst) (ctx : context) (logic : sr_datafeed_logic) :
  sdi o = Some dev -> internal o = Some ctx -> ready ctx ->
  channel_index ctx <> [] ->
  Forall (fun idx => 0 <= idx) (channel_index ctx) ->
  0 < unitsize logic < 2 ^ 16 ->
  logic_length logic < unitsize logic ->
  receive (S (S fuel)) (Some o) (SR_DF_LOGIC logic) = Undefined.
Proof.
  intros Hsdi Hint Hrdy Hne Hpos Hu Hlen. unfold receive.
  rewrite Hsdi, Hint.
  assert (Hgo : forall c out, ready c -> channel_index c = channel_index ctx ->
                sample_loop (S (S fuel)) logic 0 (c, out) = Undefined).
  { intros c out Hc Hix.
    assert (H0 : 0 <= logic_length logic)
      by (unfold logic_length; lia).
    assert (Hb : (logic_length logic - unitsize logic) mod UINT64_MOD
                 = UINT64_MOD + logic_length logic - unitsize logic).
    { rewrite <- (Z.mod_add _ 1) by (unfold UINT64_MOD; lia).
      rewrite Z.mod_small by (unfold UINT64_MOD; lia). lia. }
    rewrite sample_loop_unfold, Hb.
    rewrite (proj2 (Z.leb_le _ _)) by (unfold UINT64_MOD; lia).
    assert (Hdec : Forall (readable logic 0) (channel_index c)
                   \/ Exists (fun idx => ~ readable logic 0 idx)
                        (channel_index c)).
    { clear. induction (channel_index c) as [|x l IH]; [now left|].
      assert (Hx : readable logic 0 x \/ ~ readable logic 0 x)
        by (unfold readable; lia).
      destruct Hx as [Hx|Hx]; [|right; now left].
      destruct IH as [IH|IH]; [left; now constructor|right; now right]. }
    destruct Hdec as [Hall|Hex];
      [|rewrite sample_step_unreadable; try assumption;
        [reflexivity|now rewrite Hix]].
    rewrite sample_step_closed by assumption. cbn [obind].
    rewrite Z.add_0_l, Z.mod_small by (unfold UINT64_MOD; lia).
    rewrite sample_loop_unfold, Hb.
    rewrite (proj2 (Z.leb_le _ _)) by (unfold UINT64_MOD; lia).
    rewrite sample_step_unreadable; [reflexivity| |cbn; now rewrite Hix|].
    - now apply step_context_ready.
    - cbn [step_context channel_index]. rewrite Hix.
      destruct (channel_index ctx) as [|x l]; [contradiction|].
      left. apply Forall_inv in Hpos. unfold readable.
      rewrite Z.quot_div_nonneg by lia.
      pose proof (Z.div_pos x 8). lia. }
  destruct (header ctx) as [h|];
    rewrite Hgo; try reflexivity; try assumption.
  now apply ready_set_header.
Qed.

Lemma short_batch_undefined_witness :
  receive 2 (Some ex_output0) (SR_DF_LOGIC (mk_logic 1 [])) = Undefined.
Proof.
  refine (short_batch_undefined 0 ex_output0 ex_dev ex_context0
            (mk_logic 1 []) eq_refl eq_refl ex_context0_ready _ _ _ _).
  - discriminate.
  - repeat constructor; discriminate.
  - split; reflexivity.
  - reflexivity.
Defined.

(** X4.  With a unit size of 0 the loop index never advances: when every
    selected channel's byte lies inside the buffer the sample loop never
    ends (no amount of fuel is enough), and [receive] does not return. *)
Theorem zero_unitsize_never_returns (fuel : nat) (o : sr_output)
    (dev : sr_dev_inst) (ctx : context) (logic : sr_datafeed_logic) :
  sdi o = Some dev -> internal o = Some ctx -> ready ctx ->
  unitsize logic = 0 ->
  Forall (readable logic 0) (channel_index ctx) ->
  receive fuel (Some o) (SR_DF_LOGIC logic) = OutOfFuel.
Proof.
  intros Hsdi Hint Hrdy Hu Hrd. unfold receive. rewrite Hsdi, Hint.
  assert (Hgo : forall c out, ready c -> channel_index c = channel_index ctx ->
                sample_loop fuel logic 0 (c, out) = OutOfFuel).
  { induction fuel as [|f IH]; intros c out Hc Hix;
      rewrite sample_loop_unfold, Hu, Z.sub_0_r;
      rewrite (proj2 (Z.leb_le 0 _))
        by (apply Z.mod_pos_bound; unfold UINT64_MOD; lia);
      [reflexivity|].
    rewrite sample_step_closed by (try assumption; now rewrite Hix).
    cbn [obind]. change ((0 + 0) mod UINT64_MOD) with 0.
    apply IH; [now apply step_context_ready|exact Hix]. }
  destruct (header ctx) as [h|]; rewrite Hgo; try reflexivity;
    try assumption.
  now apply ready_set_header.
Qed.

Lemma zero_unitsize_never_returns_witness :
  receive 1000 (Some ex_output0) (SR_DF_LOGIC (mk_logic 0 [1; 1; 3]))
  = OutOfFuel.
Proof.
  refine (zero_unitsize_never_returns 1000 ex_output0 ex_dev ex_context0
            (mk_logic 0 [1; 1; 3]) eq_refl eq_refl ex_context0_ready
            eq_refl _).
  repeat constructor; discriminate.
Defined.

(** ** An encoder without channels *)

Lemma run_samples_no_channels logic k :
  forall i ctx out,
  channel_index ctx = [] ->
  snd (run_samples k logic i (ctx, out)) = out
  /\ trigger (fst (run_samples k logic i (ctx, out))) = trigger ctx
  /\ channel_index (fst (run_samples k logic i (ctx, out))) = [].
Proof.
  induction k as [|k IH]; intros i ctx out Hix; cbn [run_samples fst snd];
    [now repeat split|].
  assert (Hcar : step_caret ctx = false).
  { unfold step_caret. rewrite Hix. cbn. now rewrite andb_false_r. }
  assert (Htext : step_text logic i ctx = "").
  { unfold step_text. rewrite Hcar, Hix.
    now destruct (spl_cnt ctx + 1 =? samples_per_line ctx). }
  rewrite Htext, append_nil_r.
  destruct (IH (i + unitsize logic) (step_context logic i ctx) out Hix)
    as (H1 & H2 & H3).
  repeat split; try assumption.
  rewrite H2. unfold step_context. cbn [trigger]. now rewrite Hcar.
Qed.

(** X5.  With no channel selected, a sample batch yields the pending header
    and nothing else (an empty chunk once the header is gone), no flush
    ever happens, so a pending trigger offset stays pending, and the end
    of the stream yields an empty chunk, or none when no sample is
    buffered: no data line and no caret line is ever emitted. *)
Theorem no_channels_header_only (fuel : nat) (o : sr_output)
    (dev : sr_dev_inst) (ctx : context) (logic : sr_datafeed_logic) :
  sdi o = Some dev -> internal o = Some ctx -> ready ctx ->
  channel_index ctx = [] -> holds_sample logic ->
  (sample_count logic <= fuel)%nat ->
  (exists ctx',
     receive fuel (Some o) (SR_DF_LOGIC logic)
     = Done (mk_result SR_OK (Some (set_internal o (Some ctx')))
               (Some (default "" (header ctx))))
     /\ trigger ctx' = trigger ctx /\ channel_index ctx' = [])
  /\ receive fuel (Some o) SR_DF_END
     = Done (mk_result SR_OK (Some o)
               (if spl_cnt ctx =? 0 then None else Some "")).
Proof.
  intros Hsdi Hint Hrdy Hix Hpk Hfuel. split.
  - rewrite (receive_logic_closed fuel o dev ctx logic);
      try assumption; [|unfold channels_fit; rewrite Hix; constructor].
    cbv zeta.
    destruct (run_samples_no_channels logic (sample_count logic) 0
                (set_header ctx None) (default "" (header ctx)))
      as (H1 & H2 & H3); [destruct ctx; exact Hix|].
    eexists. split; [now rewrite H1|]. split; [|exact H3].
    rewrite H2. now destruct ctx.
  - pose proof (ready_wf ctx Hrdy) as Hwf.
    rewrite (receive_end_closed fuel o dev ctx Hsdi Hint Hwf).
    destruct (spl_cnt ctx =? 0); [reflexivity|]. cbv zeta.
    destruct Hwf as [_ _ _ Hb Hl]. rewrite Hix in Hb, Hl.
    destruct (sample_buf ctx); [|discriminate].
    destruct (lines ctx) eqn:El; [|discriminate].
    cbn [end_lines flush_text]. rewrite <- El, set_lines_same.
    now rewrite set_internal_same.
Qed.

Lemma ex_context_none_ready : ready ex_context_none.
Proof.
  split; [split; reflexivity|cbn; lia|cbn; unfold INT_MAX; lia
         |intros _; vm_compute; discriminate].
Qed.

Lemma no_channels_header_only_witness :
  (exists ctx',
     receive 3 (Some ex_output_none) (SR_DF_LOGIC ex_logic3)
     = Done (mk_result SR_OK (Some (set_internal ex_output_none (Some ctx')))
               (Some (ex_banner ++ newline)))
     /\ trigger ctx' = 2 /\ channel_index ctx' = [])
  /\ receive 3 (Some ex_output_none) SR_DF_END
     = Done (mk_result SR_OK (Some ex_output_none) (Some "")).
Proof.
  exact (no_channels_header_only 3 ex_output_none ex_dev ex_context_none
           ex_logic3 eq_refl eq_refl ex_context_none_ready eq_refl
           ex_logic3_holds (le_n 3)).
Defined.

(** ** The invariant of a session *)

Lemma length_end_lines cnt bufs lns :
  length lns = length bufs -> length (end_lines cnt bufs lns) = length bufs.
Proof.
  revert lns. induction bufs as [|b bufs IH]; intros [|l lns] H;
    try discriminate; cbn; [reflexivity|]. f_equal. apply IH. now injection H.
Qed.

Lemma step_context_steady logic i ctx :
  steady ctx -> steady (step_context logic i ctx).
Proof.
  intros [Hr Ht Hw]. split; [now apply step_context_ready| |exact Hw].
  unfold step_context. cbn [trigger samples_per_line].
  destruct (step_caret ctx); [|exact Ht]. destruct Hr as [_ Hc _ _]. lia.
Qed.

Lemma run_samples_steady logic k :
  forall i ctx out,
  steady ctx ->
  steady (fst (run_samples k logic i (ctx, out)))
  /\ num_enabled_channels (fst (run_samples k logic i (ctx, out)))
     = num_enabled_channels ctx
  /\ samples_per_line (fst (run_samples k logic i (ctx, out)))
     = samples_per_line ctx
  /\ channel_index (fst (run_samples k logic i (ctx, out)))
     = channel_index ctx
  /\ channel_names (fst (run_samples k logic i (ctx, out)))
     = channel_names ctx.
Proof.
  induction k as [|k IH]; intros i ctx out H; cbn [run_samples fst snd];
    [split; [exact H|now repeat split]|].
  destruct (IH (i + unitsize logic) (step_context logic i ctx)
              (out ++ step_text logic i ctx) (step_context_steady _ _ _ H))
    as (H1 & H2 & H3 & H4 & H5).
  exact (conj H1 (conj H2 (conj H3 (conj H4 H5)))).
Qed.

(** X6.  Every acceptable packet is taken with [SR_OK], and the context it
    leaves is [steady] again, with the same channel table and the same
    line width: no sequence of acceptable packets leads to undefined
    behaviour. *)
Theorem receive_keeps_steady (fuel : nat) (o : sr_output)
    (dev : sr_dev_inst) (ctx : context) (pk : sr_datafeed_packet) :
  sdi o = Some dev -> internal o = Some ctx -> steady ctx ->
  acceptable fuel ctx pk ->
  exists (ctx' : context) (ch : option string),
    receive fuel (Some o) pk
    = Done (mk_result SR_OK (Some (set_internal o (Some ctx'))) ch)
    /\ steady ctx'
    /\ num_enabled_channels ctx' = num_enabled_channels ctx
    /\ samples_per_line ctx' = samples_per_line ctx
    /\ channel_index ctx' = channel_index ctx
    /\ channel_names ctx' = channel_names ctx.
Proof.
  intros Hsdi Hint Hst Hacc. destruct pk as [|logic| |].
  - exists (set_trigger ctx (spl_cnt ctx)), None.
    split; [unfold receive; now rewrite Hsdi, Hint|].
    split; [|now repeat split].
    destruct Hst as [[Hwf Hc Hs Ht] Htr Hw].
    split; [split|..]; cbn; try assumption; try lia.
    + destruct Hwf. split; assumption.
    + intros _.
      pose proof (Z.div_le_mono (spl_cnt ctx) (samples_per_line ctx) 8). lia.
  - destruct Hacc as (Hfit & Hpk & Hfuel).
    rewrite (receive_logic_closed fuel o dev ctx logic);
      try assumption; [|apply Hst]. cbv zeta.
    destruct (run_samples_steady logic (sample_count logic) 0
                (set_header ctx None) (default "" (header ctx)))
      as (H1 & H2 & H3 & H4 & H5).
    { destruct Hst as [Hr Ht Hw]. split; [now apply ready_set_header|..];
        now destruct ctx. }
    do 2 eexists. split; [reflexivity|]. split; [exact H1|].
    rewrite H2, H3, H4, H5. now destruct ctx.
  - pose proof (ready_wf ctx (steady_ready ctx Hst)) as Hwf.
    rewrite (receive_end_closed fuel o dev ctx Hsdi Hint Hwf).
    destruct (spl_cnt ctx =? 0).
    + exists ctx, None. rewrite set_internal_same by assumption.
      split; [reflexivity|]. split; [exact Hst|now repeat split].
    + cbv zeta. do 2 eexists. split; [reflexivity|].
      split; [|now repeat split].
      destruct Hst as [[[H1 H2 H3 H4 H5] Hc Hs Ht] Htr Hw].
      split; [split; [split|..]|..]; cbn; try assumption.
      rewrite length_end_lines; congruence.
  - exists ctx, None. unfold receive. rewrite Hsdi, Hint.
    rewrite set_internal_same by assumption.
    split; [reflexivity|]. split; [exact Hst|now repeat split].
Qed.

Lemma ex_context7_steady : steady ex_context7.
Proof.
  split; [exact ex_context7_ready|cbn; lia|vm_compute; discriminate].
Qed.

Lemma receive_keeps_steady_witness :
  exists (ctx' : context) (ch : option string),
    receive 1 (Some ex_output7) (SR_DF_LOGIC ex_logic1)
    = Done (mk_result SR_OK (Some (set_internal ex_output7 (Some ctx'))) ch)
    /\ steady ctx'
    /\ num_enabled_channels ctx' = 2
    /\ samples_per_line ctx' = 8
    /\ channel_index ctx' = [0; 1]
    /\ channel_names ctx' = ["A"; "B"].
Proof.
  refine (receive_keeps_steady 1 ex_output7 ex_dev ex_context7
            (SR_DF_LOGIC ex_logic1) eq_refl eq_refl ex_context7_steady _).
  exact (conj ex_logic1_fit (conj ex_logic1_holds (le_n 1))).
Defined.

(** ** A trigger right before the sample that completes a line *)

(** X7.  A trigger marker followed by a packet of the one sample that
    completes the line: the marker is taken silently, and the chunk of
    the sample is the pending header, the data lines of every channel and
    then the caret line for the offset [samples_per_line - 1], the
    in-line count at which the marker arrived, whatever offset was
    pending before.  Afterwards no trigger is pending. *)
Theorem trigger_before_last_sample (fuel : nat) (o : sr_output)
    (dev : sr_dev_inst) (ctx : context) (logic : sr_datafeed_logic) :
  sdi o = Some dev -> internal o = Some ctx -> steady ctx ->
  channels_fit logic ctx -> holds_sample logic ->
  sample_count logic = 1%nat -> (1 <= fuel)%nat ->
  spl_cnt ctx + 1 = samples_per_line ctx -> channel_index ctx <> [] ->
  let t := samples_per_line ctx - 1 in
  exists (o1 : sr_output) (ctx' : context),
    receive fuel (Some o) SR_DF_TRIGGER
    = Done (mk_result SR_OK (Some o1) None)
    /\ receive fuel (Some o1) (SR_DF_LOGIC logic)
       = Done (mk_result SR_OK (Some (set_internal o (Some ctx')))
                 (Some (default "" (header ctx)
                        ++ flush_text
                             (full_lines (samples_per_line ctx) logic 0
                                (channel_index ctx) (sample_buf ctx)
                                (lines ctx))
                        ++ "T:" ++ spaces (Z.to_nat (t + t / 8)) ++ "^ "
                        ++ fmt_d t ++ newline)))
    /\ trigger ctx' = -1 /\ spl_cnt ctx' = 0.
Proof.
  intros Hsdi Hint Hst Hfit Hpk Hone Hfuel Hfl Hne t.
  set (c1 := set_trigger ctx (spl_cnt ctx)).
  exists (set_internal o (Some c1)).
  exists (step_context logic 0 (set_header c1 None)).
  assert (Hc1 : ready c1).
  { destruct Hst as [[Hwf Hc Hs Ht] Htr Hw].
    split; cbn; try assumption; [destruct Hwf; split; assumption|].
    intros _.
    pose proof (Z.div_le_mono (spl_cnt ctx) (samples_per_line ctx) 8). lia. }
  split; [unfold receive; now rewrite Hsdi, Hint|].
  rewrite (receive_logic_closed fuel (set_internal o (Some c1)) dev c1 logic);
    try assumption; try reflexivity; [|lia].
  rewrite Hone. cbv zeta. cbn [run_samples fst snd].
  assert (Hcar : step_caret (set_header c1 None) = true).
  { apply step_caret_true; cbn; try assumption.
    destruct Hst as [[_ Hc _ _] _ _]. lia. }
  assert (Ht : trigger (set_header c1 None) = t) by (cbn; unfold t; lia).
  split; [|split].
  - unfold step_text. rewrite Hcar, Ht. cbn [spl_cnt set_header c1
      set_trigger samples_per_line channel_index sample_buf lines header].
    rewrite Hfl, Z.eqb_refl. destruct o; reflexivity.
  - unfold step_context. cbn [trigger]. now rewrite Hcar.
  - unfold step_context. cbn [spl_cnt set_header c1 set_trigger
      samples_per_line]. now rewrite Hfl, Z.eqb_refl.
Qed.

Lemma trigger_before_last_sample_witness :
  exists (o1 : sr_output) (ctx' : context),
    receive 1 (Some ex_output7) SR_DF_TRIGGER
    = Done (mk_result SR_OK (Some o1) None)
    /\ receive 1 (Some o1) (SR_DF_LOGIC ex_logic1)
       = Done (mk_result SR_OK (Some (set_internal ex_output7 (Some ctx')))
                 (Some ("A:1e " ++ newline ++ "B:79 " ++ newline
                        ++ "T:       ^ 7" ++ newline)))
    /\ trigger ctx' = -1 /\ spl_cnt ctx' = 0.
Proof.
  refine (trigger_before_last_sample 1 ex_output7 ex_dev ex_context7
            ex_logic1 eq_refl eq_refl ex_context7_steady ex_logic1_fit
            ex_logic1_holds eq_refl (le_n 1) eq_refl _).
  discriminate.
Defined.

(** ** The channel selection and the header of [init] *)

(** X8.  A successful [init] selects the enabled logic channels of the device,
    in the device's order: their indices, their names, a zeroed bit
    accumulator and a line seeded with ["<name>:"] for each.  The counters
    are 0, no trigger is pending, and the pending header is the banner
    line, followed, when the device answers the sample rate query, by the
    line with the number of selected channels, the number of all channels
    and the rate.  The context is [ready]. *)
Theorem init_selects_channels (banner : string) (rate : Z -> string)
    (o : sr_output) (dev : sr_dev_inst) :
  sdi o = Some dev ->
  1 <= line_width (param o) ->
  Z.of_nat (length (selection dev)) < UINT_MOD ->
  let n := Z.of_nat (length (selection dev)) in
  let ctx :=
    mk_context n (line_width (param o)) 0 0 (-1)
      (map ch_index (selection dev)) (map ch_name (selection dev))
      (replicate (length (selection dev)) 0)
      (seed_lines (map ch_name (selection dev)))
      (Some
         (match samplerate dev with
          | Some r =>
              (banner ++ newline) ++ "Acquisition with "
              ++ fmt_d (to_int n) ++ "/"
              ++ fmt_d (to_int (Z.of_nat (length (channels dev))))
              ++ " channels at " ++ rate r ++ newline
          | None => banner ++ newline
          end)) in
  init banner rate (Some o) = (SR_OK, Some (set_internal o (Some ctx)))
  /\ ready ctx
  /\ (line_width (param o) + line_width (param o) / 8 <= INT_MAX ->
      steady ctx).
Proof.
  intros Hsdi Hw Hmax n ctx.
  assert (Heq : init banner rate (Some o)
                = (SR_OK, Some (set_internal o (Some ctx)))).
  { unfold init. rewrite Hsdi. fold (line_width (param o)).
    rewrite (proj2 (Z.ltb_ge _ _)) by lia.
    unfold fresh_context, set_samples_per_line.
    cbn [num_enabled_channels samples_per_line bit_cnt spl_cnt trigger
         channel_index channel_names sample_buf lines header].
    rewrite count_channels_closed by (fold (selection dev); lia).
    fold (selection dev). unfold alloc_arrays.
    unfold set_channel_index, set_channel_names. ctx_simpl.
    rewrite Z.add_0_l, Nat2Z.id.
    pose proof (fill_channels_middle (channels dev)
                  (Z.of_nat (length (selection dev))) (line_width (param o))
                  0 0 (-1) None [] [] [] []
                  (replicate (length (selection dev)) 0)
                  (replicate (length (selection dev)) "")
                  (replicate (length (selection dev)) 0)
                  (replicate (length (selection dev)) "")) as H.
    cbn [app length] in H.
    rewrite H; rewrite ?length_replicate; reflexivity. }
  split; [exact Heq|].
  destruct (init_ready banner rate o dev ctx Hsdi Hmax Heq) as (Hr & _).
  split; [exact Hr|]. intros Hcar. split; [exact Hr|cbn; lia|exact Hcar].
Qed.

Lemma init_selects_channels_witness :
  ex_init (Some "8")
  = (SR_OK,
     Some (mk_output (Some ex_dev) (Some "8")
             (Some (mk_context 2 8 0 0 (-1) [0; 1] ["A"; "B"] [0; 0]
                      ["A:"; "B:"]
                      (Some ("libsigrok 0.3.0" ++ newline
                             ++ "Acquisition with 2/4 channels at 1 MHz"
                             ++ newline)))))).
Proof.
  refine (proj1 (init_selects_channels ex_banner ex_rate
                   (ex_handle (Some "8")) ex_dev eq_refl _ _)).
  - vm_compute. discriminate.
  - vm_compute. reflexivity.
Defined.

(** ** Whole bytes of a line *)

Lemma run_samples_add logic (a b : nat) :
  forall i st,
  run_samples (a + b) logic i st
  = run_samples b logic (i + Z.of_nat a * unitsize logic)
      (run_samples a logic i st).
Proof.
  induction a as [|a IH]; intros i st.
  - cbn [Nat.add run_samples]. f_equal. lia.
  - cbn [Nat.add run_samples]. rewrite IH. f_equal. lia.
Qed.

Lemma zip_with_append2 (A B : Z -> string) (idxs : list Z) :
  forall lns : list string,
  zip_with (fun idx ln => ln ++ B idx) idxs
    (zip_with (fun idx ln => ln ++ A idx) idxs lns)
  = zip_with (fun idx ln => ln ++ A idx ++ B idx) idxs lns.
Proof.
  induction idxs as [|idx idxs IH]; intros [|ln lns]; cbn [zip_with];
    try reflexivity.
  now rewrite IH, append_assoc.
Qed.

Lemma hex_bytes_snoc (k : nat) logic idx :
  forall i,
  hex_bytes (S k) logic i idx
  = hex_bytes k logic i idx
    ++ fmt_02x (bits_value
                  (eight_bits logic (i + Z.of_nat k * (8 * unitsize logic))
                     idx))
    ++ " ".
Proof.
  induction k as [|k IH]; intros i.
  - cbn [hex_bytes]. rewrite append_nil_r. cbn [append].
    replace (i + Z.of_nat 0 * (8 * unitsize logic)) with i by lia.
    reflexivity.
  - change (hex_bytes (S (S k)) logic i idx)
      with (fmt_02x (bits_value (eight_bits logic i idx)) ++ " "
            ++ hex_bytes (S k) logic (i + 8 * unitsize logic) idx).
    rewrite IH. cbn [hex_bytes]. rewrite !append_assoc.
    replace (i + 8 * unitsize logic + Z.of_nat k * (8 * unitsize logic))
      with (i + Z.of_nat (S k) * (8 * unitsize logic)) by lia.
    reflexivity.
Qed.

Lemma step_context_flush logic i n spl bc cnt trg idxs nms bufs lns hd :
  cnt + 1 = spl ->
  let car := negb (Nat.eqb (length idxs) 0) && (-1 <? trg) in
  step_context logic i (mk_context n spl bc cnt trg idxs nms bufs lns hd)
  = mk_context n spl bc 0 (if car then -1 else trg) idxs nms
      (step_bufs (cnt + 1) logic i idxs bufs) (seed_lines nms) hd
  /\ step_text logic i (mk_context n spl bc cnt trg idxs nms bufs lns hd)
     = flush_text (full_lines (cnt + 1) logic i idxs bufs lns)
       ++ (if car then caret_line trg else "").
Proof.
  intros H car. unfold step_context, step_text, step_caret. ctx_simpl.
  now rewrite (proj2 (Z.eqb_eq _ _) H).
Qed.

(** The eight samples that complete a line whose width is a multiple of
    8 (counted from the last byte boundary). *)
Lemma byte_group_flush logic i ctx out :
  ready ctx -> spl_cnt ctx mod 8 = 0 ->
  spl_cnt ctx + 8 = samples_per_line ctx ->
  run_samples 8 logic i (ctx, out)
  = (mk_context (num_enabled_channels ctx) (samples_per_line ctx)
       (bit_cnt ctx) 0 (if caret_due ctx then -1 else trigger ctx)
       (channel_index ctx) (channel_names ctx)
       (replicate (length (channel_index ctx)) 0)
       (seed_lines (channel_names ctx)) (header ctx),
     out
     ++ flush_text
          (zip_with
             (fun idx ln =>
                ln ++ fmt_02x (bits_value (eight_bits logic i idx)) ++ " ")
             (channel_index ctx) (lines ctx))
     ++ (if caret_due ctx then caret_line (trigger ctx) else "")).
Proof.
  intros [[_ _ _ Hb Hl] [Hc _] _ _] Hmod Hlt. unfold caret_due.
  destruct ctx as [n spl bc c trg idxs nms bufs lns hd].
  cbn [num_enabled_channels samples_per_line bit_cnt spl_cnt trigger
       channel_index channel_names sample_buf lines header] in *.
  cbn [run_samples fst snd].
  repeat match goal with
  | |- context [step_context ?l ?j
                  (mk_context ?n' ?s' ?b' ?c' ?t' ?ix ?nm ?bf ?ln ?h)] =>
      destruct (step_context_no_flush l j n' s' b' c' t' ix nm bf ln h
                  ltac:(lia)) as [-> ->]
  end.
  match goal with
  | |- context [step_context ?l ?j
                  (mk_context ?n' ?s' ?b' ?c' ?t' ?ix ?nm ?bf ?ln ?h)] =>
      destruct (step_context_flush l j n' s' b' c' t' ix nm bf ln h
                  ltac:(lia)) as [-> ->]
  end.
  rewrite !append_nil_r.
  destruct (eight_passes_lists logic i (i + unitsize logic)
              (i + unitsize logic + unitsize logic)
              (i + unitsize logic + unitsize logic + unitsize logic)
              (i + unitsize logic + unitsize logic + unitsize logic
               + unitsize logic)
              (i + unitsize logic + unitsize logic + unitsize logic
               + unitsize logic + unitsize logic)
              (i + unitsize logic + unitsize logic + unitsize logic
               + unitsize logic + unitsize logic + unitsize logic)
              (i + unitsize logic + unitsize logic + unitsize logic
               + unitsize logic + unitsize logic + unitsize logic
               + unitsize logic)
              (c + 1) (c + 1 + 1) (c + 1 + 1 + 1) (c + 1 + 1 + 1 + 1)
              (c + 1 + 1 + 1 + 1 + 1) (c + 1 + 1 + 1 + 1 + 1 + 1)
              (c + 1 + 1 + 1 + 1 + 1 + 1 + 1)
              (c + 1 + 1 + 1 + 1 + 1 + 1 + 1 + 1)
              ltac:(renders_at c 1) ltac:(renders_at c 2)
              ltac:(renders_at c 3) ltac:(renders_at c 4)
              ltac:(renders_at c 5) ltac:(renders_at c 6)
              ltac:(renders_at c 7) ltac:(renders_at c 8)
              idxs bufs lns Hb Hl) as [-> ->].
  assert (Hz : zip_with
            (fun idx ln =>
               ln ++ fmt_02x
                       (bits_value
                          [sample_bit logic i idx;
                           sample_bit logic (i + unitsize logic) idx;
                           sample_bit logic
                             (i + unitsize logic + unitsize logic) idx;
                           sample_bit logic
                             (i + unitsize logic + unitsize logic
                              + unitsize logic) idx;
                           sample_bit logic
                             (i + unitsize logic + unitsize logic
                              + unitsize logic + unitsize logic) idx;
                           sample_bit logic
                             (i + unitsize logic + unitsize logic
                              + unitsize logic + unitsize logic
                              + unitsize logic) idx;
                           sample_bit logic
                             (i + unitsize logic + unitsize logic
                              + unitsize logic + unitsize logic
                              + unitsize logic + unitsize logic) idx;
                           sample_bit logic
                             (i + unitsize logic + unitsize logic
                              + unitsize logic + unitsize logic
                              + unitsize logic + unitsize logic
                              + unitsize logic) idx])
                  ++ " ")
            idxs lns
          = zip_with
              (fun idx ln =>
                 ln ++ fmt_02x (bits_value (eight_bits logic i idx)) ++ " ")
              idxs lns).
  { apply zip_with_ext; [|reflexivity|reflexivity].
    intros idx ln. unfold eight_bits. cbn [map].
    set (u := unitsize logic).
    replace (i + 0 * u) with i by lia.
    replace (i + 1 * u) with (i + u) by lia.
    replace (i + 2 * u) with (i + u + u) by lia.
    replace (i + 3 * u) with (i + u + u + u) by lia.
    replace (i + 4 * u) with (i + u + u + u + u) by lia.
    replace (i + 5 * u) with (i + u + u + u + u + u) by lia.
    replace (i + 6 * u) with (i + u + u + u + u + u + u) by lia.
    replace (i + 7 * u) with (i + u + u + u + u + u + u + u) by lia.
    reflexivity. }
  rewrite Hz. reflexivity.
Qed.

(** Whole bytes inside a line: from a byte boundary, [8 * (k + 1)]
    samples that do not complete the line append [k + 1] bytes to every
    line, emit nothing and leave the accumulators at 0. *)
Lemma byte_groups (k : nat) logic :
  forall i ctx out,
  ready ctx -> spl_cnt ctx mod 8 = 0 ->
  spl_cnt ctx + 8 * Z.of_nat (S k) < samples_per_line ctx ->
  run_samples (8 * S k) logic i (ctx, out)
  = (mk_context (num_enabled_channels ctx) (samples_per_line ctx)
       (bit_cnt ctx) (spl_cnt ctx + 8 * Z.of_nat (S k)) (trigger ctx)
       (channel_index ctx) (channel_names ctx)
       (replicate (length (channel_index ctx)) 0)
       (zip_with (fun idx ln => ln ++ hex_bytes (S k) logic i idx)
          (channel_index ctx) (lines ctx))
       (header ctx), out).
Proof.
  induction k as [|k IH]; intros i ctx out Hrdy Hmod Hlt.
  - change (8 * 1)%nat with 8%nat.
    rewrite byte_of_eight_samples by (try assumption; lia).
    reflexivity.
  - replace (8 * S (S k))%nat with (8 + 8 * S k)%nat by lia.
    rewrite run_samples_add.
    pose proof (run_samples_ready logic 8 i ctx out Hrdy) as Hr1.
    rewrite byte_of_eight_samples in * by (try assumption; lia).
    cbn [fst] in Hr1. change (Z.of_nat 8) with 8.
    rewrite IH; [|exact Hr1| |];
      cbn [num_enabled_channels samples_per_line bit_cnt spl_cnt trigger
           channel_index channel_names sample_buf lines header].
    + rewrite zip_with_append2.
      f_equal. f_equal; [lia|].
      apply zip_with_ext; [|reflexivity|reflexivity].
      intros idx ln.
      change (hex_bytes (S (S k)) logic i idx)
        with (fmt_02x (bits_value (eight_bits logic i idx)) ++ " "
              ++ hex_bytes (S k) logic (i + 8 * unitsize logic) idx).
      now rewrite !append_assoc.
    + rewrite <- Zplus_mod_idemp_l, Hmod. reflexivity.
    + lia.
Qed.

(** A whole line: from a byte boundary, the [8 * (k + 1)] samples that
    complete the line flush, for every channel, the line with [k + 1]
    more bytes, then the caret line of a pending trigger, and leave the
    context at the start of a line. *)
Lemma whole_line (k : nat) logic i ctx out :
  ready ctx -> spl_cnt ctx mod 8 = 0 ->
  spl_cnt ctx + 8 * Z.of_nat (S k) = samples_per_line ctx ->
  run_samples (8 * S k) logic i (ctx, out)
  = (mk_context (num_enabled_channels ctx) (samples_per_line ctx)
       (bit_cnt ctx) 0 (if caret_due ctx then -1 else trigger ctx)
       (channel_index ctx) (channel_names ctx)
       (replicate (length (channel_index ctx)) 0)
       (seed_lines (channel_names ctx)) (header ctx),
     out
     ++ flush_text
          (zip_with (fun idx ln => ln ++ hex_bytes (S k) logic i idx)
             (channel_index ctx) (lines ctx))
     ++ (if caret_due ctx then caret_line (trigger ctx) else "")).
Proof.
  intros Hrdy Hmod Hfl. destruct k as [|k].
  - change (8 * 1)%nat with 8%nat.
    rewrite byte_group_flush by (try assumption; lia).
    reflexivity.
  - replace (8 * S (S k))%nat with (8 * S k + 8)%nat by lia.
    rewrite run_samples_add.
    pose proof (run_samples_ready logic (8 * S k) i ctx out Hrdy) as Hr1.
    rewrite byte_groups in * by (try assumption; lia).
    cbn [fst] in Hr1.
    rewrite byte_group_flush; [|exact Hr1| |];
      unfold caret_due;
      cbn [num_enabled_channels samples_per_line bit_cnt spl_cnt trigger
           channel_index channel_names sample_buf lines header].
    + rewrite zip_with_append2. do 4 f_equal.
      apply zip_with_ext; [|reflexivity|reflexivity].
      intros idx ln. rewrite (hex_bytes_snoc (S k)).
      replace (i + Z.of_nat (8 * S k) * unitsize logic)
        with (i + Z.of_nat (S k) * (8 * unitsize logic)) by lia.
      reflexivity.
    + rewrite <- Zplus_mod_idemp_l, Hmod.
      rewrite Z.add_0_l, Z.mul_comm. apply Z.mod_mul. lia.
    + lia.
Qed.

Lemma ready_drop_header ctx : ready ctx -> ready (set_header ctx None).
Proof.
  intros [[]]. split; [split|..]; assumption.
Qed.

(** X9.  Whole bytes inside a line.  A batch of [8 * (k + 1)] samples that
    starts on a byte boundary of the line and does not complete it is
    answered with the pending header only (the empty text once the
    header is out); every channel's line gains [k + 1] bytes, two
    lowercase hex digits and a space each, the first sample of a byte in
    its highest bit, and the accumulators are left at 0. *)
Theorem receive_whole_bytes fuel o dev ctx logic (k : nat) :
  sdi o = Some dev -> internal o = Some ctx ->
  ready ctx -> channels_fit logic ctx -> holds_sample logic ->
  sample_count logic = (8 * S k)%nat -> (sample_count logic <= fuel)%nat ->
  spl_cnt ctx mod 8 = 0 ->
  spl_cnt ctx + 8 * Z.of_nat (S k) < samples_per_line ctx ->
  receive fuel (Some o) (SR_DF_LOGIC logic)
  = Done (mk_result SR_OK
            (Some (set_internal o (Some
               (mk_context (num_enabled_channels ctx) (samples_per_line ctx)
                  (bit_cnt ctx) (spl_cnt ctx + 8 * Z.of_nat (S k))
                  (trigger ctx) (channel_index ctx) (channel_names ctx)
                  (replicate (length (channel_index ctx)) 0)
                  (zip_with (fun idx ln => ln ++ hex_bytes (S k) logic 0 idx)
                     (channel_index ctx) (lines ctx))
                  None))))
            (Some (default "" (header ctx)))).
Proof.
  intros Hsdi Hint Hrdy Hfit Hpk Hcnt Hfuel Hmod Hlt.
  rewrite (receive_logic_closed fuel o dev ctx logic) by assumption.
  rewrite Hcnt. cbv zeta.
  rewrite byte_groups by (try apply ready_drop_header; assumption).
  reflexivity.
Qed.

Lemma ex_context16_ready : ready ex_context16.
Proof.
  split; [split; reflexivity|cbn; lia|cbn; unfold INT_MAX; lia
         |cbn; intros H; lia].
Qed.

Lemma ex_logic8_fit : channels_fit ex_logic8 ex_context16.
Proof.
  repeat constructor; cbn; lia.
Qed.

Lemma ex_logic8_holds : holds_sample ex_logic8.
Proof.
  unfold holds_sample, logic_length, UINT64_MOD. cbn. lia.
Qed.

Lemma receive_whole_bytes_witness :
  receive 8 (Some ex_output16) (SR_DF_LOGIC ex_logic8)
  = Done (mk_result SR_OK
            (Some (set_internal ex_output16 (Some
               (mk_context 2 16 0 8 (-1) [0; 1] ["A"; "B"] [0; 0]
                  ["A:e1 "; "B:22 "] None))))
            (Some "")).
Proof.
  exact (receive_whole_bytes 8 ex_output16 ex_dev ex_context16 ex_logic8 0
           eq_refl eq_refl ex_context16_ready ex_logic8_fit ex_logic8_holds
           eq_refl (le_n 8) eq_refl eq_refl).
Defined.

(** X10.  A whole line.  A batch of [8 * (k + 1)] samples that starts on a
    byte boundary and completes the line is answered with the pending
    header, then every channel's line with its [k + 1] new bytes, each
    line terminated, then the caret line when a trigger is pending and a
    channel is selected; the context is left at the start of a line with
    the trigger consumed. *)
Theorem receive_whole_line fuel o dev ctx logic (k : nat) :
  sdi o = Some dev -> internal o = Some ctx ->
  ready ctx -> channels_fit logic ctx -> holds_sample logic ->
  sample_count logic = (8 * S k)%nat -> (sample_count logic <= fuel)%nat ->
  spl_cnt ctx mod 8 = 0 ->
  spl_cnt ctx + 8 * Z.of_nat (S k) = samples_per_line ctx ->
  receive fuel (Some o) (SR_DF_LOGIC logic)
  = Done (mk_result SR_OK
            (Some (set_internal o (Some
               (mk_context (num_enabled_channels ctx) (samples_per_line ctx)
                  (bit_cnt ctx) 0
                  (if caret_due ctx then -1 else trigger ctx)
                  (channel_index ctx) (channel_names ctx)
                  (replicate (length (channel_index ctx)) 0)
                  (seed_lines (channel_names ctx)) None))))
            (Some (default "" (header ctx)
                   ++ flush_text
                        (zip_with
                           (fun idx ln => ln ++ hex_bytes (S k) logic 0 idx)
                           (channel_index ctx) (lines ctx))
                   ++ (if caret_due ctx then caret_line (trigger ctx)
                       else "")))).
Proof.
  intros Hsdi Hint Hrdy Hfit Hpk Hcnt Hfuel Hmod Hfl.
  rewrite (receive_logic_closed fuel o dev ctx logic) by assumption.
  rewrite Hcnt. cbv zeta.
  rewrite whole_line by (try apply ready_drop_header; assumption).
  reflexivity.
Qed.

Lemma ex_logic16_fit : channels_fit ex_logic16 ex_context16.
Proof.
  repeat constructor; cbn; lia.
Qed.

Lemma ex_logic16_holds : holds_sample ex_logic16.
Proof.
  unfold holds_sample, logic_length, UINT64_MOD. cbn. lia.
Qed.

Lemma receive_whole_line_witness :
  receive 16 (Some ex_output16) (SR_DF_LOGIC ex_logic16)
  = Done (mk_result SR_OK
            (Some (set_internal ex_output16 (Some
               (mk_context 2 16 0 0 (-1) [0; 1] ["A"; "B"] [0; 0]
                  ["A:"; "B:"] None))))
            (Some ("A:e1 0f " ++ newline ++ "B:22 f0 " ++ newline))).
Proof.
  exact (receive_whole_line 16 ex_output16 ex_dev ex_context16 ex_logic16 1
           eq_refl eq_refl ex_context16_ready ex_logic16_fit ex_logic16_holds
           eq_refl (le_n 16) eq_refl eq_refl).
Defined.

(** * cleanup *)

Lemma free_lines_defined (count : nat) ctx :
  forall i : nat,
  (i + count <= length (lines ctx))%nat -> free_lines count i ctx = Done tt.
Proof.
  induction count as [|c IH]; intros i H; cbn [free_lines]; [reflexivity|].
  unfold array_get.
  destruct (lines ctx !! i) eqn:Hl.
  - cbn [obind]. apply IH. lia.
  - apply lookup_ge_None in Hl. lia.
Qed.

Lemma free_lines_cases (count : nat) ctx :
  forall i : nat,
  free_lines count i ctx = Done tt \/ free_lines count i ctx = Undefined.
Proof.
  induction count as [|c IH]; intros i; cbn [free_lines]; [now left|].
  unfold array_get.
  destruct (lines ctx !! i); cbn [obind]; [apply IH|now right].
Qed.

(** [cleanup] on a context whose arrays agree. *)
Lemma cleanup_wf o ctx :
  internal o = Some ctx -> wf_context ctx ->
  cleanup (Some o)
  = match header ctx with
    | Some _ => Undefined
    | None => Done (SR_OK, Some (set_internal o None))
    end.
Proof.
  intros Hint [Hmax Hidx Hnm Hbf Hln]. unfold cleanup. rewrite Hint.
  rewrite free_lines_defined by lia. reflexivity.
Qed.

(** [cleanup] while the header is still pending frees the header twice. *)
Lemma cleanup_pending o ctx h :
  internal o = Some ctx -> header ctx = Some h ->
  cleanup (Some o) = Undefined.
Proof.
  intros Hint Hh. unfold cleanup. rewrite Hint, Hh.
  destruct (free_lines_cases (Z.to_nat (num_enabled_channels ctx)) ctx 0)
    as [H|H]; rewrite H; reflexivity.
Qed.

(** X11.  Releasing an encoder that never saw a sample batch.  [cleanup] on
    the handle a successful [init] leaves has undefined behaviour: the
    header, still pending, is released by [g_free] and then handed to
    [g_string_free]. *)
Theorem cleanup_after_init_undefined (banner : string) (rate : Z -> string)
    (o o' : option sr_output) :
  init banner rate o = (SR_OK, o') -> cleanup o' = Undefined.
Proof.
  intros H. destruct o as [o|]; [|discriminate H]. unfold init in H.
  destruct (sdi o) as [dev|]; [|discriminate H].
  match type of H with
  | (if ?c then _ else _) = _ => destruct c; [discriminate H|]
  end.
  injection H as <-.
  eapply cleanup_pending; reflexivity.
Qed.

Lemma cleanup_after_init_undefined_witness :
  cleanup (snd (ex_init (Some "8"))) = Undefined.
Proof.
  apply (cleanup_after_init_undefined ex_banner ex_rate
           (Some (ex_handle (Some "8")))).
  vm_compute. reflexivity.
Defined.

(** X12.  Releasing an encoder whose [init] failed.  When [init] rejects the
    line-width parameter, the context it left on the handle is released
    by [cleanup], which returns [SR_OK] and clears the handle. *)
Theorem cleanup_after_failed_init (banner : string) (rate : Z -> string)
    (o : sr_output) (dev : sr_dev_inst) :
  sdi o = Some dev ->
  fst (init banner rate (Some o)) = SR_ERR_ARG ->
  cleanup (snd (init banner rate (Some o)))
  = Done (SR_OK, Some (set_internal o None)).
Proof.
  intros Hsdi H. unfold init in *. rewrite Hsdi in *.
  match type of H with
  | fst (if ?c then _ else _) = _ => destruct c; [|discriminate H]
  end.
  reflexivity.
Qed.

Lemma cleanup_after_failed_init_witness :
  cleanup (snd (ex_init (Some "0")))
  = Done (SR_OK, Some (ex_handle (Some "0"))).
Proof.
  exact (cleanup_after_failed_init ex_banner ex_rate (ex_handle (Some "0"))
           ex_dev eq_refl eq_refl).
Defined.

(** X13.  Releasing an encoder after a packet.  After any acceptable packet
    on a [steady] context, [cleanup] returns [SR_OK] and clears the
    handle when a sample batch has taken the header, with this packet or
    before it; while the header is still pending it has undefined
    behaviour.  On the cleared handle every later [receive] is refused
    with [SR_ERR_ARG]. *)
Theorem cleanup_after_receive (fuel : nat) (o : sr_output)
    (dev : sr_dev_inst) (ctx : context) (pk : sr_datafeed_packet) :
  sdi o = Some dev -> internal o = Some ctx -> steady ctx ->
  acceptable fuel ctx pk ->
  exists r : receive_result,
    receive fuel (Some o) pk = Done r
    /\ cleanup (handle r)
       = match pk, header ctx with
         | SR_DF_LOGIC _, _ | _, None =>
             Done (SR_OK, Some (set_internal o None))
         | _, Some _ => Undefined
         end
    /\ forall (f : nat) (pk' : sr_datafeed_packet),
         receive f (Some (set_internal o None)) pk'
         = Done (mk_result SR_ERR_ARG (Some (set_internal o None)) None).
Proof.
  intros Hsdi Hint Hst Hacc.
  pose proof (ready_wf ctx (steady_ready ctx Hst)) as Hwf.
  assert (Hlater : forall (f : nat) (pk' : sr_datafeed_packet),
             receive f (Some (set_internal o None)) pk'
             = Done (mk_result SR_ERR_ARG (Some (set_internal o None)) None)).
  { intros f pk'. unfold receive. cbn [sdi internal set_internal].
    now rewrite Hsdi. }
  destruct pk as [|logic| |].
  - eexists. split; [unfold receive; rewrite Hsdi, Hint; reflexivity|].
    split; [|exact Hlater]. cbn [handle].
    rewrite (cleanup_wf _ (set_trigger ctx (spl_cnt ctx)));
      [|reflexivity|destruct Hwf; split; assumption].
    cbn [header set_trigger]. destruct (header ctx); reflexivity.
  - destruct Hacc as (Hfit & Hpk & Hfuel).
    rewrite (receive_logic_closed fuel o dev ctx logic);
      try assumption; [|apply Hst]. cbv zeta.
    eexists. split; [reflexivity|]. split; [|exact Hlater]. cbn [handle].
    pose proof (run_samples_ready logic (sample_count logic) 0
                  (set_header ctx None) (default "" (header ctx))
                  (ready_set_header ctx None (steady_ready ctx Hst))) as Hr.
    rewrite (cleanup_wf _ _ (eq_refl : internal (set_internal o _) = Some _)
               (ready_wf _ Hr)).
    rewrite run_samples_header. cbn [header set_header].
    destruct (header ctx); reflexivity.
  - rewrite (receive_end_closed fuel o dev ctx Hsdi Hint Hwf).
    destruct (spl_cnt ctx =? 0).
    + eexists. split; [reflexivity|]. split; [|exact Hlater]. cbn [handle].
      rewrite (cleanup_wf o ctx Hint Hwf). destruct (header ctx); reflexivity.
    + cbv zeta. eexists. split; [reflexivity|]. split; [|exact Hlater].
      cbn [handle].
      rewrite (cleanup_wf _ (set_lines ctx
                 (end_lines (spl_cnt ctx) (sample_buf ctx) (lines ctx))));
        [|reflexivity|].
      * cbn [header set_lines]. destruct (header ctx); reflexivity.
      * destruct Hwf as [H1 H2 H3 H4 H5]. split; cbn; try assumption.
        rewrite length_end_lines by congruence. exact H4.
  - eexists. split; [unfold receive; rewrite Hsdi, Hint; reflexivity|].
    split; [|exact Hlater]. cbn [handle].
    rewrite (cleanup_wf o ctx Hint Hwf). destruct (header ctx); reflexivity.
Qed.

Lemma ex_context0_steady : steady ex_context0.
Proof.
  split; [exact ex_context0_ready|cbn; lia|vm_compute; discriminate].
Qed.

Lemma cleanup_after_receive_witness :
  exists r : receive_result,
    receive 3 (Some ex_output0) (SR_DF_LOGIC ex_logic3) = Done r
    /\ cleanup (handle r) = Done (SR_OK, Some (set_internal ex_output0 None))
    /\ forall (f : nat) (pk' : sr_datafeed_packet),
         receive f (Some (set_internal ex_output0 None)) pk'
         = Done (mk_result SR_ERR_ARG (Some (set_internal ex_output0 None))
                   None).
Proof.
  refine (cleanup_after_receive 3 ex_output0 ex_dev ex_context0
            (SR_DF_LOGIC ex_logic3) eq_refl eq_refl ex_context0_steady _).
  exact (conj ex_logic3_fit (conj ex_logic3_holds (le_n 3))).
Defined.

(** * device.c: naming, enabling and disabling channels *)

Lemma set_channels_same dev : set_channels dev (channels dev) = dev.
Proof. now destruct dev. Qed.

Lemma set_enabled_back ch (state : bool) :
  set_enabled (set_enabled ch state) (ch_enabled ch) = ch.
Proof. now destruct ch. Qed.

(** Either no channel of [l] has the index [n], or [l] splits at the
    first one that has. *)
Lemma first_index_split (n : Z) (l : list sr_channel) :
  Forall (fun c => ch_index c <> n) l
  \/ exists pre ch r,
       l = (pre ++ ch :: r)%list
       /\ Forall (fun c => ch_index c <> n) pre /\ ch_index ch = n.
Proof.
  induction l as [|c l IH]; [left; constructor|].
  destruct (Z.eq_dec (ch_index c) n) as [He|Hne].
  - right. exists [], c, l. repeat split; [constructor|exact He].
  - destruct IH as [H|(pre & ch & r & -> & Hpre & Hch)].
    + left. now constructor.
    + right. exists (c :: pre), ch, r.
      repeat split; [now constructor|exact Hch].
Qed.

Lemma name_set_loop_none (n : Z) (name : string) :
  forall l seen,
  Forall (fun c => ch_index c <> n) l ->
  name_set_loop seen l n name = (SR_ERR_ARG, (seen ++ l)%list).
Proof.
  induction l as [|c l IH]; intros seen H; cbn [name_set_loop].
  - now rewrite app_nil_r.
  - inversion H as [|? ? Hc Hl]; subst.
    rewrite (proj2 (Z.eqb_neq _ _) Hc), IH by assumption.
    now rewrite <- app_assoc.
Qed.

Lemma name_set_loop_found (n : Z) (name : string) ch r :
  forall pre seen,
  Forall (fun c => ch_index c <> n) pre -> ch_index ch = n ->
  name_set_loop seen (pre ++ ch :: r) n name
  = (SR_OK, (seen ++ pre ++ set_name ch name :: r)%list).
Proof.
  induction pre as [|c pre IH]; intros seen H Hch; cbn [name_set_loop app].
  - now rewrite (proj2 (Z.eqb_eq _ _) Hch).
  - inversion H as [|? ? Hc Hl]; subst.
    rewrite (proj2 (Z.eqb_neq _ _) Hc), IH by (assumption || reflexivity).
    now rewrite <- app_assoc.
Qed.

Lemma channel_enable_loop_none drv dev (n : Z) (state : bool) :
  forall l seen,
  Forall (fun c => ch_index c <> n) l ->
  channel_enable_loop drv dev seen l n state
  = (RET SR_ERR_ARG, (seen ++ l)%list).
Proof.
  induction l as [|c l IH]; intros seen H; cbn [channel_enable_loop].
  - now rewrite app_nil_r.
  - inversion H as [|? ? Hc Hl]; subst.
    rewrite (proj2 (Z.eqb_neq _ _) Hc), IH by assumption.
    now rewrite <- app_assoc.
Qed.

Lemma channel_enable_loop_found drv dev (n : Z) (state : bool) ch r :
  forall pre seen,
  Forall (fun c => ch_index c <> n) pre -> ch_index ch = n ->
  channel_enable_loop drv dev seen (pre ++ ch :: r) n state
  = enable_at drv dev (seen ++ pre) ch r state.
Proof.
  induction pre as [|c pre IH]; intros seen H Hch;
    cbn [channel_enable_loop app].
  - rewrite (proj2 (Z.eqb_eq _ _) Hch), app_nil_r. unfold enable_at.
    cbv zeta. rewrite set_enabled_back.
    destruct (xorb (negb state) (negb (ch_enabled ch))); [|reflexivity].
    destruct drv as [f|]; [|reflexivity].
    destruct (f _ _) as [[]|]; reflexivity.
  - inversion H as [|? ? Hc Hl]; subst.
    rewrite (proj2 (Z.eqb_neq _ _) Hc), IH by (assumption || reflexivity).
    now rewrite <- app_assoc.
Qed.

(** [sr_dev_channel_enable] split at the first channel with the index. *)
Lemma channel_enable_cases drv dev (n : Z) (state : bool) :
  (Forall (fun c => ch_index c <> n) (channels dev)
   /\ sr_dev_channel_enable drv (Some dev) n state
      = (RET SR_ERR_ARG, Some dev))
  \/ exists pre ch r,
       channels dev = (pre ++ ch :: r)%list
       /\ Forall (fun c => ch_index c <> n) pre /\ ch_index ch = n
       /\ sr_dev_channel_enable drv (Some dev) n state
          = (fst (enable_at drv dev pre ch r state),
             Some (set_channels dev (snd (enable_at drv dev pre ch r state)))).
Proof.
  unfold sr_dev_channel_enable.
  destruct (first_index_split n (channels dev))
    as [H|(pre & ch & r & Heq & Hpre & Hch)].
  - left. split; [exact H|].
    rewrite channel_enable_loop_none by exact H.
    cbn [app]. now rewrite set_channels_same.
  - right. exists pre, ch, r. repeat split; try assumption.
    rewrite Heq, channel_enable_loop_found by assumption.
    cbn [app]. now destruct (enable_at drv dev pre ch r state).
Qed.

(** X14.  The contract of [sr_dev_channel_enable] on invalid arguments: when
    the call returns [SR_ERR_ARG], because no channel has the index or
    because the driver refused the change, the device is as before, the
    enabled state of every channel included. *)
Theorem channel_enable_err_arg_unchanged
    (drv : option (sr_dev_inst -> sr_channel -> sr_ret))
    (dev dev' : sr_dev_inst) (n : Z) (state : bool) :
  sr_dev_channel_enable drv (Some dev) n state
  = (RET SR_ERR_ARG, Some dev') ->
  dev' = dev.
Proof.
  intros H.
  destruct (channel_enable_cases drv dev n state)
    as [[_ Hc]|(pre & ch & r & Heq & Hpre & Hch & Hc)];
    rewrite Hc in H.
  - now injection H.
  - injection H as Hret Hdev. subst dev'. unfold enable_at in *.
    cbv zeta in *.
    destruct (xorb (negb state) (negb (ch_enabled ch)));
      [|discriminate Hret].
    destruct drv as [f|]; [|discriminate Hret].
    destruct (f _ _) as [[]|]; try discriminate Hret.
    cbn [snd]. rewrite <- Heq. apply set_channels_same.
Qed.

Lemma channel_enable_err_arg_unchanged_witness :
  sr_dev_channel_enable
    (Some (fun _ ch => if ch_index ch =? 3 then RET SR_ERR_ARG
                       else RET SR_OK))
    (Some ex_dev) 3 true
  = (RET SR_ERR_ARG, Some ex_dev)
  /\ ex_dev = ex_dev.
Proof.
  split; [reflexivity|].
  exact (channel_enable_err_arg_unchanged
           (Some (fun _ ch => if ch_index ch =? 3 then RET SR_ERR_ARG
                              else RET SR_OK))
           ex_dev ex_dev 3 true eq_refl).
Defined.

(** X15.  The effect of [sr_dev_channel_enable].  When the call returns
    anything but [SR_ERR_ARG], the first channel with the index has the
    requested state and nothing else of the device has changed; this
    holds as well when the driver answered an error other than
    [SR_ERR_ARG].  The code is [SR_OK] unless the state changed and the
    driver was asked, and then it is the driver's answer. *)
Theorem channel_enable_effect
    (drv : option (sr_dev_inst -> sr_channel -> sr_ret))
    (dev dev' : sr_dev_inst) (n : Z) (state : bool) (ret : sr_ret) :
  sr_dev_channel_enable drv (Some dev) n state = (ret, Some dev') ->
  ret <> RET SR_ERR_ARG ->
  exists pre ch r,
    channels dev = (pre ++ ch :: r)%list
    /\ Forall (fun c => ch_index c <> n) pre /\ ch_index ch = n
    /\ dev' = set_channels dev (pre ++ set_enabled ch state :: r)%list
    /\ (ret = RET SR_OK
        \/ exists f, drv = Some f /\ ch_enabled ch <> state
                     /\ ret = f dev' (set_enabled ch state)).
Proof.
  intros H Hret.
  destruct (channel_enable_cases drv dev n state)
    as [[_ Hc]|(pre & ch & r & Heq & Hpre & Hch & Hc)];
    rewrite Hc in H.
  - injection H as <- _. now contradiction Hret.
  - exists pre, ch, r. injection H as Hr Hdev. subst ret dev'.
    unfold enable_at in *. cbv zeta in *.
    destruct (xorb (negb state) (negb (ch_enabled ch))) eqn:Hx.
    + destruct drv as [f|]; [|now repeat split; try left].
      destruct (f _ _) as [[]|] eqn:Hf; cbn [fst snd] in *;
        try (now contradiction Hret);
        (repeat split; try assumption; right; exists f;
         repeat split; [|now rewrite Hf];
         intros He; rewrite He in Hx; now destruct state).
    + now repeat split; try left.
Qed.

Lemma channel_enable_effect_witness :
  exists pre ch r,
    channels ex_dev = (pre ++ ch :: r)%list
    /\ Forall (fun c => ch_index c <> 3) pre /\ ch_index ch = 3
    /\ set_channels ex_dev
         [mk_channel 0 SR_CHANNEL_LOGIC true "A";
          mk_channel 2 SR_CHANNEL_ANALOG true "X";
          mk_channel 1 SR_CHANNEL_LOGIC true "B";
          mk_channel 3 SR_CHANNEL_LOGIC true "C"]
       = set_channels ex_dev (pre ++ set_enabled ch true :: r)%list
    /\ (RET_INT (-1) = RET SR_OK
        \/ exists f,
             Some (fun (_ : sr_dev_inst) (_ : sr_channel) => RET_INT (-1))
             = Some f
             /\ ch_enabled ch <> true
             /\ RET_INT (-1)
                = f (set_channels ex_dev
                       [mk_channel 0 SR_CHANNEL_LOGIC true "A";
                        mk_channel 2 SR_CHANNEL_ANALOG true "X";
                        mk_channel 1 SR_CHANNEL_LOGIC true "B";
                        mk_channel 3 SR_CHANNEL_LOGIC true "C"])
                    (set_enabled ch true)).
Proof.
  apply (channel_enable_effect (Some (fun _ _ => RET_INT (-1))) ex_dev _ 3
           true (RET_INT (-1)) eq_refl).
  discriminate.
Defined.

(** ** The channels [init] selects after a channel was changed *)

Lemma distinct_indexes_split pre ch r :
  NoDup (map ch_index (pre ++ ch :: r)) ->
  Forall (fun c => ch_index c <> ch_index ch) pre
  /\ Forall (fun c => ch_index c <> ch_index ch) r.
Proof.
  induction pre as [|c pre IH]; cbn [app map]; intros H;
    apply NoDup_cons in H as [Hin Hnd].
  - split; [constructor|]. apply List.Forall_forall. intros c Hc He.
    apply Hin. rewrite <- He. apply list_elem_of_In. now apply in_map.
  - destruct (IH Hnd) as [Hp Hr]. split; [|exact Hr].
    constructor; [|exact Hp]. intros He. apply Hin. rewrite He.
    apply list_elem_of_In, in_map, in_or_app. right. now left.
Qed.

(** Changing the first channel with the index [n] by [g], on a list of
    distinct indexes, is changing every channel with that index. *)
Lemma change_first_all (g : sr_channel -> sr_channel) (n : Z) pre ch r :
  NoDup (map ch_index (pre ++ ch :: r)) -> ch_index ch = n ->
  (pre ++ g ch :: r)%list
  = map (fun c => if ch_index c =? n then g c else c) (pre ++ ch :: r).
Proof.
  intros Hnd Hch. destruct (distinct_indexes_split pre ch r Hnd) as [Hp Hr].
  rewrite Hch in Hp, Hr.
  assert (Hext : forall l, Forall (fun c => ch_index c <> n) l ->
            map (fun c => if ch_index c =? n then g c else c) l = l).
  { intros l Hl. rewrite <- (List.map_id l) at 2.
    apply List.map_ext_in. intros c Hc.
    rewrite List.Forall_forall in Hl.
    now rewrite (proj2 (Z.eqb_neq _ _) (Hl c Hc)). }
  rewrite List.map_app. cbn [map].
  rewrite (proj2 (Z.eqb_eq _ _) Hch), (Hext pre Hp), (Hext r Hr).
  reflexivity.
Qed.

Lemma length_filter_le {A : Type} (f : A -> bool) (l : list A) :
  (length (List.filter f l) <= length l)%nat.
Proof.
  induction l as [|a l IH]; cbn; [lia|]. destruct (f a); cbn; lia.
Qed.

Lemma enable_at_kept drv dev pre ch r (state : bool) :
  fst (enable_at drv dev pre ch r state) <> RET SR_ERR_ARG ->
  snd (enable_at drv dev pre ch r state)
  = (pre ++ set_enabled ch state :: r)%list.
Proof.
  unfold enable_at. cbv zeta.
  destruct (xorb (negb state) (negb (ch_enabled ch))); [|reflexivity].
  destruct drv as [f|]; [|reflexivity].
  destruct (f _ _) as [[]|]; cbn [fst snd]; intros H;
    reflexivity || now contradiction H.
Qed.

(** X16.  Enabling or disabling a channel, then [init].  After
    [sr_dev_channel_enable] returned anything but [SR_ERR_ARG] on a
    device whose channels have distinct indexes, [init] on that device
    selects the enabled logic channels with channel [n] taken in the
    requested state: a disabled channel gets no line, an enabled logic
    channel gets one, at its place in the device's order. *)
Theorem channel_enable_then_init (banner : string) (rate : Z -> string)
    (drv : option (sr_dev_inst -> sr_channel -> sr_ret))
    (o : sr_output) (dev dev' : sr_dev_inst) (n : Z) (state : bool)
    (ret : sr_ret) :
  sr_dev_channel_enable drv (Some dev) n state = (ret, Some dev') ->
  ret <> RET SR_ERR_ARG ->
  NoDup (map ch_index (channels dev)) ->
  Z.of_nat (length (channels dev)) < UINT_MOD ->
  sdi o = Some dev' -> 1 <= line_width (param o) ->
  let sel :=
    List.filter selected
      (map (fun c => if ch_index c =? n then set_enabled c state else c)
         (channels dev)) in
  exists hd,
    init banner rate (Some o)
    = (SR_OK,
       Some (set_internal o
               (Some (mk_context (Z.of_nat (length sel))
                        (line_width (param o)) 0 0 (-1)
                        (map ch_index sel) (map ch_name sel)
                        (replicate (length sel) 0)
                        (seed_lines (map ch_name sel)) (Some hd))))).
Proof.
  intros H Hret Hnd Hmax Hsdi Hw sel.
  destruct (channel_enable_cases drv dev n state)
    as [[_ Hc]|(pre & ch & r & Heq & Hpre & Hch & Hc)];
    rewrite Hc in H.
  - injection H as <- _. now contradiction Hret.
  - injection H as Hr Hdev. subst ret.
    rewrite enable_at_kept in Hdev by exact Hret.
    rewrite Heq in Hnd.
    rewrite (change_first_all (fun c => set_enabled c state) n pre ch r
               Hnd Hch), <- Heq in Hdev.
    assert (Hsel : selection dev' = sel) by now subst dev'.
    rewrite <- Hsel. apply init_context; try assumption.
    pose proof (length_filter_le selected (channels dev')) as Hle.
    unfold selection. subst dev'. cbn [channels set_channels] in *.
    rewrite List.length_map in Hle. lia.
Qed.

Lemma ex_dev_distinct : NoDup (map ch_index (channels ex_dev)).
Proof.
  apply (bool_decide_unpack _). vm_compute. exact I.
Qed.

Lemma channel_enable_then_init_witness :
  exists hd,
    init ex_banner ex_rate
      (Some (mk_output
               (Some (set_channels ex_dev
                        [mk_channel 0 SR_CHANNEL_LOGIC false "A";
                         mk_channel 2 SR_CHANNEL_ANALOG true "X";
                         mk_channel 1 SR_CHANNEL_LOGIC true "B";
                         mk_channel 3 SR_CHANNEL_LOGIC false "C"]))
               (Some "8") None))
    = (SR_OK,
       Some (mk_output
               (Some (set_channels ex_dev
                        [mk_channel 0 SR_CHANNEL_LOGIC false "A";
                         mk_channel 2 SR_CHANNEL_ANALOG true "X";
                         mk_channel 1 SR_CHANNEL_LOGIC true "B";
                         mk_channel 3 SR_CHANNEL_LOGIC false "C"]))
               (Some "8")
               (Some (mk_context 1 8 0 0 (-1) [1] ["B"] [0] ["B:"]
                        (Some hd))))).
Proof.
  refine (channel_enable_then_init ex_banner ex_rate None
            (mk_output _ (Some "8") None) ex_dev _ 0 false (RET SR_OK)
            eq_refl _ ex_dev_distinct _ eq_refl _).
  - discriminate.
  - vm_compute. reflexivity.
  - vm_compute. discriminate.
Defined.

(** ** Naming a channel *)

Lemma name_set_cases dev (n : Z) (name : string) :
  (Forall (fun c => ch_index c <> n) (channels dev)
   /\ sr_dev_channel_name_set (Some dev) n name = (SR_ERR_ARG, Some dev))
  \/ exists pre ch r,
       channels dev = (pre ++ ch :: r)%list
       /\ Forall (fun c => ch_index c <> n) pre /\ ch_index ch = n
       /\ sr_dev_channel_name_set (Some dev) n name
          = (SR_OK, Some (set_channels dev (pre ++ set_name ch name :: r))).
Proof.
  unfold sr_dev_channel_name_set.
  destruct (first_index_split n (channels dev))
    as [H|(pre & ch & r & Heq & Hpre & Hch)].
  - left. split; [exact H|].
    rewrite name_set_loop_none by exact H.
    cbn [app]. now rewrite set_channels_same.
  - right. exists pre, ch, r. repeat split; try assumption.
    rewrite Heq, name_set_loop_found by assumption. reflexivity.
Qed.

Lemma name_set_loop_find (n : Z) (name : string) :
  forall l seen,
  name_set_loop seen l n name
  = match list_find (fun c => ch_index c = n) l with
    | Some (j, ch) => (SR_OK, (seen ++ <[j:=set_name ch name]> l)%list)
    | None => (SR_ERR_ARG, (seen ++ l)%list)
    end.
Proof.
  induction l as [|c l IH]; intros seen; cbn [name_set_loop list_find].
  - now rewrite app_nil_r.
  - destruct (decide (ch_index c = n)) as [He|Hne].
    + now rewrite (proj2 (Z.eqb_eq _ _) He).
    + rewrite (proj2 (Z.eqb_neq _ _) Hne), IH.
      destruct (list_find _ l) as [[j ch]|]; cbn [fmap option_fmap option_map
        prod_map fst snd id]; now rewrite <- app_assoc.
Qed.

(** X17.  [sr_dev_channel_name_set] names the first channel that has the
    index and touches nothing else: no other channel, and of that
    channel neither the index, the type nor the enabled state.  When no
    channel has the index it returns [SR_ERR_ARG] and the device is as
    before. *)
Theorem channel_name_set_first (dev : sr_dev_inst) (n : Z) (name : string) :
  sr_dev_channel_name_set (Some dev) n name
  = match list_find (fun c => ch_index c = n) (channels dev) with
    | Some (j, ch) =>
        (SR_OK,
         Some (set_channels dev
                 (<[j:=mk_channel (ch_index ch) (ch_type ch) (ch_enabled ch)
                         name]> (channels dev))))
    | None => (SR_ERR_ARG, Some dev)
    end.
Proof.
  unfold sr_dev_channel_name_set. rewrite name_set_loop_find.
  destruct (list_find _ (channels dev)) as [[j ch]|]; cbn [app];
    [reflexivity|]. now rewrite set_channels_same.
Qed.

Lemma filter_map_comm {A B : Type} (f : B -> bool) (g : A -> B) (l : list A) :
  List.filter f (map g l) = map g (List.filter (fun a => f (g a)) l).
Proof.
  induction l as [|a l IH]; cbn; [reflexivity|].
  rewrite IH. now destruct (f (g a)).
Qed.

(** X18.  Naming a channel, then [init].  After [sr_dev_channel_name_set]
    returned [SR_OK] on a device whose channels have distinct indexes,
    [init] on that device selects the same channels as before, and the
    line of channel [n], if it is selected, is labelled with the new
    name. *)
Theorem channel_name_set_then_init (banner : string) (rate : Z -> string)
    (o : sr_output) (dev dev' : sr_dev_inst) (n : Z) (name : string) :
  sr_dev_channel_name_set (Some dev) n name = (SR_OK, Some dev') ->
  NoDup (map ch_index (channels dev)) ->
  Z.of_nat (length (channels dev)) < UINT_MOD ->
  sdi o = Some dev' -> 1 <= line_width (param o) ->
  let sel := selection dev in
  let names :=
    map (fun c => if ch_index c =? n then name else ch_name c) sel in
  exists hd,
    init banner rate (Some o)
    = (SR_OK,
       Some (set_internal o
               (Some (mk_context (Z.of_nat (length sel))
                        (line_width (param o)) 0 0 (-1)
                        (map ch_index sel) names
                        (replicate (length sel) 0)
                        (seed_lines names) (Some hd))))).
Proof.
  intros H Hnd Hmax Hsdi Hw sel names.
  destruct (name_set_cases dev n name)
    as [[_ Hc]|(pre & ch & r & Heq & Hpre & Hch & Hc)];
    rewrite Hc in H; [discriminate H|].
  injection H as Hdev. rewrite Heq in Hnd.
  rewrite (change_first_all (fun c => set_name c name) n pre ch r Hnd Hch),
    <- Heq in Hdev.
  assert (Hsel : selection dev'
                 = map (fun c => if ch_index c =? n then set_name c name
                                 else c) sel).
  { subst dev'. unfold selection. cbn [channels set_channels].
    rewrite filter_map_comm. f_equal. apply List.filter_ext. intros c.
    now destruct (ch_index c =? n). }
  assert (Hidx : map ch_index (selection dev') = map ch_index sel).
  { rewrite Hsel, List.map_map. apply List.map_ext. intros c.
    now destruct (ch_index c =? n). }
  assert (Hnm : map ch_name (selection dev') = names).
  { rewrite Hsel, List.map_map. apply List.map_ext. intros c.
    now destruct (ch_index c =? n). }
  assert (Hlen : length (selection dev') = length sel)
    by now rewrite Hsel, List.length_map.
  rewrite <- Hidx, <- Hnm, <- Hlen. apply init_context; try assumption.
  rewrite Hlen. pose proof (length_filter_le selected (channels dev)) as Hle.
  subst sel. unfold selection. lia.
Qed.

Lemma channel_name_set_then_init_witness :
  exists hd,
    init ex_banner ex_rate
      (Some (mk_output
               (Some (set_channels ex_dev
                        [mk_channel 0 SR_CHANNEL_LOGIC true "A";
                         mk_channel 2 SR_CHANNEL_ANALOG true "X";
                         mk_channel 1 SR_CHANNEL_LOGIC true "CLK";
                         mk_channel 3 SR_CHANNEL_LOGIC false "C"]))
               (Some "8") None))
    = (SR_OK,
       Some (mk_output
               (Some (set_channels ex_dev
                        [mk_channel 0 SR_CHANNEL_LOGIC true "A";
                         mk_channel 2 SR_CHANNEL_ANALOG true "X";
                         mk_channel 1 SR_CHANNEL_LOGIC true "CLK";
                         mk_channel 3 SR_CHANNEL_LOGIC false "C"]))
               (Some "8")
               (Some (mk_context 2 8 0 0 (-1) [0; 1] ["A"; "CLK"] [0; 0]
                        ["A:"; "CLK:"] (Some hd))))).
Proof.
  refine (channel_name_set_then_init ex_banner ex_rate
            (mk_output _ (Some "8") None) ex_dev _ 1 "CLK"
            eq_refl ex_dev_distinct _ eq_refl _).
  - vm_compute. reflexivity.
  - vm_compute. discriminate.
Defined.

(** ** The options of a device *)

(** X19.  [sr_dev_has_option] answers [TRUE] exactly when the device and the
    driver callback are there, the driver lists its options with
    [SR_OK], and the key is among them; a device without a driver has no
    option. *)
Theorem has_option_listed
    (drv : option (sr_dev_inst -> option (list Z)))
    (sdi : option sr_dev_inst) (key : Z) :
  sr_dev_has_option drv sdi key = true
  <-> exists dev f devopts,
        sdi = Some dev /\ drv = Some f /\ f dev = Some devopts
        /\ In key devopts.
Proof.
  assert (Hloop : forall l, has_option_loop l key = true <-> In key l).
  { induction l as [|d l IH]; cbn [has_option_loop In]; [easy|].
    destruct (Z.eqb_spec d key) as [He|Hne]; [tauto|].
    rewrite IH. tauto. }
  unfold sr_dev_has_option. split.
  - destruct sdi as [dev|], drv as [f|]; try discriminate.
    destruct (f dev) as [devopts|] eqn:Hf; [|discriminate].
    intros H. exists dev, f, devopts. repeat split; try assumption.
    now apply Hloop.
  - intros (dev & f & devopts & -> & -> & Hf & Hin). rewrite Hf.
    now apply Hloop.
Qed.

(** * Reading a line back *)

Lemma fmt_02x_byte (b0 b1 b2 b3 b4 b5 b6 b7 : bool) :
  fmt_02x (bits_value [b0; b1; b2; b3; b4; b5; b6; b7])
  = String (hex_digit (bits_value [b0; b1; b2; b3]))
      (String (hex_digit (bits_value [b4; b5; b6; b7])) "").
Proof.
  destruct b0, b1, b2, b3, b4, b5, b6, b7; vm_compute; reflexivity.
Qed.

Lemma unhex_hex_digit (b0 b1 b2 b3 : bool) :
  unhex (hex_digit (bits_value [b0; b1; b2; b3]))
  = Some (bits_value [b0; b1; b2; b3]).
Proof.
  destruct b0, b1, b2, b3; vm_compute; reflexivity.
Qed.

Lemma byte_bits_value (b0 b1 b2 b3 b4 b5 b6 b7 : bool) :
  byte_bits (16 * bits_value [b0; b1; b2; b3] + bits_value [b4; b5; b6; b7])
  = [b0; b1; b2; b3; b4; b5; b6; b7].
Proof.
  destruct b0, b1, b2, b3, b4, b5, b6, b7; vm_compute; reflexivity.
Qed.

Lemma read_bits_byte (b0 b1 b2 b3 b4 b5 b6 b7 : bool) (rest : string) :
  read_bits (fmt_02x (bits_value [b0; b1; b2; b3; b4; b5; b6; b7]) ++ " "
             ++ rest)
  = option_map (app [b0; b1; b2; b3; b4; b5; b6; b7]) (read_bits rest).
Proof.
  rewrite fmt_02x_byte. unfold read_bits. cbn [append read_bytes].
  rewrite !unhex_hex_digit.
  destruct (read_bytes rest) as [l|]; [|reflexivity].
  cbn [Ascii.eqb Bool.eqb option_map map concat].
  now rewrite byte_bits_value.
Qed.

(** The text of [k] bytes of a channel reads back as the channel's bits
    in the [8 * k] samples it was rendered from. *)
Lemma read_bits_hex_bytes (k : nat) logic idx :
  forall i,
  read_bits (hex_bytes k logic i idx)
  = Some (map (fun s => sample_bit logic (i + Z.of_nat s * unitsize logic) idx)
            (seq 0 (8 * k))).
Proof.
  induction k as [|k IH]; intros i; [reflexivity|].
  cbn [hex_bytes]. unfold eight_bits. cbn [map].
  rewrite read_bits_byte, IH. cbn [option_map]. f_equal.
  replace (8 * S k)%nat with (8 + 8 * k)%nat by lia.
  rewrite List.seq_app, List.map_app. apply (f_equal2 (@app bool)).
  - reflexivity.
  - cbn [Nat.add]. rewrite <- !List.seq_shift, !List.map_map.
    apply List.map_ext. intros s. f_equal. lia.
Qed.

Lemma Forall2_map_self {A B : Type} (R : A -> B -> Prop) (f : A -> B)
    (l : list A) :
  (forall a, R a (f a)) -> Forall2 R l (map f l).
Proof.
  intros H. induction l as [|a l IH]; cbn [map]; constructor; auto.
Qed.

Lemma zip_with_bodies (body : Z -> string) :
  forall (idxs : list Z) (names : list string),
  length names = length idxs ->
  zip_with (fun idx ln => ln ++ body idx) idxs (seed_lines names)
  = zip_with (fun name b => seed_line name ++ b) names (map body idxs).
Proof.
  induction idxs as [|idx idxs IH]; intros [|name names] H;
    try discriminate H; [reflexivity|].
  cbn [seed_lines map zip_with]. f_equal. apply IH. now injection H.
Qed.

(** X20.  Round trip of a whole line.  With a line width that is a multiple
    of 8, a batch of exactly one line of samples received at the start of
    a line comes out as the pending header, one terminated line
    ["<name>:<body>"] per selected channel, and the caret line if one is
    due; and every body, read back as hex bytes with the highest bit
    first, is exactly the bits of that channel in the samples of the
    batch, in their order. *)
Theorem whole_line_reads_back (fuel : nat) (o : sr_output)
    (dev : sr_dev_inst) (ctx : context) (logic : sr_datafeed_logic)
    (k : nat) :
  sdi o = Some dev -> internal o = Some ctx ->
  ready ctx -> channels_fit logic ctx -> holds_sample logic ->
  sample_count logic = (8 * S k)%nat -> (sample_count logic <= fuel)%nat ->
  spl_cnt ctx = 0 -> samples_per_line ctx = 8 * Z.of_nat (S k) ->
  lines ctx = seed_lines (channel_names ctx) ->
  exists (r : receive_result) (bodies : list string),
    receive fuel (Some o) (SR_DF_LOGIC logic) = Done r
    /\ status r = SR_OK
    /\ chunk r
       = Some (default "" (header ctx)
               ++ flush_text
                    (zip_with (fun name body => seed_line name ++ body)
                       (channel_names ctx) bodies)
               ++ (if caret_due ctx then caret_line (trigger ctx) else ""))
    /\ Forall2
         (fun idx body =>
            read_bits body = Some (channel_bits logic idx (8 * S k)))
         (channel_index ctx) bodies.
Proof.
  intros Hsdi Hint Hrdy Hfit Hpk Hcnt Hfuel Hz Hw Hlns.
  rewrite (receive_logic_closed fuel o dev ctx logic) by assumption.
  rewrite Hcnt. cbv zeta.
  rewrite whole_line;
    [|now apply ready_drop_header
     |cbn [spl_cnt set_header]; now rewrite Hz
     |cbn [spl_cnt samples_per_line set_header]; lia].
  cbn [fst snd channel_index lines set_header].
  eexists. exists (map (hex_bytes (S k) logic 0) (channel_index ctx)).
  split; [reflexivity|]. split; [reflexivity|]. cbn [chunk]. split.
  - rewrite Hlns, zip_with_bodies by apply Hrdy. reflexivity.
  - apply Forall2_map_self. intros idx.
    exact (read_bits_hex_bytes (S k) logic idx 0).
Qed.

Lemma whole_line_reads_back_witness :
  exists (r : receive_result) (bodies : list string),
    receive 16 (Some ex_output16) (SR_DF_LOGIC ex_logic16) = Done r
    /\ status r = SR_OK
    /\ chunk r
       = Some (""
               ++ flush_text
                    (zip_with (fun name body => seed_line name ++ body)
                       ["A"; "B"] bodies)
               ++ "")
    /\ Forall2
         (fun idx body =>
            read_bits body = Some (channel_bits ex_logic16 idx 16))
         [0; 1] bodies.
Proof.
  exact (whole_line_reads_back 16 ex_output16 ex_dev ex_context16 ex_logic16
           1 eq_refl eq_refl ex_context16_ready ex_logic16_fit
           ex_logic16_holds eq_refl (le_n 16) eq_refl eq_refl eq_refl).
Defined.

(** * A stream cut into packets *)

Lemma step_shift l1 l2 i1 i2 ctx :
  Forall (fun idx => sample_bit l1 i1 idx = sample_bit l2 i2 idx)
    (channel_index ctx) ->
  step_context l1 i1 ctx = step_context l2 i2 ctx
  /\ step_text l1 i1 ctx = step_text l2 i2 ctx.
Proof.
  intros H. unfold step_context, step_text.
  assert (Hb : forall cnt bufs,
             step_bufs cnt l1 i1 (channel_index ctx) bufs
             = step_bufs cnt l2 i2 (channel_index ctx) bufs).
  { intros cnt. induction H as [|idx idxs Hb _ IH]; intros [|buf bufs];
      cbn [step_bufs]; try reflexivity. now rewrite Hb, IH. }
  assert (Hl : forall cnt bufs lns,
             full_lines cnt l1 i1 (channel_index ctx) bufs lns
             = full_lines cnt l2 i2 (channel_index ctx) bufs lns).
  { clear Hb. intros cnt. induction H as [|idx idxs Hx _ IH];
      intros [|buf bufs] [|ln lns]; cbn [full_lines]; try reflexivity.
    now rewrite Hx, IH. }
  now rewrite Hb, Hl.
Qed.

(** Passes over two packets that show the same bits to the selected
    channels, sample for sample, do the same. *)
Lemma run_samples_shift l1 l2 :
  unitsize l1 = unitsize l2 ->
  forall (k : nat) i1 i2 ctx out,
  (forall (s : nat) idx,
     (s < k)%nat -> In idx (channel_index ctx) ->
     sample_bit l1 (i1 + Z.of_nat s * unitsize l1) idx
     = sample_bit l2 (i2 + Z.of_nat s * unitsize l1) idx) ->
  run_samples k l1 i1 (ctx, out) = run_samples k l2 i2 (ctx, out).
Proof.
  intros Hu. induction k as [|k IH]; intros i1 i2 ctx out H;
    cbn [run_samples fst snd]; [reflexivity|].
  destruct (step_shift l1 l2 i1 i2 ctx) as [-> ->].
  - apply List.Forall_forall. intros idx Hin.
    specialize (H 0%nat idx (Nat.lt_0_succ k) Hin).
    change (Z.of_nat 0) with 0 in H.
    now rewrite Z.mul_0_l, !Z.add_0_r in H.
  - rewrite <- Hu. apply IH. intros s idx Hs Hin.
    specialize (H (S s) idx (proj1 (Nat.succ_lt_mono s k) Hs) Hin).
    rewrite Nat2Z.inj_succ in H.
    replace (i1 + unitsize l1 + Z.of_nat s * unitsize l1)
      with (i1 + Z.succ (Z.of_nat s) * unitsize l1) by lia.
    replace (i2 + unitsize l1 + Z.of_nat s * unitsize l1)
      with (i2 + Z.succ (Z.of_nat s) * unitsize l1) by lia.
    exact H.
Qed.

Lemma run_samples_index logic k :
  forall i ctx out,
  channel_index (fst (run_samples k logic i (ctx, out))) = channel_index ctx.
Proof.
  induction k as [|k IH]; intros i ctx out; cbn [run_samples fst snd];
    [reflexivity|]. now rewrite IH.
Qed.

Lemma sample_bit_app_l (u : Z) (d1 d2 : list Z) i idx :
  0 <= idx < 8 * u -> 0 <= i -> i + u <= Z.of_nat (length d1) ->
  sample_bit (mk_logic u (d1 ++ d2)) i idx = sample_bit (mk_logic u d1) i idx.
Proof.
  intros Hidx Hi Hlen. unfold sample_bit. cbn [data].
  rewrite lookup_app_l; [reflexivity|].
  rewrite Z.quot_div_nonneg by lia.
  assert (idx / 8 < u) by (apply Z.div_lt_upper_bound; lia).
  pose proof (Z.div_pos idx 8). lia.
Qed.

Lemma sample_bit_app_r (u : Z) (d1 d2 : list Z) i idx :
  0 <= idx -> 0 <= i ->
  sample_bit (mk_logic u (d1 ++ d2)) (Z.of_nat (length d1) + i) idx
  = sample_bit (mk_logic u d2) i idx.
Proof.
  intros Hidx Hi. unfold sample_bit. cbn [data].
  rewrite Z.quot_div_nonneg by lia.
  pose proof (Z.div_pos idx 8 Hidx ltac:(lia)) as Hq.
  replace (Z.to_nat (Z.of_nat (length d1) + i + idx / 8))
    with (length d1 + Z.to_nat (i + idx / 8))%nat by lia.
  rewrite lookup_app_r by lia.
  replace (length d1 + Z.to_nat (i + idx / 8) - length d1)%nat
    with (Z.to_nat (i + idx / 8)) by lia.
  reflexivity.
Qed.

Lemma set_header_same ctx : header ctx = None -> set_header ctx None = ctx.
Proof. destruct ctx. cbn. now intros ->. Qed.

(** X21.  Cutting a stream at a sample boundary.  A sample batch may be
    handed to [receive] in two packets, cut after any whole number of
    samples: the two chunks, one after the other, are the chunk of the
    uncut batch, and the encoder is left in the same state.  The header
    goes out with the first chunk. *)
Theorem receive_split (fuel : nat) (o : sr_output) (dev : sr_dev_inst)
    (ctx : context) (u : Z) (d1 d2 : list Z) (a : nat) :
  sdi o = Some dev -> internal o = Some ctx -> ready ctx ->
  channels_fit (mk_logic u d1) ctx ->
  Z.of_nat (length d1) = Z.of_nat (S a) * u ->
  holds_sample (mk_logic u d2) ->
  Z.of_nat (length (d1 ++ d2)) < UINT64_MOD ->
  (sample_count (mk_logic u (d1 ++ d2)) <= fuel)%nat ->
  exists (o1 o2 : sr_output) (c1 c2 : string),
    receive fuel (Some o) (SR_DF_LOGIC (mk_logic u d1))
    = Done (mk_result SR_OK (Some o1) (Some c1))
    /\ receive fuel (Some o1) (SR_DF_LOGIC (mk_logic u d2))
       = Done (mk_result SR_OK (Some o2) (Some c2))
    /\ receive fuel (Some o) (SR_DF_LOGIC (mk_logic u (d1 ++ d2)))
       = Done (mk_result SR_OK (Some o2) (Some (c1 ++ c2))).
Proof.
  intros Hsdi Hint Hrdy Hfit Hd1 Hd2 Hmax Hfuel.
  set (l1 := mk_logic u d1) in *. set (l2 := mk_logic u d2) in *.
  set (l12 := mk_logic u (d1 ++ d2)) in *.
  pose proof Hd2 as [[Hu Hul] Hl2]. cbn [unitsize l2] in Hu.
  unfold logic_length in Hul, Hl2. cbn [data unitsize l2] in Hul, Hl2.
  rewrite length_app, Nat2Z.inj_add in Hmax.
  assert (Hh1 : holds_sample l1).
  { unfold holds_sample, logic_length. cbn [data unitsize l1]. nia. }
  assert (Hh12 : holds_sample l12).
  { unfold holds_sample, logic_length. cbn [data unitsize l12].
    rewrite length_app, Nat2Z.inj_add. nia. }
  assert (Hc1 : sample_count l1 = S a).
  { unfold sample_count, logic_length. cbn [data unitsize l1].
    rewrite Hd1, Z.div_mul by lia. apply Nat2Z.id. }
  assert (Hc12 : sample_count l12 = (S a + sample_count l2)%nat).
  { unfold sample_count, logic_length. cbn [data unitsize l12 l2].
    rewrite length_app, Nat2Z.inj_add, Hd1, Z.div_add_l by lia.
    pose proof (Z.div_pos (Z.of_nat (length d2)) u). lia. }
  set (c := set_header ctx None). set (hdr := default "" (header ctx)).
  assert (Hrc : ready c) by now apply ready_set_header.
  set (st1 := run_samples (S a) l1 0 (c, hdr)).
  assert (Hr1 : ready (fst st1)) by now apply run_samples_ready.
  assert (Hh : header (fst st1) = None)
    by (unfold st1; now rewrite run_samples_header).
  assert (Hi1 : channel_index (fst st1) = channel_index ctx)
    by (unfold st1; now rewrite run_samples_index).
  set (st2 := run_samples (sample_count l2) l2 0 (fst st1, "")).
  exists (set_internal o (Some (fst st1))),
    (set_internal o (Some (fst st2))), (snd st1), (snd st2).
  split; [|split].
  - rewrite (receive_logic_closed fuel o dev ctx l1); try assumption; [|lia].
    now rewrite Hc1.
  - rewrite (receive_logic_closed fuel _ dev (fst st1) l2);
      try assumption; try reflexivity; [|unfold channels_fit; now rewrite Hi1
                                        |lia].
    cbv zeta. rewrite Hh, set_header_same by exact Hh. reflexivity.
  - rewrite (receive_logic_closed fuel o dev ctx l12); try assumption.
    cbv zeta. rewrite Hc12, run_samples_add. fold c hdr.
    rewrite (run_samples_shift l12 l1 eq_refl (S a) 0 0 c hdr).
    + fold st1. rewrite (surjective_pairing st1).
      rewrite (run_samples_shift l12 l2 eq_refl (sample_count l2)
                 (0 + Z.of_nat (S a) * unitsize l12) 0 (fst st1) (snd st1)).
      * rewrite run_samples_out. fold st2. reflexivity.
      * intros s idx _ Hin. rewrite Hi1 in Hin. cbn [unitsize l12].
        rewrite Z.add_0_l, <- Hd1.
        unfold channels_fit in Hfit. rewrite List.Forall_forall in Hfit.
        apply sample_bit_app_r; [apply (Hfit idx Hin)|lia].
    + intros s idx Hs Hin. cbn [unitsize l12].
      unfold channels_fit in Hfit. rewrite List.Forall_forall in Hfit.
      apply sample_bit_app_l; [apply (Hfit idx Hin)|lia|nia].
Qed.

Lemma receive_split_witness :
  exists (o1 o2 : sr_output) (c1 c2 : string),
    receive 16 (Some ex_output16) (SR_DF_LOGIC (mk_logic 1 [1; 1; 3]))
    = Done (mk_result SR_OK (Some o1) (Some c1))
    /\ receive 16 (Some o1)
         (SR_DF_LOGIC (mk_logic 1 [0; 0; 0; 2; 1; 2; 2; 2; 2; 1; 1; 1; 1]))
       = Done (mk_result SR_OK (Some o2) (Some c2))
    /\ receive 16 (Some ex_output16) (SR_DF_LOGIC ex_logic16)
       = Done (mk_result SR_OK (Some o2) (Some (c1 ++ c2))).
Proof.
  refine (receive_split 16 ex_output16 ex_dev ex_context16 1 [1; 1; 3]
            [0; 0; 0; 2; 1; 2; 2; 2; 2; 1; 1; 1; 1] 2
            eq_refl eq_refl ex_context16_ready _ eq_refl _ _ (le_n 16)).
  - repeat constructor; cbn; lia.
  - unfold holds_sample, logic_length, UINT64_MOD. cbn. lia.
  - vm_compute. reflexivity.
Defined.

(** * Line widths that are a multiple of 8 *)

Lemma step_bufs_bound cnt' logic i (m : Z) :
  forall idxs bufs,
  renders cnt' = false -> 0 <= m < 7 ->
  Forall (fun buf => 0 <= buf < 2 ^ m) bufs ->
  Forall (fun buf => 0 <= buf < 2 ^ (m + 1))
    (step_bufs cnt' logic i idxs bufs).
Proof.
  intros idxs bufs Hr Hm. revert bufs.
  induction idxs as [|idx idxs IH]; intros [|buf bufs] H;
    cbn [step_bufs]; try constructor.
  - rewrite Hr, shift_in_arith. inversion H as [|? ? Hb _]; subst.
    assert (H7 : 2 ^ (m + 1) <= 2 ^ 7) by (apply Z.pow_le_mono_r; lia).
    replace (2 ^ (m + 1)) with (2 * 2 ^ m) in *
      by (rewrite Z.pow_add_r by lia; lia).
    change (2 ^ 7) with 128 in H7.
    rewrite Z.mod_small; destruct (sample_bit logic i idx); lia.
  - apply IH. now inversion H.
Qed.

Lemma step_bufs_zero cnt' logic i :
  forall idxs bufs,
  renders cnt' = true ->
  Forall (fun buf => buf = 0) (step_bufs cnt' logic i idxs bufs).
Proof.
  induction idxs as [|idx idxs IH]; intros [|buf bufs] Hr;
    cbn [step_bufs]; try constructor.
  - now rewrite Hr.
  - now apply IH.
Qed.

Lemma step_context_aligned logic i ctx :
  ready ctx -> byte_aligned ctx -> byte_aligned (step_context logic i ctx).
Proof.
  intros [_ Hc _ _] [Hw Hb]. split; [exact Hw|].
  unfold step_context. cbn [spl_cnt sample_buf samples_per_line].
  destruct (renders (spl_cnt ctx + 1)) eqn:Hr.
  - eapply Forall_impl;
      [apply (step_bufs_zero _ logic i (channel_index ctx) (sample_buf ctx)
                Hr)|].
    cbn. intros buf ->.
    assert (0 < 2 ^ ((if spl_cnt ctx + 1 =? samples_per_line ctx then 0
                      else spl_cnt ctx + 1) mod 8)); [|lia].
    apply Z.pow_pos_nonneg; [lia|]. apply Z.mod_pos_bound. lia.
  - unfold renders in Hr. rewrite land_7_mod in Hr.
    destruct (Z.eqb_spec (spl_cnt ctx + 1) 0) as [|_]; [lia|].
    cbn [negb andb] in Hr. apply Z.eqb_neq in Hr.
    pose proof (Z.mod_pos_bound (spl_cnt ctx) 8 ltac:(lia)) as Hm.
    assert (Hs : (spl_cnt ctx + 1) mod 8 = spl_cnt ctx mod 8 + 1).
    { rewrite <- Zplus_mod_idemp_l.
      destruct (Z.eq_dec (spl_cnt ctx mod 8) 7) as [H7|H7].
      - exfalso. apply Hr. rewrite <- Zplus_mod_idemp_l, H7. reflexivity.
      - apply Z.mod_small. lia. }
    destruct (Z.eqb_spec (spl_cnt ctx + 1) (samples_per_line ctx)) as [He|_].
    + exfalso. apply Hr. now rewrite He.
    + rewrite Hs. apply step_bufs_bound; [| |exact Hb].
      * unfold renders. rewrite land_7_mod.
        now rewrite (proj2 (Z.eqb_neq _ _) Hr), andb_false_r.
      * pose proof (Z.mod_pos_bound (spl_cnt ctx + 1) 8 ltac:(lia)). lia.
Qed.

Lemma run_samples_aligned logic k :
  forall i ctx out,
  ready ctx -> byte_aligned ctx ->
  byte_aligned (fst (run_samples k logic i (ctx, out))).
Proof.
  induction k as [|k IH]; intros i ctx out Hr Ha; cbn [run_samples fst snd];
    [exact Ha|].
  apply IH; [now apply step_context_ready|now apply step_context_aligned].
Qed.

(** A byte is rendered as two hex digits that read back as its value. *)
Lemma read_bytes_byte (v : Z) :
  0 <= v < 256 -> read_bytes (fmt_02x v ++ " ") = Some [v].
Proof.
  intros Hv.
  assert (Hall : forallb
                   (fun n => match read_bytes (fmt_02x (Z.of_nat n) ++ " ") with
                             | Some [w] => w =? Z.of_nat n
                             | _ => false
                             end) (seq 0 256) = true)
    by (vm_compute; reflexivity).
  rewrite List.forallb_forall in Hall.
  specialize (Hall (Z.to_nat v)). rewrite Z2Nat.id in Hall by lia.
  assert (Hin : In (Z.to_nat v) (seq 0 256)) by (apply List.in_seq; lia).
  specialize (Hall Hin).
  destruct (read_bytes (fmt_02x v ++ " ")) as [[|w [|]]|]; try discriminate.
  apply Z.eqb_eq in Hall. now subst.
Qed.

(** X22.  With a line width that is a multiple of 8 the accumulators never
    carry bits over a rendered byte or a line: every acceptable packet
    on a [steady] context whose accumulators hold the bits of the current
    byte only leaves such a context. *)
Theorem receive_keeps_byte_aligned (fuel : nat) (o : sr_output)
    (dev : sr_dev_inst) (ctx : context) (pk : sr_datafeed_packet) :
  sdi o = Some dev -> internal o = Some ctx -> steady ctx ->
  byte_aligned ctx -> acceptable fuel ctx pk ->
  exists (ctx' : context) (ch : option string),
    receive fuel (Some o) pk
    = Done (mk_result SR_OK (Some (set_internal o (Some ctx'))) ch)
    /\ byte_aligned ctx'.
Proof.
  intros Hsdi Hint Hst Hal Hacc.
  pose proof (steady_ready ctx Hst) as Hrdy.
  destruct pk as [|logic| |].
  - exists (set_trigger ctx (spl_cnt ctx)), None.
    split; [unfold receive; now rewrite Hsdi, Hint|exact Hal].
  - destruct Hacc as (Hfit & Hpk & Hfuel).
    rewrite (receive_logic_closed fuel o dev ctx logic) by assumption.
    cbv zeta. do 2 eexists. split; [reflexivity|].
    apply run_samples_aligned; [now apply ready_set_header|exact Hal].
  - rewrite (receive_end_closed fuel o dev ctx Hsdi Hint (ready_wf ctx Hrdy)).
    destruct (spl_cnt ctx =? 0).
    + exists ctx, None. rewrite set_internal_same by assumption.
      split; [reflexivity|exact Hal].
    + cbv zeta. do 2 eexists. split; [reflexivity|exact Hal].
  - exists ctx, None. unfold receive. rewrite Hsdi, Hint.
    rewrite set_internal_same by assumption. split; [reflexivity|exact Hal].
Qed.

Lemma ex_context8_steady : steady ex_context8.
Proof.
  split; [split; [split; reflexivity|cbn; lia|cbn; unfold INT_MAX; lia
                 |cbn; intros H; lia]
         |cbn; lia|vm_compute; discriminate].
Qed.

Lemma ex_context8_aligned : byte_aligned ex_context8.
Proof.
  split; [reflexivity|]. repeat constructor; cbn; lia.
Qed.

Lemma receive_keeps_byte_aligned_witness :
  exists (ctx' : context) (ch : option string),
    receive 3 (Some ex_output8) (SR_DF_LOGIC ex_logic3)
    = Done (mk_result SR_OK (Some (set_internal ex_output8 (Some ctx'))) ch)
    /\ byte_aligned ctx'.
Proof.
  refine (receive_keeps_byte_aligned 3 ex_output8 ex_dev ex_context8
            (SR_DF_LOGIC ex_logic3) eq_refl eq_refl ex_context8_steady
            ex_context8_aligned _).
  split; [repeat constructor; cbn; lia|].
  split; [exact ex_logic3_holds|exact (le_n 3)].
Defined.

(** X23.  The partial byte at the end of the stream.  When the accumulators
    hold the bits of the current byte only, the value padded to a byte at
    the end of the stream, the accumulator times [2 ^ (8 - count mod 8)],
    is below 256: every line gets exactly two hex digits and a space,
    which read back as that value. *)
Theorem end_partial_byte_two_digits (fuel : nat) (o : sr_output)
    (dev : sr_dev_inst) (ctx : context) :
  sdi o = Some dev -> internal o = Some ctx -> wf_context ctx ->
  byte_aligned ctx -> spl_cnt ctx mod 8 <> 0 ->
  let pad := 8 - spl_cnt ctx mod 8 in
  let lns :=
    zip_with (fun buf ln => ln ++ fmt_02x (buf * 2 ^ pad) ++ " ")
      (sample_buf ctx) (lines ctx) in
  receive fuel (Some o) SR_DF_END
  = Done (mk_result SR_OK (Some (set_internal o (Some (set_lines ctx lns))))
            (Some (flush_text lns)))
  /\ Forall
       (fun buf =>
          0 <= buf * 2 ^ pad < 256
          /\ read_bytes (fmt_02x (buf * 2 ^ pad) ++ " ")
             = Some [buf * 2 ^ pad])
       (sample_buf ctx).
Proof.
  intros Hsdi Hint Hwf [Hw Hb] Hm pad lns.
  pose proof (Z.mod_pos_bound (spl_cnt ctx) 8 ltac:(lia)) as Hmb.
  assert (Hlns : end_lines (spl_cnt ctx) (sample_buf ctx) (lines ctx) = lns).
  { rewrite end_lines_zip by exact Hm. subst lns pad.
    apply zip_with_ext; [|reflexivity|reflexivity].
    intros buf ln. now rewrite Z.shiftl_mul_pow2 by lia. }
  split.
  - rewrite (receive_end_closed fuel o dev ctx Hsdi Hint Hwf).
    destruct (Z.eqb_spec (spl_cnt ctx) 0) as [He|_];
      [now rewrite He in Hm|].
    cbv zeta. now rewrite Hlns.
  - eapply Forall_impl; [exact Hb|]. cbn. intros buf [H0 H1].
    assert (Hv : 0 <= buf * 2 ^ pad < 256).
    { assert (Hp : 2 ^ (spl_cnt ctx mod 8) * 2 ^ pad = 256).
      { subst pad. rewrite <- Z.pow_add_r by lia.
        now replace (spl_cnt ctx mod 8 + (8 - spl_cnt ctx mod 8)) with 8
          by lia. }
      assert (0 < 2 ^ pad) by (apply Z.pow_pos_nonneg; subst pad; lia).
      nia. }
    split; [exact Hv|now apply read_bytes_byte].
Qed.

Lemma end_partial_byte_two_digits_witness :
  receive 0 (Some ex_output) SR_DF_END
  = Done (mk_result SR_OK
            (Some (set_internal ex_output
                     (Some (set_lines ex_context ["A:e0 "; "B:20 "]))))
            (Some ("A:e0 " ++ newline ++ "B:20 " ++ newline)))
  /\ Forall
       (fun buf =>
          0 <= buf * 2 ^ 5 < 256
          /\ read_bytes (fmt_02x (buf * 2 ^ 5) ++ " ") = Some [buf * 2 ^ 5])
       [7; 1].
Proof.
  refine (end_partial_byte_two_digits 0 ex_output ex_dev ex_context eq_refl
            eq_refl ex_context_wf _ _).
  - split; [reflexivity|]. repeat constructor; cbn; lia.
  - vm_compute. discriminate.
Defined.
